(** * SmartDocs: knowledge-base ingestion and session-context pipeline

    A shallow embedding of the TypeScript sources

      - [src/types.ts]                    (interfaces; the module the others
                                           import as [types])
      - [src/services/geminiService.ts]   (instruction template, provider calls)
      - [src/components/FileUpload.tsx]   (archive / text normalizer)
      - [src/App.tsx]                     (session lifecycle, streaming turn,
                                           knowledge-base persistence)

    JavaScript strings are modelled as [string] (sequences of code units
    below 256), JavaScript numbers that hold integers as [Z], arrays that
    are only ever read as [list].  The document arrays of the live upload
    list and of saved knowledge bases have identity: they live in a heap of
    array cells, so that sharing between the two can be stated. *)

From Stdlib Require Import ZArith String Ascii List Bool Lia DecimalString.
From stdpp Require Import base gmap list strings.

Local Open Scope Z_scope.

(** ** JavaScript string primitives used by the sources *)

Module JS.

Definition quote : string := String "034"%char EmptyString.
Definition nl : string := String "010"%char EmptyString.
Definition nul : string := String "000"%char EmptyString.

(** [s.length] *)
Definition strLength (s : string) : Z := Z.of_nat (String.length s).

(** [s.startsWith(p)] *)
Definition startsWith (s p : string) : bool := String.prefix p s.

(** [s.includes(x)]: [x] occurs at some position of [s]. *)
Fixpoint includes (s x : string) : bool :=
  match s with
  | EmptyString => String.prefix x EmptyString
  | String _ rest => String.prefix x s || includes rest x
  end.

(** [s.endsWith(x)]: the last [x.length] code units of [s] are [x]. *)
Definition endsWith (s x : string) : bool :=
  (String.length x <=? String.length s)%nat &&
  String.eqb (String.substring (String.length s - String.length x)
                               (String.length x) s) x.

(** Lower case of one code unit below 256: A-Z and the Latin-1 capitals
    (all of 192-222 but the multiplication sign) move up by 32. *)
Definition lowerChar (c : ascii) : ascii :=
  let n := nat_of_ascii c in
  if ((65 <=? n) && (n <=? 90)
      || (192 <=? n) && (n <=? 222) && negb (n =? 215))%nat
  then ascii_of_nat (n + 32) else c.

(** [s.toLowerCase()] *)
Fixpoint toLowerCase (s : string) : string :=
  match s with
  | EmptyString => EmptyString
  | String c rest => String (lowerChar c) (toLowerCase rest)
  end.

(** [s.split(sep)] for a one-character separator: never empty. *)
Fixpoint split (s : string) (sep : ascii) : list string :=
  match s with
  | EmptyString => [EmptyString]
  | String c rest =>
      if Ascii.eqb c sep then EmptyString :: split rest sep
      else match split rest sep with
           | [] => [String c EmptyString]
           | seg :: segs => String c seg :: segs
           end
  end.

(** [arr.pop()]: the last element, [undefined] on an empty array. *)
Definition pop {A} (arr : list A) : option A := last arr.

(** [arr.join(sep)] *)
Definition join (arr : list string) (sep : string) : string :=
  String.concat sep arr.

(** White space removed by [trim]: TAB, LF, VT, FF, CR, SP and NBSP. *)
Definition isWhiteSpace (c : ascii) : bool :=
  match nat_of_ascii c with
  | 9 | 10 | 11 | 12 | 13 | 32 | 160 => true
  | _ => false
  end%nat.

Fixpoint trimStart (s : string) : string :=
  match s with
  | EmptyString => EmptyString
  | String c rest => if isWhiteSpace c then trimStart rest else s
  end.

Fixpoint trimEnd (s : string) : string :=
  match s with
  | EmptyString => EmptyString
  | String c rest =>
      match trimEnd rest with
      | EmptyString => if isWhiteSpace c then EmptyString
                       else String c EmptyString
      | r => String c r
      end
  end.

(** [s.trim()] *)
Definition trim (s : string) : string := trimEnd (trimStart s).

(** [n.toString()] and template interpolation of an integer. *)
Definition toString (n : Z) : string := NilZero.string_of_int (Z.to_int n).

(** Truthiness of a string: [!s] is [true] exactly on the empty string. *)
Definition truthy (s : string) : bool :=
  match s with EmptyString => false | _ => true end.

(** [x || d] on numbers: [undefined] and [0] are falsy. *)
Definition orNum (x : option Z) (d : Z) : Z :=
  match x with
  | Some v => if (v =? 0) then d else v
  | None => d
  end.

(** [x || d] on strings: [undefined] and the empty string are falsy. *)
Definition orStr (x : option string) (d : string) : string :=
  match x with
  | Some v => if truthy v then v else d
  | None => d
  end.

(** Outcome of an operation that may throw or reject. *)
Inductive Completion (E A : Type) : Type :=
| Normal (a : A)
| Throw (e : E).
Arguments Normal {E A} a.
Arguments Throw {E A} e.

Arguments trim : simpl never.
Arguments toString : simpl never.
Arguments includes : simpl never.
Arguments toLowerCase : simpl never.
Arguments orNum : simpl never.
Arguments orStr : simpl never.

End JS.

(** ** [src/types.ts] *)

Inductive Role := USER | MODEL.

Module Message.
Record t := mk {
  id : string;
  role : Role;
  text : string;
  timestamp : Z;
  isError : option bool
}.
End Message.

Module UploadedFile.
Record t := mk {
  id : string;
  name : string;
  content : string;
  size : Z;
  type : string
}.
End UploadedFile.

Module UsageStats.
Record t := mk {
  promptTokenCount : Z;
  candidatesTokenCount : Z;
  totalTokenCount : Z
}.
End UsageStats.

Module ChatState.
Record t := mk {
  messages : list Message.t;
  isLoading : bool;
  streamingText : string;
  totalInputTokens : Z;
  totalOutputTokens : Z
}.
End ChatState.

(** ** Values thrown by external collaborators *)

(** An error object: [name], [message] and [status] are the properties the
    handlers read. *)
Record JsError := mkError {
  errName : string;
  message : option string;
  status : option string
}.

(** [catch (error: any)]: the provider may reject with any value; reading a
    property of [undefined] throws a [TypeError]. *)
Inductive Thrown :=
| ThrownUndefined
| ThrownObject (e : JsError).

(** [new Error(msg)] *)
Definition newError (msg : string) : JsError :=
  {| errName := "Error"; message := Some msg; status := None |}.

Definition typeError (prop : string) : JsError :=
  {| errName := "TypeError";
     message := Some ("Cannot read properties of undefined (reading '"
                      +:+ prop +:+ "')");
     status := None |}.

Import JS.

#[global] Instance Completion_ret {E} : MRet (Completion E) := fun _ a => Normal a.
#[global] Instance Completion_bind {E} : MBind (Completion E) :=
  fun _ _ f c => match c with Normal a => f a | Throw e => Throw e end.

(** [try { body } catch (e) { handler }] *)
Definition tryCatch {E E' A} (body : Completion E A)
    (handler : E -> Completion E' A) : Completion E' A :=
  match body with
  | Normal a => Normal a
  | Throw e => handler e
  end.

(** [error.prop] for [error: any]. *)
Definition getProp {A} (prop : string) (proj : JsError -> A) (error : Thrown)
    : Completion JsError A :=
  match error with
  | ThrownUndefined => Throw (typeError prop)
  | ThrownObject e => Normal (proj e)
  end.

(** ** [src/services/geminiService.ts] *)

Module GeminiService.

(** The chat handle returned by [ai.chats.create]. *)
Record Chat := mkChat {
  chatModel : string;
  chatSystemInstruction : string;
  chatTemperatureTenths : Z
}.

Record UsageMetadata := mkUsageMetadata {
  umPromptTokenCount : option Z;
  umCandidatesTokenCount : option Z;
  umTotalTokenCount : option Z
}.

(** One element of the provider's stream. *)
Record GenerateContentResponse := mkChunk {
  chunkText : option string;
  usageMetadata : option UsageMetadata
}.

(** What [chat.sendMessageStream] does for one message: the chunks it
    yields, and the value it rejects with, if any, after them. *)
Record StreamOutcome := mkStream {
  chunks : list GenerateContentResponse;
  failure : option Thrown
}.

(** The external provider as seen by one handler run. *)
Record Provider := mkProvider {
  apiKey : option string;
  countTokens : string -> string -> Completion Thrown (option Z);
  chatsCreate : Chat -> Completion Thrown Chat;
  chatSendMessageStream : Chat -> string -> StreamOutcome
}.

Definition getClient (ai : Provider) : Completion Thrown Provider :=
  match apiKey ai with
  | Some k =>
      if truthy k then Normal ai
      else Throw (ThrownObject (newError
        "API_KEY is missing. Please set process.env.API_KEY or VITE_API_KEY in your .env file."))
  | None => Throw (ThrownObject (newError
        "API_KEY is missing. Please set process.env.API_KEY or VITE_API_KEY in your .env file."))
  end.

Definition MODEL_NAME : string := "gemini-3-flash-preview".

Definition sp4 : string := "    ".

(** The template literal up to [${context}]. *)
Definition templateHead : string :=
  nl +:+
  sp4 +:+ "You are an expert technical support agent for a specific SDK/Product. " +:+ nl +:+
  sp4 +:+ "You have been provided with the following " +:+ quote +:+ "Knowledge Base" +:+ quote
      +:+ " consisting of documentation and historical Q&A." +:+ nl +:+
  sp4 +:+ nl +:+
  sp4 +:+ "--- START KNOWLEDGE BASE ---" +:+ nl +:+
  sp4.

(** The template literal after [${context}]. *)
Definition templateTail : string :=
  nl +:+
  sp4 +:+ "--- END KNOWLEDGE BASE ---" +:+ nl +:+
  nl +:+
  sp4 +:+ "INSTRUCTIONS:" +:+ nl +:+
  sp4 +:+ "1. Your primary goal is to answer user questions accurately based ONLY on the provided Knowledge Base." +:+ nl +:+
  sp4 +:+ "2. If the user's question can be answered by the Knowledge Base, provide a clear, technical, and helpful response. Use code snippets if relevant." +:+ nl +:+
  sp4 +:+ "3. If the user's question is NOT found in the Knowledge Base or is not a general greeting (like "
      +:+ quote +:+ "hi" +:+ quote +:+ ", " +:+ quote +:+ "hello" +:+ quote
      +:+ "), you MUST strictly reply with a variation of: " +:+ quote
      +:+ "I'm sorry, but this specific issue isn't covered in my current documentation. Please contact our support team at support@example.com for further assistance."
      +:+ quote +:+ nl +:+
  sp4 +:+ "4. Do not hallucinate features or APIs that are not in the provided text." +:+ nl +:+
  sp4 +:+ "5. Maintain a professional, empathetic, and polite tone." +:+ nl +:+
  "  ".

Definition buildSystemInstruction (context : string) : string :=
  trim (templateHead +:+ context +:+ templateTail).

(** [response.totalTokens || 0]; the [catch] block warns and returns 0. *)
Definition estimateTokenCount (ai : Provider) (text : string) : Z :=
  match (client ← getClient ai;
         response ← countTokens client MODEL_NAME text;
         mret (orNum response 0)) with
  | Normal n => n
  | Throw _ => 0
  end.

Definition createChatSession (ai : Provider) (context : string)
    : Completion Thrown Chat :=
  client ← getClient ai;
  let systemInstruction := buildSystemInstruction context in
  chatsCreate client
    {| chatModel := MODEL_NAME;
       chatSystemInstruction := systemInstruction;
       chatTemperatureTenths := 2 |}.

(** State of the [for await] loop: [fullText] and [finalUsage], together
    with the state [S] the [onChunk] callback acts on. *)
Definition streamStep {S} (onChunk : string -> S -> S)
    (acc : S * (string * option UsageStats.t)) (c : GenerateContentResponse)
    : S * (string * option UsageStats.t) :=
  let '(st, (fullText, finalUsage)) := acc in
  let '(st, fullText) :=
    match chunkText c with
    | Some text => if truthy text then (onChunk text st, fullText +:+ text)
                   else (st, fullText)
    | None => (st, fullText)
    end in
  let finalUsage :=
    match usageMetadata c with
    | Some um => Some {|
        UsageStats.promptTokenCount := orNum (umPromptTokenCount um) 0;
        UsageStats.candidatesTokenCount := orNum (umCandidatesTokenCount um) 0;
        UsageStats.totalTokenCount := orNum (umTotalTokenCount um) 0 |}
    | None => finalUsage
    end in
  (st, (fullText, finalUsage)).

(** The [catch] block: the diagnostic carried by the re-thrown [Error]. *)
Definition streamErrorMessage (error : Thrown) : Completion JsError string :=
  msg ← getProp "message" message error;
  st ← getProp "status" status error;
  let unknown :=
    match msg with Some m => includes m "http status code: 0" | None => false end
    || match st with Some v => String.eqb v "UNKNOWN" | None => false end in
  if unknown then
    mret "Connection failed. This could be due to a network issue, an invalid API Key, or a browser extension blocking the request."
  else match msg with
       | Some m => if truthy m then mret ("Error: " +:+ m)
                   else mret "An error occurred while communicating with the AI."
       | None => mret "An error occurred while communicating with the AI."
       end.

Definition sendMessageStream {S} (ai : Provider) (chat : Chat)
    (message : string) (onChunk : string -> S -> S) (st : S)
    : S * Completion JsError (string * option UsageStats.t) :=
  let result := chatSendMessageStream ai chat message in
  let '(st, (fullText, finalUsage)) :=
    fold_left (streamStep onChunk) (chunks result)
              (st, (EmptyString, None)) in
  match failure result with
  | None => (st, Normal (fullText, finalUsage))
  | Some error =>
      (st, errorMessage ← streamErrorMessage error;
           Throw (newError errorMessage))
  end.

End GeminiService.

(** ** [src/components/FileUpload.tsx] *)

Module FileUpload.

Definition TEXT_EXTENSIONS : gset string :=
  list_to_set
    [ "txt"; "md"; "json"; "ts"; "js"; "tsx"; "jsx";
      "cpp"; "c"; "h"; "hpp"; "py"; "sh"; "java";
      "html"; "css"; "scss"; "xml"; "yaml"; "yml";
      "sql"; "rs"; "go"; "rb"; "php" ].

Definition isTextFile (filename : string) : bool :=
  match pop (split filename "."%char) with
  | Some last =>
      let ext := toLowerCase last in
      if truthy ext then bool_decide (ext ∈ TEXT_EXTENSIONS) else false
  | None => false
  end.

(** An entry of an opened archive (JSZip's [ZipObject]): [async] is the
    outcome of [zipEntry.async('string')]. *)
Module ZipObject.
Record t := mk {
  name : string;
  dir : bool;
  async : Completion Thrown string
}.
End ZipObject.

(** An uploaded blob.  Its payload is seen through the two ways the
    component reads it: [file.text()] and [JSZip.loadAsync(file)], whose
    entries come in the archive's enumeration order. *)
Module File.
Record t := mk {
  name : string;
  type : string;
  size : Z;
  text : Completion Thrown string;
  loadAsync : Completion Thrown (list ZipObject.t)
}.
End File.

(** What one run of the handler has produced so far: the local array
    [newFiles], the number of identifiers drawn from [Math.random] and
    the alerts shown. *)
Record Acc := mkAcc {
  newFiles : list UploadedFile.t;
  draws : nat;
  alerts : list string
}.

Section Normalizer.

(** [Math.random().toString(36).substr(2, 9)] at the k-th draw. *)
Variable randomId : nat -> string.

(** The callback of [zip.forEach]: the entries whose decoding promise
    is pushed on [promises]. *)
Definition forEachEntry (promises : list ZipObject.t)
    (zipEntry : ZipObject.t) : list ZipObject.t :=
  if ZipObject.dir zipEntry
     || includes (ZipObject.name zipEntry) "__MACOSX"
     || startsWith (ZipObject.name zipEntry) "."
  then promises
  else if isTextFile (ZipObject.name zipEntry)
       then promises ++ [zipEntry]
       else promises.

(** The [then] callback of one entry. *)
Definition entryDocument (zipEntry : ZipObject.t) (k : nat)
    (content : string) : UploadedFile.t :=
  {| UploadedFile.id := randomId k;
     UploadedFile.name := ZipObject.name zipEntry;
     UploadedFile.content := content;
     UploadedFile.size := strLength content;
     UploadedFile.type := "text/plain" |}.

(** [Promise.all(promises)]: every fulfilled entry runs its [then]
    callback (and draws an identifier); the whole is rejected with the
    first rejection.  The callbacks are taken in the order of the entries;
    the program runs them in the order in which the decodings complete,
    which changes only which document receives which random identifier. *)
Fixpoint promiseAll (promises : list ZipObject.t) (k : nat)
    : Completion Thrown (list UploadedFile.t) * nat :=
  match promises with
  | [] => (Normal [], k)
  | zipEntry :: rest =>
      match ZipObject.async zipEntry with
      | Normal content =>
          let '(r, k') := promiseAll rest (S k) in
          (res ← r; mret (entryDocument zipEntry k content :: res), k')
      | Throw e =>
          let '(_, k') := promiseAll rest k in
          (Throw e, k')
      end
  end.

(** The zip branch of the loop body, with its [try]/[catch]. *)
Definition processZip (file : File.t) (acc : Acc) : Acc :=
  match File.loadAsync file with
  | Normal entries =>
      let promises := fold_left forEachEntry entries [] in
      match promiseAll promises (draws acc) with
      | (Normal results, k) =>
          {| newFiles := newFiles acc ++ results;
             draws := k;
             alerts := alerts acc |}
      | (Throw _, k) =>
          {| newFiles := newFiles acc;
             draws := k;
             alerts := alerts acc ++
               ["Failed to process zip file: " +:+ File.name file] |}
      end
  | Throw _ =>
      {| newFiles := newFiles acc;
         draws := draws acc;
         alerts := alerts acc ++
           ["Failed to process zip file: " +:+ File.name file] |}
  end.

(** The body of [for (const file of fileList)].  [Acc] records the
    documents pushed, the identifiers drawn and the alerts shown.  What the
    [catch] blocks write to the console ([console.error] for an archive,
    [console.warn] with the file's name for a single file) is not
    recorded. *)
Definition processFile (acc : Acc) (file : File.t) : Acc :=
  if endsWith (File.name file) ".zip" || includes (File.type file) "zip"
  then processZip file acc
  else if isTextFile (File.name file) || startsWith (File.type file) "text/"
  then
    match File.text file with
    | Normal text =>
        {| newFiles := newFiles acc ++
             [ {| UploadedFile.id := randomId (draws acc);
                  UploadedFile.name := File.name file;
                  UploadedFile.content := text;
                  UploadedFile.size := File.size file;
                  UploadedFile.type :=
                    if truthy (File.type file) then File.type file
                    else "text/plain" |} ];
           draws := S (draws acc);
           alerts := alerts acc |}
    | Throw _ => acc
    end
  else
    match File.text file with
    | Normal text =>
        if negb (includes text nul) then
          {| newFiles := newFiles acc ++
               [ {| UploadedFile.id := randomId (draws acc);
                    UploadedFile.name := File.name file;
                    UploadedFile.content := text;
                    UploadedFile.size := File.size file;
                    UploadedFile.type := File.type file |} ];
             draws := S (draws acc);
             alerts := alerts acc |}
        else acc
    | Throw _ => acc
    end.

(** The loop of [handleFileChange] over [Array.from(event.target.files)],
    started with an empty [newFiles]; [k] identifiers were drawn before. *)
Definition normalize (fileList : list File.t) (k : nat) : Acc :=
  fold_left processFile fileList
    {| newFiles := []; draws := k; alerts := [] |}.

(** [removeFile]: the updater [prev => prev.filter(f => f.id !== id)]. *)
Definition removeFile (id : string) (prev : list UploadedFile.t)
    : list UploadedFile.t :=
  filter (fun f => UploadedFile.id f ≠ id) prev.

End Normalizer.

(** The rendering of one row of the file list: the icon chosen for a
    name and the name shown, [file.name.split('/').pop()]. *)
Inductive Icon := FolderArchive | FileCode | FileText.

Definition fileIcon (name : string) : Icon :=
  if includes name "/" then FolderArchive
  else if endsWith name ".json" || endsWith name ".ts"
          || endsWith name ".cpp" || endsWith name ".py"
       then FileCode
       else FileText.

Definition displayName (name : string) : option string :=
  pop (split name "/"%char).

End FileUpload.

(** ** [src/App.tsx] *)

Module App.

Import GeminiService.

(** Identity of a JavaScript array of documents. *)
Definition loc := nat.

(** [KnowledgeBase] of [src/types.ts]; [files] refers to an array. *)
Module KnowledgeBase.
Record t := mk {
  id : string;
  name : string;
  createdAt : Z;
  files : loc
}.
End KnowledgeBase.

(** One record of the text [JSON.stringify] writes: the JSON text is
    represented by the value it encodes. *)
Module StoredKB.
Record t := mk {
  id : string;
  name : string;
  createdAt : Z;
  files : list UploadedFile.t
}.
End StoredKB.

Inductive Tab := upload | library.

Inductive Cell :=
| Files | SavedKBs | ActiveTab | IsSidebarOpen | SessionActive
| ChatInstance | ShowSaveInput | SaveName | ChatStateCell | InputMessage.

(** Calls a handler makes, in program order: state setters and host
    functions. *)
Inductive Call :=
| SetState (cell : Cell)
| Alert (msg : string)
| Confirm (msg : string) (answer : bool)
| SetItem (key : string) (value : list StoredKB.t) (ok : bool)
| ConsoleError (msg : string).

(** The component's state cells ([useState]), the heap of document
    arrays, and the host: the storage slot ['smartsdk_kbs'], the clock
    reads made so far and the log of calls. *)
Record State := mkState {
  heap : gmap loc (list UploadedFile.t);
  files : loc;
  savedKBs : list KnowledgeBase.t;
  activeTab : Tab;
  isSidebarOpen : bool;
  sessionActive : bool;
  chatInstance : option Chat;
  showSaveInput : bool;
  saveName : string;
  chatState : ChatState.t;
  inputMessage : string;
  localStorage : option (list StoredKB.t);
  ticks : nat;
  draws : nat;
  calls : list Call
}.

(** Result of running an [async] handler: the state it leaves and the
    exception it rejects with, if one escapes it. *)
Record Run := mkRun {
  final : State;
  uncaught : option JsError
}.

Definition emptyChatState : ChatState.t :=
  {| ChatState.messages := [];
     ChatState.isLoading := false;
     ChatState.streamingText := EmptyString;
     ChatState.totalInputTokens := 0;
     ChatState.totalOutputTokens := 0 |}.

(** The first render: [files] is a new empty array. *)
Definition initial (stored : option (list StoredKB.t)) : State :=
  {| heap := {[ 0%nat := [] ]};
     files := 0%nat;
     savedKBs := [];
     activeTab := upload;
     isSidebarOpen := true;
     sessionActive := false;
     chatInstance := None;
     showSaveInput := false;
     saveName := EmptyString;
     chatState := emptyChatState;
     inputMessage := EmptyString;
     localStorage := stored;
     ticks := 0;
     draws := 0;
     calls := [] |}.

(** *** Primitive calls *)

Definition log (c : Call) (s : State) : State :=
  mkState (heap s) (files s) (savedKBs s) (activeTab s) (isSidebarOpen s)
    (sessionActive s) (chatInstance s) (showSaveInput s) (saveName s)
    (chatState s) (inputMessage s) (localStorage s) (ticks s) (draws s)
    (calls s ++ [c]).

Definition setFiles (v : loc) (s : State) : State :=
  log (SetState Files)
    (mkState (heap s) v (savedKBs s) (activeTab s) (isSidebarOpen s)
       (sessionActive s) (chatInstance s) (showSaveInput s) (saveName s)
       (chatState s) (inputMessage s) (localStorage s) (ticks s) (draws s)
       (calls s)).

Definition setSavedKBs (v : list KnowledgeBase.t) (s : State) : State :=
  log (SetState SavedKBs)
    (mkState (heap s) (files s) v (activeTab s) (isSidebarOpen s)
       (sessionActive s) (chatInstance s) (showSaveInput s) (saveName s)
       (chatState s) (inputMessage s) (localStorage s) (ticks s) (draws s)
       (calls s)).

Definition setActiveTab (v : Tab) (s : State) : State :=
  log (SetState ActiveTab)
    (mkState (heap s) (files s) (savedKBs s) v (isSidebarOpen s)
       (sessionActive s) (chatInstance s) (showSaveInput s) (saveName s)
       (chatState s) (inputMessage s) (localStorage s) (ticks s) (draws s)
       (calls s)).

Definition setIsSidebarOpen (v : bool) (s : State) : State :=
  log (SetState IsSidebarOpen)
    (mkState (heap s) (files s) (savedKBs s) (activeTab s) v
       (sessionActive s) (chatInstance s) (showSaveInput s) (saveName s)
       (chatState s) (inputMessage s) (localStorage s) (ticks s) (draws s)
       (calls s)).

Definition setSessionActive (v : bool) (s : State) : State :=
  log (SetState SessionActive)
    (mkState (heap s) (files s) (savedKBs s) (activeTab s) (isSidebarOpen s)
       v (chatInstance s) (showSaveInput s) (saveName s)
       (chatState s) (inputMessage s) (localStorage s) (ticks s) (draws s)
       (calls s)).

Definition setChatInstance (v : option Chat) (s : State) : State :=
  log (SetState ChatInstance)
    (mkState (heap s) (files s) (savedKBs s) (activeTab s) (isSidebarOpen s)
       (sessionActive s) v (showSaveInput s) (saveName s)
       (chatState s) (inputMessage s) (localStorage s) (ticks s) (draws s)
       (calls s)).

Definition setShowSaveInput (v : bool) (s : State) : State :=
  log (SetState ShowSaveInput)
    (mkState (heap s) (files s) (savedKBs s) (activeTab s) (isSidebarOpen s)
       (sessionActive s) (chatInstance s) v (saveName s)
       (chatState s) (inputMessage s) (localStorage s) (ticks s) (draws s)
       (calls s)).

Definition setSaveName (v : string) (s : State) : State :=
  log (SetState SaveName)
    (mkState (heap s) (files s) (savedKBs s) (activeTab s) (isSidebarOpen s)
       (sessionActive s) (chatInstance s) (showSaveInput s) v
       (chatState s) (inputMessage s) (localStorage s) (ticks s) (draws s)
       (calls s)).

(** [setChatState(prev => ...)] and [setChatState(value)]. *)
Definition setChatState (f : ChatState.t -> ChatState.t) (s : State)
    : State :=
  log (SetState ChatStateCell)
    (mkState (heap s) (files s) (savedKBs s) (activeTab s) (isSidebarOpen s)
       (sessionActive s) (chatInstance s) (showSaveInput s) (saveName s)
       (f (chatState s)) (inputMessage s) (localStorage s) (ticks s)
       (draws s) (calls s)).

Definition setInputMessage (v : string) (s : State) : State :=
  log (SetState InputMessage)
    (mkState (heap s) (files s) (savedKBs s) (activeTab s) (isSidebarOpen s)
       (sessionActive s) (chatInstance s) (showSaveInput s) (saveName s)
       (chatState s) v (localStorage s) (ticks s) (draws s) (calls s)).

Definition alert (msg : string) (s : State) : State := log (Alert msg) s.

Definition consoleError (msg : string) (s : State) : State :=
  log (ConsoleError msg) s.

(** [confirm(msg)], answered [answer] by the user. *)
Definition confirm (msg : string) (answer : bool) (s : State) : State :=
  log (Confirm msg answer) s.

(** The contents of a document array; a location that was never
    allocated reads as the empty array. *)
Definition readArray (s : State) (l : loc) : list UploadedFile.t :=
  default [] (heap s !! l).

(** A new array (a literal, a spread or a [filter] result). *)
Definition allocArray (v : list UploadedFile.t) (s : State) : loc * State :=
  let l := fresh (dom (heap s)) in
  (l, mkState (<[ l := v ]> (heap s)) (files s) (savedKBs s) (activeTab s)
        (isSidebarOpen s) (sessionActive s) (chatInstance s)
        (showSaveInput s) (saveName s) (chatState s) (inputMessage s)
        (localStorage s) (ticks s) (draws s) (calls s)).

(** [JSON.stringify(kbs)] *)
Definition stringify (s : State) (kbs : list KnowledgeBase.t)
    : list StoredKB.t :=
  map (fun kb =>
         {| StoredKB.id := KnowledgeBase.id kb;
            StoredKB.name := KnowledgeBase.name kb;
            StoredKB.createdAt := KnowledgeBase.createdAt kb;
            StoredKB.files := readArray s (KnowledgeBase.files kb) |}) kbs.

(** [localStorage.setItem('smartsdk_kbs', value)]: the host either
    stores the value or throws [error]. *)
Definition setItem (value : list StoredKB.t) (error : option JsError)
    (s : State) : State * option JsError :=
  match error with
  | None =>
      (log (SetItem "smartsdk_kbs" value true)
         (mkState (heap s) (files s) (savedKBs s) (activeTab s)
            (isSidebarOpen s) (sessionActive s) (chatInstance s)
            (showSaveInput s) (saveName s) (chatState s) (inputMessage s)
            (Some value) (ticks s) (draws s) (calls s)),
       None)
  | Some e => (log (SetItem "smartsdk_kbs" value false) s, Some e)
  end.

Definition withDraws (k : nat) (s : State) : State :=
  mkState (heap s) (files s) (savedKBs s) (activeTab s) (isSidebarOpen s)
    (sessionActive s) (chatInstance s) (showSaveInput s) (saveName s)
    (chatState s) (inputMessage s) (localStorage s) (ticks s) k (calls s).

Section Handlers.

(** The host clock at its k-th read, and the locale formatting of a
    time stamp. *)
Variable clock : nat -> Z.
Variable toLocaleDateString : Z -> string.
Variable toLocaleTimeString : Z -> string.
Variable randomId : nat -> string.

(** [Date.now()] and [new Date()]. *)
Definition dateNow (s : State) : Z * State :=
  (clock (ticks s),
   mkState (heap s) (files s) (savedKBs s) (activeTab s) (isSidebarOpen s)
     (sessionActive s) (chatInstance s) (showSaveInput s) (saveName s)
     (chatState s) (inputMessage s) (localStorage s) (S (ticks s))
     (draws s) (calls s)).

(** [handleFileChange] of the upload component, whose [setFiles] is
    the updater [prev => [...prev, ...newFiles]]. *)
Definition handleFileChange (targetFiles : option (list FileUpload.File.t))
    (s : State) : State :=
  match targetFiles with
  | Some fileList =>
      let acc := FileUpload.normalize randomId fileList (draws s) in
      let s := withDraws (FileUpload.draws acc) s in
      let s := fold_left (fun s msg => alert msg s) (FileUpload.alerts acc) s in
      let '(l, s) :=
        allocArray (readArray s (files s) ++ FileUpload.newFiles acc) s in
      setFiles l s
  | None => s
  end.

Definition removeFile (id : string) (s : State) : State :=
  let '(l, s) :=
    allocArray (FileUpload.removeFile id (readArray s (files s))) s in
  setFiles l s.

Definition renderDocument (f : UploadedFile.t) : string :=
  "--- Document: " +:+ UploadedFile.name f +:+ " ---" +:+ nl
    +:+ UploadedFile.content f +:+ nl.

(** The local constants [knowledgeBase] and [systemInstruction] of
    [handleStartSession], as functions of the captured [files]. *)
Definition knowledgeBase (documents : list UploadedFile.t) : string :=
  join (map renderDocument documents) nl.

Definition systemInstruction (documents : list UploadedFile.t) : string :=
  buildSystemInstruction (knowledgeBase documents).

Definition greeting (n : nat) : string :=
  "Hello! I've analyzed your " +:+ toString (Z.of_nat n)
    +:+ " document(s). I'm ready to answer questions specifically about this knowledge base. How can I help you?".

Definition handleStartSession (ai : Provider) (s : State) : Run :=
  let documents := readArray s (files s) in
  if (length documents =? 0)%nat then mkRun s None
  else
    let s := setChatState (fun prev =>
               {| ChatState.messages := ChatState.messages prev;
                  ChatState.isLoading := true;
                  ChatState.streamingText := ChatState.streamingText prev;
                  ChatState.totalInputTokens := ChatState.totalInputTokens prev;
                  ChatState.totalOutputTokens := ChatState.totalOutputTokens prev |}) s in
    let initialInputTokens :=
      estimateTokenCount ai (systemInstruction documents) in
    match createChatSession ai (knowledgeBase documents) with
    | Normal chat =>
        let s := setChatInstance (Some chat) s in
        let s := setSessionActive true s in
        let '(now, s) := dateNow s in
        let s := setChatState (fun prev =>
               {| ChatState.messages :=
                    [ {| Message.id := "init";
                         Message.role := MODEL;
                         Message.text := greeting (length documents);
                         Message.timestamp := now;
                         Message.isError := None |} ];
                  ChatState.isLoading := false;
                  ChatState.streamingText := EmptyString;
                  ChatState.totalInputTokens := initialInputTokens;
                  ChatState.totalOutputTokens := 0 |}) s in
        mkRun s None
    | Throw error =>
        let s := consoleError "Failed to start session" s in
        match getProp "message" message error with
        | Normal m =>
            let msg := orStr m "Failed to initialize the AI session." in
            let s := alert msg s in
            let s := setChatState (fun prev =>
               {| ChatState.messages := ChatState.messages prev;
                  ChatState.isLoading := false;
                  ChatState.streamingText := ChatState.streamingText prev;
                  ChatState.totalInputTokens := ChatState.totalInputTokens prev;
                  ChatState.totalOutputTokens := ChatState.totalOutputTokens prev |}) s in
            mkRun s None
        | Throw e => mkRun s (Some e)
        end
    end.

Definition handleReset (s : State) : State :=
  let s := setSessionActive false s in
  let s := setChatInstance None s in
  setChatState (fun _ => emptyChatState) s.

Definition handleCreateNew (s : State) : State :=
  let '(l, s) := allocArray [] s in
  let s := setFiles l s in
  let s := setShowSaveInput false s in
  let s := setSaveName EmptyString s in
  let s := setSessionActive false s in
  let s := setChatInstance None s in
  let s := setChatState (fun _ => emptyChatState) s in
  setActiveTab upload s.

Definition handleClearWorkspace (answer : bool) (s : State) : State :=
  let s := confirm "Are you sure you want to clear all files?" answer s in
  if answer then
    let '(l, s) := allocArray [] s in
    let s := setFiles l s in
    let s := setShowSaveInput false s in
    setSaveName EmptyString s
  else s.

(** The [onChunk] callback of [handleSendMessage]: it acts on the
    component state and on the local [fullResponse]. *)
Definition onChunk (chunk : string) (st : State * string)
    : State * string :=
  (setChatState (fun prev =>
       {| ChatState.messages := ChatState.messages prev;
          ChatState.isLoading := ChatState.isLoading prev;
          ChatState.streamingText := ChatState.streamingText prev +:+ chunk;
          ChatState.totalInputTokens := ChatState.totalInputTokens prev;
          ChatState.totalOutputTokens := ChatState.totalOutputTokens prev |})
     (fst st),
   snd st +:+ chunk).

Definition handleSendMessage (ai : Provider) (s : State) : Run :=
  match chatInstance s with
  | None => mkRun s None
  | Some chat =>
    if negb (truthy (trim (inputMessage s)))
       || ChatState.isLoading (chatState s)
    then mkRun s None
    else
      let userMsgText := trim (inputMessage s) in
      let s := setInputMessage EmptyString s in
      let '(now, s) := dateNow s in
      let '(date, s) := dateNow s in
      let newUserMsg :=
        {| Message.id := toString now;
           Message.role := USER;
           Message.text := userMsgText;
           Message.timestamp := date;
           Message.isError := None |} in
      let s := setChatState (fun prev =>
         {| ChatState.messages := ChatState.messages prev ++ [newUserMsg];
            ChatState.isLoading := true;
            ChatState.streamingText := EmptyString;
            ChatState.totalInputTokens := ChatState.totalInputTokens prev;
            ChatState.totalOutputTokens := ChatState.totalOutputTokens prev |}) s in
      match sendMessageStream ai chat userMsgText onChunk (s, EmptyString) with
      | ((s, fullResponse), Normal (_, usage)) =>
          let '(now, s) := dateNow s in
          let '(date, s) := dateNow s in
          let newBotMsg :=
            {| Message.id := toString (now + 1);
               Message.role := MODEL;
               Message.text := fullResponse;
               Message.timestamp := date;
               Message.isError := None |} in
          let s := setChatState (fun prev =>
             {| ChatState.messages := ChatState.messages prev ++ [newBotMsg];
                ChatState.isLoading := false;
                ChatState.streamingText := EmptyString;
                ChatState.totalInputTokens :=
                  ChatState.totalInputTokens prev
                  + orNum (UsageStats.promptTokenCount <$> usage) 0;
                ChatState.totalOutputTokens :=
                  ChatState.totalOutputTokens prev
                  + orNum (UsageStats.candidatesTokenCount <$> usage) 0 |}) s in
          mkRun s None
      | ((s, _), Throw error) =>
          let errorText :=
            orStr (message error)
              "I encountered an error connecting to the support system." in
          let '(now, s) := dateNow s in
          let '(date, s) := dateNow s in
          let errorMsg :=
            {| Message.id := toString now;
               Message.role := MODEL;
               Message.text := errorText;
               Message.timestamp := date;
               Message.isError := Some true |} in
          let s := setChatState (fun prev =>
             {| ChatState.messages := ChatState.messages prev ++ [errorMsg];
                ChatState.isLoading := false;
                ChatState.streamingText := EmptyString;
                ChatState.totalInputTokens := ChatState.totalInputTokens prev;
                ChatState.totalOutputTokens := ChatState.totalOutputTokens prev |}) s in
          mkRun s None
      end
  end.

(** *** Knowledge-base management *)

Definition handleInitiateSave (s : State) : State :=
  if (length (readArray s (files s)) =? 0)%nat then s
  else
    let '(d1, s) := dateNow s in
    let '(d2, s) := dateNow s in
    let s := setSaveName ("SDK Docs - " +:+ toLocaleDateString d1 +:+ " "
                          +:+ toLocaleTimeString d2) s in
    setShowSaveInput true s.

Definition quotaAlert : string :=
  "Cannot save Knowledge Base: Storage limit exceeded." +:+ nl +:+ nl +:+
  "Browser local storage is limited (usually ~5MB). Please try removing old Knowledge Bases or uploading fewer/smaller files.".

(** The test of the [catch] block of [handleConfirmSave]. *)
Definition isQuotaError (error : JsError) : bool :=
  String.eqb (errName error) "QuotaExceededError"
  || match message error with
     | Some m => includes (toLowerCase m) "quota"
     | None => false
     end.

(** [setItemError] is what [localStorage.setItem] throws at this call,
    if it throws. *)
Definition handleConfirmSave (setItemError : option JsError) (s : State)
    : State :=
  if negb (truthy (trim (saveName s))) then
    alert "Please enter a name for the Knowledge Base." s
  else
    let '(now, s) := dateNow s in
    let '(createdAt, s) := dateNow s in
    let '(copy, s) := allocArray (readArray s (files s)) s in
    let newKB :=
      {| KnowledgeBase.id := toString now;
         KnowledgeBase.name := trim (saveName s);
         KnowledgeBase.createdAt := createdAt;
         KnowledgeBase.files := copy |} in
    let updatedKBs := savedKBs s ++ [newKB] in
    match setItem (stringify s updatedKBs) setItemError s with
    | (s, None) =>
        let s := setSavedKBs updatedKBs s in
        let s := setShowSaveInput false s in
        let s := setSaveName EmptyString s in
        let s := alert "Knowledge Base saved successfully!" s in
        setActiveTab library s
    | (s, Some error) =>
        let s := consoleError "Error saving KB:" s in
        if isQuotaError error then alert quotaAlert s
        else alert "Failed to save Knowledge Base. Please try again." s
    end.

Definition handleCancelSave (s : State) : State :=
  let s := setShowSaveInput false s in
  setSaveName EmptyString s.

Definition handleLoadKB (kb : KnowledgeBase.t) (answer : bool) (s : State)
    : State :=
  if sessionActive s then
    let s := confirm "Loading a new Knowledge Base will reset your current chat session. Continue?" answer s in
    if negb answer then s
    else
      let s := handleReset s in
      let s := setFiles (KnowledgeBase.files kb) s in
      setActiveTab upload s
  else
    let s := setFiles (KnowledgeBase.files kb) s in
    setActiveTab upload s.

Definition handleDeleteKB (id : string) (answer : bool)
    (setItemError : option JsError) (s : State) : State :=
  let s := confirm "Are you sure you want to delete this Knowledge Base?" answer s in
  if negb answer then s
  else
    let updated :=
      filter (fun kb => KnowledgeBase.id kb ≠ id) (savedKBs s) in
    match setItem (stringify s updated) setItemError s with
    | (s, None) => setSavedKBs updated s
    | (s, Some _) =>
        let s := consoleError "Error deleting KB:" s in
        alert "Failed to delete Knowledge Base." s
    end.

(** The effect run on mount: [JSON.parse] of the stored text builds new
    records with new arrays.  The slot is represented by the list of records
    its text encodes, so this is the [try] branch of the effect only: a slot
    whose text [JSON.parse] rejects (the [catch] branch, which logs the
    error and leaves [savedKBs] empty beside a non-empty slot), or whose
    text encodes something other than a list of records, has no counterpart
    here. *)
Definition parseStored (acc : list KnowledgeBase.t * State)
    (stored : StoredKB.t) : list KnowledgeBase.t * State :=
  let '(l, s) := allocArray (StoredKB.files stored) (snd acc) in
  (fst acc ++
     [ {| KnowledgeBase.id := StoredKB.id stored;
          KnowledgeBase.name := StoredKB.name stored;
          KnowledgeBase.createdAt := StoredKB.createdAt stored;
          KnowledgeBase.files := l |} ],
   s).

Definition mount (s : State) : State :=
  match localStorage s with
  | Some saved =>
      let '(kbs, s) := fold_left parseStored saved ([], s) in
      setSavedKBs kbs s
  | None => s
  end.

(** *** User actions *)

(** What the user and the host can make the component do; each action
    carries the answers of the outside world it consumes. *)
Inductive Event :=
| FileChange (targetFiles : option (list FileUpload.File.t))
| RemoveFile (id : string)
| ClearWorkspace (answer : bool)
| StartSession (ai : Provider)
| Reset
| CreateNew
| TypeMessage (text : string)
| SendMessage (ai : Provider)
| InitiateSave
| TypeSaveName (text : string)
| ConfirmSave (setItemError : option JsError)
| CancelSave
| LoadKB (index : nat) (answer : bool)
| DeleteKB (index : nat) (answer : bool) (setItemError : option JsError)
| SelectTab (tab : Tab)
| ToggleSidebar.

(** One handler run from its first statement to its last.  The
    asynchronous handlers are taken as a whole, with the state updates of
    their continuations applied in program order.  The component refuses a
    second turn while [isLoading] is set, but not every other action: the
    reset button, for one, stays enabled while a turn is streaming.  A
    handler that starts while another is suspended at an [await] is not
    described by [step]. *)
Definition step (s : State) (e : Event) : State :=
  match e with
  | FileChange fl => handleFileChange fl s
  | RemoveFile id => removeFile id s
  | ClearWorkspace a => handleClearWorkspace a s
  | StartSession ai => final (handleStartSession ai s)
  | Reset => handleReset s
  | CreateNew => handleCreateNew s
  | TypeMessage text => setInputMessage text s
  | SendMessage ai => final (handleSendMessage ai s)
  | InitiateSave => handleInitiateSave s
  | TypeSaveName text => setSaveName text s
  | ConfirmSave err => handleConfirmSave err s
  | CancelSave => handleCancelSave s
  | LoadKB i a =>
      match savedKBs s !! i with
      | Some kb => handleLoadKB kb a s
      | None => s
      end
  | DeleteKB i a err =>
      match savedKBs s !! i with
      | Some kb => handleDeleteKB (KnowledgeBase.id kb) a err s
      | None => s
      end
  | SelectTab tab => setActiveTab tab s
  | ToggleSidebar => setIsSidebarOpen (negb (isSidebarOpen s)) s
  end.

Definition run (s : State) (es : list Event) : State :=
  fold_left step es s.

(** The documents of the live upload list. *)
Definition liveDocuments (s : State) : list UploadedFile.t :=
  readArray s (files s).

End Handlers.

End App.

(** * Properties *)

(** ** Vocabulary of the statements and sample data *)

(** The strings [parts] occur in [s] one after the other, without
    overlapping, from left to right. *)
Fixpoint occurInOrder (parts : list string) (s : string) : Prop :=
  match parts with
  | [] => True
  | p :: rest => exists pre post, s = pre +:+ p +:+ post /\ occurInOrder rest post
  end.

(** What [join] puts before and after one element of the array. *)
Fixpoint joinedBefore (sep : string) (l : list string) : string :=
  match l with
  | [] => EmptyString
  | x :: rest => x +:+ sep +:+ joinedBefore sep rest
  end.

Fixpoint joinedAfter (sep : string) (l : list string) : string :=
  match l with
  | [] => EmptyString
  | x :: rest => sep +:+ x +:+ joinedAfter sep rest
  end.

(** The fixed text around the context once [trim] has run. *)
Definition instructionHead : string := trimStart GeminiService.templateHead.
Definition instructionTail : string := trimEnd GeminiService.templateTail.

(** The delimiter line naming a document. *)
Definition delimiterLine (f : UploadedFile.t) : string :=
  "--- Document: " +:+ UploadedFile.name f +:+ " ---" +:+ nl.

(** What the assembler reads of a document. *)
Definition nameAndContent (f : UploadedFile.t) : string * string :=
  (UploadedFile.name f, UploadedFile.content f).

Definition readme : UploadedFile.t :=
  UploadedFile.mk "a1" "readme.md" "Hello" 5 "text/markdown".
Definition guide : UploadedFile.t :=
  UploadedFile.mk "b2" "guide.txt" "World" 5 "text/plain".
Definition readmeAgain : UploadedFile.t :=
  UploadedFile.mk "c3" "readme.md" "Hello" 5 EmptyString.

(** What delivering chunks leaves untouched: everything but the streaming
    buffer and the log of calls. *)
Definition streamingFrame (s s' : App.State) : Prop :=
  ChatState.messages (App.chatState s') = ChatState.messages (App.chatState s)
  /\ ChatState.isLoading (App.chatState s') = ChatState.isLoading (App.chatState s)
  /\ ChatState.totalInputTokens (App.chatState s')
     = ChatState.totalInputTokens (App.chatState s)
  /\ ChatState.totalOutputTokens (App.chatState s')
     = ChatState.totalOutputTokens (App.chatState s)
  /\ App.heap s' = App.heap s
  /\ App.files s' = App.files s
  /\ App.savedKBs s' = App.savedKBs s
  /\ App.sessionActive s' = App.sessionActive s
  /\ App.chatInstance s' = App.chatInstance s
  /\ App.localStorage s' = App.localStorage s
  /\ App.ticks s' = App.ticks s.

Definition sampleChat : GeminiService.Chat :=
  GeminiService.mkChat GeminiService.MODEL_NAME
    (App.systemInstruction [readme; guide]) 2.

Definition textChunk (t : string) : GeminiService.GenerateContentResponse :=
  GeminiService.mkChunk (Some t) None.

Definition usageChunk (p c : Z) : GeminiService.GenerateContentResponse :=
  GeminiService.mkChunk None
    (Some (GeminiService.mkUsageMetadata (Some p) (Some c) (Some (p + c)))).

(** A provider that counts 42 tokens, opens sessions, and whose stream
    breaks after one chunk with a transport error. *)
Definition offlineProvider : GeminiService.Provider :=
  GeminiService.mkProvider (Some "key")
    (fun _ _ => Normal (Some 42))
    (fun c => Normal c)
    (fun _ _ => GeminiService.mkStream [textChunk "The SDK"]
       (Some (ThrownObject
          (mkError "ApiError" (Some "got http status code: 0") None)))).

(** A provider whose stream completes and reports usage. *)
Definition onlineProvider : GeminiService.Provider :=
  GeminiService.mkProvider (Some "key")
    (fun _ _ => Normal (Some 42))
    (fun c => Normal c)
    (fun _ _ => GeminiService.mkStream
       [textChunk "Hello"; textChunk " there"; usageChunk 50 7] None).

Definition sampleClock : nat -> Z := fun k => 1700000000000 + Z.of_nat k.

(** Two documents uploaded, no session yet. *)
Definition uploadedState : App.State :=
  App.mkState {[ 0%nat := [readme; guide] ]} 0%nat [] App.upload true
    false None false EmptyString App.emptyChatState EmptyString
    None 0 2 [].

(** The same with a session running and a question typed. *)
Definition chattingState : App.State :=
  App.mkState {[ 0%nat := [readme; guide] ]} 0%nat [] App.upload true
    true (Some sampleChat) false EmptyString
    (ChatState.mk [] false EmptyString 42 0) " how do I start? "
    None 1 2 [].

(** The entries of an archive whose decoding promise is awaited. *)
Definition awaited (e : FileUpload.ZipObject.t) : bool :=
  negb (FileUpload.ZipObject.dir e
        || includes (FileUpload.ZipObject.name e) "__MACOSX"
        || startsWith (FileUpload.ZipObject.name e) ".")
  && FileUpload.isTextFile (FileUpload.ZipObject.name e).

(** An uploaded file with the entries of its archive replaced. *)
Definition withEntries (file : FileUpload.File.t)
    (entries : list FileUpload.ZipObject.t) : FileUpload.File.t :=
  FileUpload.File.mk (FileUpload.File.name file) (FileUpload.File.type file)
    (FileUpload.File.size file) (FileUpload.File.text file) (Normal entries).

Definition sampleRandomId : nat -> string :=
  fun k => "id" +:+ toString (Z.of_nat k).

Definition emptyAcc : FileUpload.Acc := FileUpload.mkAcc [] 0 [].

Definition sampleEntries : list FileUpload.ZipObject.t :=
  [ FileUpload.ZipObject.mk "docs/" true (Normal EmptyString);
    FileUpload.ZipObject.mk "a.py" false (Normal "print(1)");
    FileUpload.ZipObject.mk "__MACOSX/._a.py" false (Normal "junk");
    FileUpload.ZipObject.mk ".notes.md" false (Normal "hidden");
    FileUpload.ZipObject.mk "logo.png" false (Normal "binary") ].

Definition sampleZip : FileUpload.File.t :=
  FileUpload.File.mk "docs.zip" "application/zip" 2048
    (Normal "PK") (Normal sampleEntries).

(** A Markdown file for which the browser declares no media type. *)
Definition notesFile : FileUpload.File.t :=
  FileUpload.File.mk "notes.md" EmptyString 5
    (Normal "Hello") (Throw ThrownUndefined).

(** Whether the text branch of the loop body, rather than the fall-back
    branch, handles a file that is not an archive. *)
Definition textBranch (file : FileUpload.File.t) : bool :=
  FileUpload.isTextFile (FileUpload.File.name file)
  || startsWith (FileUpload.File.type file) "text/".

(** Events at which a session begins or ends. *)
Definition sessionBoundary (e : App.Event) : bool :=
  match e with
  | App.StartSession _ | App.Reset | App.CreateNew | App.LoadKB _ _ => true
  | _ => false
  end.

(** The usage counts a provider reports are never negative. *)
Definition reportsNonNegative (ai : GeminiService.Provider) : Prop :=
  forall chat msg c um,
    c ∈ GeminiService.chunks (GeminiService.chatSendMessageStream ai chat msg) ->
    GeminiService.usageMetadata c = Some um ->
    0 <= orNum (GeminiService.umPromptTokenCount um) 0
    /\ 0 <= orNum (GeminiService.umCandidatesTokenCount um) 0.

Definition eventReportsNonNegative (e : App.Event) : Prop :=
  match e with
  | App.SendMessage ai => reportsNonNegative ai
  | _ => True
  end.

Definition usageNonNegative (u : option UsageStats.t) : Prop :=
  0 <= orNum (UsageStats.promptTokenCount <$> u) 0
  /\ 0 <= orNum (UsageStats.candidatesTokenCount <$> u) 0.

(** Two documents uploaded and a name typed for the knowledge base. *)
Definition namedState : App.State :=
  App.mkState {[ 0%nat := [readme; guide] ]} 0%nat [] App.upload true
    false None true "SDK docs" App.emptyChatState EmptyString
    None 0 2 [].

(** What browsers throw when the storage quota is exhausted. *)
Definition quotaExceeded : JsError :=
  mkError "QuotaExceededError"
    (Some "Failed to execute 'setItem' on 'Storage': Setting the value of 'smartsdk_kbs' exceeded the quota.")
    None.

(** The live list and the documents of every saved record are arrays
    that exist. *)
Definition allocated (s : App.State) : Prop :=
  is_Some (App.heap s !! App.files s)
  /\ Forall (fun kb => is_Some (App.heap s !! App.KnowledgeBase.files kb))
            (App.savedKBs s).

(** The non-empty text fragments of a stream, in the order they arrive. *)
Definition fragments (chunks : list GeminiService.GenerateContentResponse)
    : list string :=
  omap (fun c => match GeminiService.chunkText c with
                 | Some t => if truthy t then Some t else None
                 | None => None
                 end) chunks.

(** The usage statistics read from one chunk's metadata. *)
Definition usageOf (um : GeminiService.UsageMetadata) : UsageStats.t :=
  UsageStats.mk (orNum (GeminiService.umPromptTokenCount um) 0)
    (orNum (GeminiService.umCandidatesTokenCount um) 0)
    (orNum (GeminiService.umTotalTokenCount um) 0).

(** The usage of the last chunk of a stream that carries usage metadata. *)
Definition reportedUsage (chunks : list GeminiService.GenerateContentResponse)
    : option UsageStats.t :=
  last (omap (fun c => usageOf <$> GeminiService.usageMetadata c) chunks).

(** All the strings of a list, one after the other. *)
Definition concatAll (l : list string) : string :=
  fold_right String.append EmptyString l.

(** A sequence of completed turns: USER messages, each followed by one
    MODEL message. *)
Fixpoint turns (msgs : list Message.t) : Prop :=
  match msgs with
  | [] => True
  | u :: m :: rest =>
      Message.role u = USER /\ Message.role m = MODEL /\ turns rest
  | _ => False
  end.

(** Consistency of the session cells between two handlers. *)
Definition sessionInvariant (s : App.State) : Prop :=
  (App.sessionActive s = true <-> App.chatInstance s <> None)
  /\ ChatState.streamingText (App.chatState s) = EmptyString
  /\ (App.chatInstance s = None ->
        ChatState.messages (App.chatState s) = []
        /\ ChatState.totalInputTokens (App.chatState s) = 0
        /\ ChatState.totalOutputTokens (App.chatState s) = 0)
  /\ (App.chatInstance s <> None ->
        exists hello rest,
          ChatState.messages (App.chatState s) = hello :: rest
          /\ Message.id hello = "init"
          /\ Message.role hello = MODEL
          /\ turns rest).

(** The storage slot holds what [JSON.stringify] gives for the in-memory
    list of saved knowledge bases; an empty slot goes with an empty list. *)
Definition inSync (s : App.State) : Prop :=
  match App.localStorage s with
  | Some stored => App.stringify s (App.savedKBs s) = stored
  | None => App.savedKBs s = []
  end.

(** Two knowledge bases saved and mirrored in the slot. *)
Definition twoSavedState : App.State :=
  App.mkState {[ 0%nat := [readme; guide]; 1%nat := [readme]; 2%nat := [guide] ]}
    0%nat
    [ App.KnowledgeBase.mk "17" "first" 17 1%nat;
      App.KnowledgeBase.mk "18" "second" 18 2%nat ]
    App.library true false None false EmptyString App.emptyChatState
    EmptyString
    (Some [ App.StoredKB.mk "17" "first" 17 [readme];
            App.StoredKB.mk "18" "second" 18 [guide] ])
    0 2 [].

(** An archive that does not open. *)
Definition brokenArchive : FileUpload.File.t :=
  FileUpload.File.mk "broken.zip" "application/zip" 10
    (Normal "PK") (Throw ThrownUndefined).

(** An archive one of whose entries does not decode. *)
Definition halfBrokenZip : FileUpload.File.t :=
  FileUpload.File.mk "docs.zip" "application/zip" 2048 (Normal "PK")
    (Normal [ FileUpload.ZipObject.mk "a.py" false (Normal "print(1)");
              FileUpload.ZipObject.mk "b.md" false (Throw ThrownUndefined) ]).

(** An archive with a folder holding a document and, next to it, the
    AppleDouble companion file that a Mac writes for it. *)
Definition nestedHiddenEntries : list FileUpload.ZipObject.t :=
  [ FileUpload.ZipObject.mk "docs/" true (Normal EmptyString);
    FileUpload.ZipObject.mk "docs/readme.md" false (Normal "# Hello");
    FileUpload.ZipObject.mk "docs/._readme.md" false (Normal "Mac OS X") ].

Definition nestedHiddenZip : FileUpload.File.t :=
  FileUpload.File.mk "docs.zip" "application/zip" 4096
    (Normal "PK") (Normal nestedHiddenEntries).

(** Whether the code unit [c] occurs in [s]. *)
Fixpoint hasChar (c : ascii) (s : string) : bool :=
  match s with
  | EmptyString => false
  | String a rest => Ascii.eqb a c || hasChar c rest
  end.

(** ** The embedding on concrete inputs *)

Example split_extension : split "a.tar.GZ" "."%char = ["a"; "tar"; "GZ"].
Proof. reflexivity. Qed.

Example split_no_dot : split "Makefile" "."%char = ["Makefile"].
Proof. reflexivity. Qed.

Example trim_both_ends : trim "  a b  " = "a b".
Proof. reflexivity. Qed.

Example toString_decimal : toString 120 = "120".
Proof. reflexivity. Qed.

Example includes_marker : includes "a/__MACOSX/b" "__MACOSX" = true.
Proof. reflexivity. Qed.

Example endsWith_zip : endsWith "a.zip" ".zip" = true /\ endsWith "zip" ".zip" = false.
Proof. split; reflexivity. Qed.

Example isTextFile_upper_case : FileUpload.isTextFile "src/Main.CPP" = true.
Proof. vm_compute. reflexivity. Qed.

Example isTextFile_bare_extension : FileUpload.isTextFile "md" = true.
Proof. vm_compute. reflexivity. Qed.

Example isTextFile_image : FileUpload.isTextFile "a.png" = false.
Proof. vm_compute. reflexivity. Qed.

Example isTextFile_trailing_dot : FileUpload.isTextFile "a." = false.
Proof. vm_compute. reflexivity. Qed.

Example knowledgeBase_two_documents :
  App.knowledgeBase [readme; guide]
  = "--- Document: readme.md ---" +:+ nl +:+ "Hello" +:+ nl +:+ nl
    +:+ "--- Document: guide.txt ---" +:+ nl +:+ "World" +:+ nl.
Proof. reflexivity. Qed.

Example instruction_begins_and_ends :
  startsWith (App.systemInstruction [readme; guide]) "You are an expert" = true
  /\ endsWith (App.systemInstruction [readme; guide]) "polite tone." = true.
Proof. split; vm_compute; reflexivity. Qed.

Example unknown_status_is_a_connection_failure :
  GeminiService.streamErrorMessage
    (ThrownObject (mkError "ApiError" None (Some "UNKNOWN")))
  = Normal "Connection failed. This could be due to a network issue, an invalid API Key, or a browser extension blocking the request.".
Proof. reflexivity. Qed.

Example provider_message_is_prefixed :
  GeminiService.streamErrorMessage
    (ThrownObject (mkError "ApiError" (Some "quota exhausted") None))
  = Normal "Error: quota exhausted".
Proof. reflexivity. Qed.

Example undefined_rejection_is_a_type_error :
  GeminiService.streamErrorMessage ThrownUndefined
  = Throw (typeError "message").
Proof. reflexivity. Qed.

(** ** Strings *)

Section StringFacts.

Lemma string_app_cons c (s t : string) : String c s +:+ t = String c (s +:+ t).
Proof. reflexivity. Qed.

Lemma string_app_nil_r (s : string) : s +:+ EmptyString = s.
Proof.
  induction s as [|c s IH]; [reflexivity|].
  rewrite string_app_cons, IH. reflexivity.
Qed.

Lemma string_app_assoc (a b c : string) : (a +:+ b) +:+ c = a +:+ (b +:+ c).
Proof.
  induction a as [|x a IH]; [reflexivity|].
  rewrite !string_app_cons, IH. reflexivity.
Qed.

Lemma trimStart_app (a b : string) :
  trimStart a <> EmptyString -> trimStart (a +:+ b) = trimStart a +:+ b.
Proof.
  induction a as [|c a IH]; intros H; [contradiction|].
  rewrite string_app_cons. simpl in *.
  destruct (isWhiteSpace c); [apply IH, H|reflexivity].
Qed.

Lemma trimEnd_app (a b : string) :
  trimEnd b <> EmptyString -> trimEnd (a +:+ b) = a +:+ trimEnd b.
Proof.
  intros H. induction a as [|c a IH]; [reflexivity|].
  rewrite !string_app_cons. simpl. rewrite IH.
  destruct (trimEnd b) eqn:E; [contradiction|].
  destruct a; reflexivity.
Qed.

Lemma join_cons_cons (x y : string) l sep :
  join (x :: y :: l) sep = x +:+ sep +:+ join (y :: l) sep.
Proof. reflexivity. Qed.

Lemma join_cons (x : string) l sep :
  join (x :: l) sep = x +:+ joinedAfter sep l.
Proof.
  revert x. induction l as [|y l IH]; intros x.
  - simpl. rewrite string_app_nil_r. reflexivity.
  - rewrite join_cons_cons, IH. reflexivity.
Qed.

Lemma join_split (l1 : list string) x l2 sep :
  join (l1 ++ x :: l2) sep = joinedBefore sep l1 +:+ x +:+ joinedAfter sep l2.
Proof.
  induction l1 as [|y l1 IH].
  - apply join_cons.
  - simpl joinedBefore. rewrite string_app_assoc, string_app_assoc, <- IH.
    destruct l1; reflexivity.
Qed.

End StringFacts.

(** ** The assembler *)

Lemma buildSystemInstruction_shape (context : string) :
  GeminiService.buildSystemInstruction context
  = instructionHead +:+ context +:+ instructionTail.
Proof.
  unfold GeminiService.buildSystemInstruction, trim, instructionHead, instructionTail.
  rewrite trimStart_app by (vm_compute; discriminate).
  rewrite <- string_app_assoc.
  rewrite trimEnd_app by (vm_compute; discriminate).
  apply string_app_assoc.
Qed.

Lemma knowledgeBase_ext (D D' : list UploadedFile.t) :
  map nameAndContent D = map nameAndContent D' ->
  App.knowledgeBase D = App.knowledgeBase D'.
Proof.
  intros H. unfold App.knowledgeBase. f_equal.
  revert D' H. induction D as [|d D IH]; intros [|d' D'] H; try discriminate; [reflexivity|].
  simpl in H. injection H as Hn Hc HD.
  simpl. f_equal; [|apply IH, HD].
  unfold App.renderDocument. rewrite Hn, Hc. reflexivity.
Qed.

Lemma occurInOrder_join (D : list UploadedFile.t) (P T : string) :
  occurInOrder (map UploadedFile.content D)
    (P +:+ join (map App.renderDocument D) nl +:+ T).
Proof.
  revert P. induction D as [|d D IH]; intros P; [exact I|].
  simpl map. rewrite join_cons.
  exists (P +:+ delimiterLine d).
  exists (nl +:+ joinedAfter nl (map App.renderDocument D) +:+ T).
  split.
  - unfold App.renderDocument, delimiterLine. rewrite !string_app_assoc. reflexivity.
  - destruct D as [|d' D]; [exact I|].
    specialize (IH (nl +:+ nl)).
    simpl map in *. rewrite join_cons in IH.
    simpl joinedAfter. rewrite !string_app_assoc in *. exact IH.
Qed.

(** C1.  Assembling the context is a function of the ordered names and
    contents of the documents alone: two lists that are equal by value give
    the same instruction; the instruction is the fixed head, the documents
    rendered in the list's order (delimiter line, content, separator), and
    the fixed tail; so every document's content stands after everything
    rendered for the documents before it and before everything rendered for
    the documents after it, and the contents occur from left to right in the
    list's order. *)
Theorem C1_assemble_deterministic_in_order
    (D D' : list UploadedFile.t) :
  map nameAndContent D' = map nameAndContent D ->
  App.systemInstruction D' = App.systemInstruction D
  /\ App.systemInstruction D
     = instructionHead +:+ join (map App.renderDocument D) nl
       +:+ instructionTail
  /\ (forall D1 d D2, D = D1 ++ d :: D2 ->
        App.systemInstruction D
        = instructionHead
          +:+ joinedBefore nl (map App.renderDocument D1)
          +:+ delimiterLine d +:+ UploadedFile.content d +:+ nl
          +:+ joinedAfter nl (map App.renderDocument D2)
          +:+ instructionTail)
  /\ occurInOrder (map UploadedFile.content D) (App.systemInstruction D).
Proof.
  intros Heq. unfold App.systemInstruction.
  rewrite (knowledgeBase_ext D' D Heq).
  rewrite buildSystemInstruction_shape. unfold App.knowledgeBase.
  repeat split.
  - intros D1 d D2 ->. rewrite map_app. simpl map. rewrite join_split.
    unfold App.renderDocument at 2, delimiterLine.
    rewrite !string_app_assoc. reflexivity.
  - apply occurInOrder_join.
Qed.

Lemma C1_witness :
  App.systemInstruction [readmeAgain; guide] = App.systemInstruction [readme; guide]
  /\ occurInOrder ["Hello"; "World"] (App.systemInstruction [readme; guide]).
Proof.
  destruct (C1_assemble_deterministic_in_order [readme; guide] [readmeAgain; guide])
    as (H1 & _ & _ & H4); [reflexivity|].
  split; [exact H1|exact H4].
Defined.

(** ** The streaming turn *)

Lemma streamingFrame_refl s : streamingFrame s s.
Proof. repeat split. Qed.

Lemma streamStep_frame s0 s r acc c :
  streamingFrame s0 s ->
  streamingFrame s0
    (fst (fst (GeminiService.streamStep App.onChunk ((s, r), acc) c))).
Proof.
  intros H. destruct acc as [fullText finalUsage].
  unfold GeminiService.streamStep.
  destruct (GeminiService.chunkText c) as [text|]; [destruct (truthy text)|];
    exact H.
Qed.

Lemma stream_fold_frame chunks : forall s0 s r acc,
  streamingFrame s0 s ->
  streamingFrame s0
    (fst (fst (fold_left (GeminiService.streamStep App.onChunk) chunks
                 ((s, r), acc)))).
Proof.
  induction chunks as [|c chunks IH]; intros s0 s r acc H; [exact H|].
  cbn [fold_left].
  pose proof (streamStep_frame s0 s r acc c H) as Hc.
  destruct (GeminiService.streamStep App.onChunk (s, r, acc) c)
    as [[s' r'] acc'].
  apply IH, Hc.
Qed.

Lemma sendMessageStream_frame ai chat msg s r :
  streamingFrame s
    (fst (fst (GeminiService.sendMessageStream ai chat msg App.onChunk (s, r)))).
Proof.
  unfold GeminiService.sendMessageStream.
  pose proof (stream_fold_frame
    (GeminiService.chunks (GeminiService.chatSendMessageStream ai chat msg))
    s s r (EmptyString, None) (streamingFrame_refl s)) as H.
  destruct (fold_left _ _ _) as [[s' r'] [ft fu]].
  destruct (GeminiService.failure _); exact H.
Qed.

(** Case analysis on the outcome of the streaming call of a turn, with
    the frame it leaves as [Hfr]. *)
Ltac stream_cases ai chat s' r' t u e' Hfr :=
  match goal with
  | |- context [GeminiService.sendMessageStream ai chat ?m App.onChunk (?s1, ?r1)] =>
      pose proof (sendMessageStream_frame ai chat m s1 r1) as Hfr;
      destruct (GeminiService.sendMessageStream ai chat m App.onChunk (s1, r1))
        as [[s' r'] [[t u]|e']]
  end.

(** A stream that is rejected makes [sendMessageStream] throw an error
    object, whatever value the provider rejected with. *)
Lemma sendMessageStream_fails {S} ai chat msg (onChunk : string -> S -> S) st error :
  GeminiService.failure (GeminiService.chatSendMessageStream ai chat msg)
    = Some error ->
  exists e, snd (GeminiService.sendMessageStream ai chat msg onChunk st) = Throw e.
Proof.
  intros H. unfold GeminiService.sendMessageStream.
  destruct (fold_left _ _ _) as [st' [ft fu]]. rewrite H. simpl.
  destruct (GeminiService.streamErrorMessage error) as [m|e]; simpl; eauto.
Qed.

(** C3.  A turn whose streaming send fails, whatever the provider rejected
    with and after however many chunks, ends without an exception leaving
    the handler; both token counters are what they were; the streaming
    buffer is empty; the conversation has grown by the USER message
    followed by exactly one MODEL message flagged as an error; the session
    stays active. *)
Theorem C3_failed_turn_is_contained
    (clock : nat -> Z) (ai : GeminiService.Provider) (s : App.State)
    (chat : GeminiService.Chat) (error : Thrown) :
  App.chatInstance s = Some chat ->
  truthy (trim (App.inputMessage s)) = true ->
  ChatState.isLoading (App.chatState s) = false ->
  GeminiService.failure
    (GeminiService.chatSendMessageStream ai chat (trim (App.inputMessage s)))
    = Some error ->
  let r := App.handleSendMessage clock ai s in
  App.uncaught r = None
  /\ ChatState.totalInputTokens (App.chatState (App.final r))
     = ChatState.totalInputTokens (App.chatState s)
  /\ ChatState.totalOutputTokens (App.chatState (App.final r))
     = ChatState.totalOutputTokens (App.chatState s)
  /\ ChatState.streamingText (App.chatState (App.final r)) = EmptyString
  /\ ChatState.isLoading (App.chatState (App.final r)) = false
  /\ App.sessionActive (App.final r) = App.sessionActive s
  /\ App.chatInstance (App.final r) = Some chat
  /\ exists userMsg errorMsg,
       ChatState.messages (App.chatState (App.final r))
       = ChatState.messages (App.chatState s) ++ [userMsg; errorMsg]
       /\ Message.role userMsg = USER
       /\ Message.text userMsg = trim (App.inputMessage s)
       /\ Message.isError userMsg = None
       /\ Message.role errorMsg = MODEL
       /\ Message.isError errorMsg = Some true.
Proof.
  intros Hchat Hmsg Hload Hfail r. subst r.
  unfold App.handleSendMessage. rewrite Hchat, Hmsg, Hload.
  cbn [negb orb App.dateNow].
  match goal with
  | |- context [GeminiService.sendMessageStream ai chat ?m App.onChunk (?s1, ?r1)] =>
      pose proof (sendMessageStream_frame ai chat m s1 r1) as Hfr;
      destruct (sendMessageStream_fails ai chat m App.onChunk (s1, r1) error Hfail)
        as [e He];
      destruct (GeminiService.sendMessageStream ai chat m App.onChunk (s1, r1))
        as [[s' r'] [[t u]|e']]
  end; [discriminate He|].
  destruct Hfr as (Hm & _ & Hi & Ho & _ & _ & _ & Hs & Hc & _).
  cbn in Hm, Hi, Ho, Hs, Hc |- *.
  rewrite Hi, Ho, Hs, Hc, Hm, Hchat.
  repeat split.
  eexists _, _. rewrite <- List.app_assoc. repeat split.
Qed.

Lemma C3_witness :
  App.uncaught (App.handleSendMessage sampleClock offlineProvider chattingState)
  = None.
Proof.
  exact (proj1 (C3_failed_turn_is_contained sampleClock offlineProvider
                  chattingState sampleChat
                  (ThrownObject (mkError "ApiError"
                                   (Some "got http status code: 0") None))
                  eq_refl eq_refl eq_refl eq_refl)).
Defined.

(** ** Session lifecycle *)

Lemma createChatSession_client ai context chat :
  GeminiService.createChatSession ai context = Normal chat ->
  GeminiService.getClient ai = Normal ai.
Proof.
  unfold GeminiService.createChatSession, GeminiService.getClient.
  destruct (GeminiService.apiKey ai) as [k|]; [destruct (truthy k)|];
    simpl; intros H; try discriminate; reflexivity.
Qed.

(** C4.  When [start] succeeds on a non-empty document list, no exception
    escapes, the session is active, the output counter is 0, the input
    counter is the provider's count for the instruction just built from the
    live documents (0 when the provider omits it or the counting call
    fails), and the conversation is exactly one MODEL greeting that quotes
    the number of documents. *)
Theorem C4_start_initialises_session
    (clock : nat -> Z) (ai : GeminiService.Provider) (s : App.State)
    (chat : GeminiService.Chat) :
  App.liveDocuments s <> [] ->
  GeminiService.createChatSession ai (App.knowledgeBase (App.liveDocuments s))
    = Normal chat ->
  let r := App.handleStartSession clock ai s in
  App.uncaught r = None
  /\ App.sessionActive (App.final r) = true
  /\ App.chatInstance (App.final r) = Some chat
  /\ ChatState.totalOutputTokens (App.chatState (App.final r)) = 0
  /\ ChatState.totalInputTokens (App.chatState (App.final r))
     = match GeminiService.countTokens ai GeminiService.MODEL_NAME
               (App.systemInstruction (App.liveDocuments s)) with
       | Normal totalTokens => orNum totalTokens 0
       | Throw _ => 0
       end
  /\ exists hello,
       ChatState.messages (App.chatState (App.final r)) = [hello]
       /\ Message.role hello = MODEL
       /\ Message.isError hello = None
       /\ Message.text hello
          = "Hello! I've analyzed your "
            +:+ toString (Z.of_nat (length (App.liveDocuments s)))
            +:+ " document(s). I'm ready to answer questions specifically about this knowledge base. How can I help you?".
Proof.
  intros Hne Hc r. subst r. unfold App.handleStartSession.
  unfold App.liveDocuments in *.
  destruct (App.readArray s (App.files s)) as [|d D] eqn:HD; [contradiction|].
  cbn [length Nat.eqb]. cbn beta.
  change (App.readArray _ (App.files _)) with (App.readArray s (App.files s)).
  rewrite Hc. cbn.
  unfold GeminiService.estimateTokenCount.
  rewrite (createChatSession_client _ _ _ Hc). cbn.
  repeat split.
  - destruct (GeminiService.countTokens ai _ _); reflexivity.
  - eexists. repeat split.
Qed.

Lemma C4_witness :
  ChatState.totalInputTokens
    (App.chatState (App.final
       (App.handleStartSession sampleClock offlineProvider uploadedState))) = 42.
Proof.
  destruct (C4_start_initialises_session sampleClock offlineProvider
              uploadedState sampleChat)
    as (_ & _ & _ & _ & H & _); [vm_compute; discriminate|reflexivity|].
  exact H.
Defined.

(** C8.  [reset] deactivates the session, drops the chat handle, empties
    the conversation and the streaming buffer and zeroes both counters; the
    live document array, the heap of document arrays and the saved
    knowledge bases are what they were. *)
Theorem C8_reset_keeps_documents (s : App.State) :
  let s' := App.handleReset s in
  App.sessionActive s' = false
  /\ App.chatInstance s' = None
  /\ ChatState.messages (App.chatState s') = []
  /\ ChatState.streamingText (App.chatState s') = EmptyString
  /\ ChatState.isLoading (App.chatState s') = false
  /\ ChatState.totalInputTokens (App.chatState s') = 0
  /\ ChatState.totalOutputTokens (App.chatState s') = 0
  /\ App.files s' = App.files s
  /\ App.heap s' = App.heap s
  /\ App.liveDocuments s' = App.liveDocuments s
  /\ App.savedKBs s' = App.savedKBs s.
Proof. repeat split. Qed.

(** ** The normalizer *)

Lemma forEachEntry_filter entries : forall promises,
  fold_left FileUpload.forEachEntry entries promises
  = promises ++ List.filter awaited entries.
Proof.
  induction entries as [|e entries IH]; intros promises.
  - simpl. rewrite app_nil_r. reflexivity.
  - simpl. rewrite IH. unfold FileUpload.forEachEntry, awaited.
    destruct (_ || _ || _); simpl; [reflexivity|].
    destruct (FileUpload.isTextFile _); [|reflexivity].
    rewrite <- List.app_assoc. reflexivity.
Qed.

Lemma filter_awaited_sublist entries :
  sublist (List.filter awaited entries) entries.
Proof.
  induction entries as [|e entries IH]; [constructor|].
  simpl. destruct (awaited e); constructor; exact IH.
Qed.

Lemma promiseAll_results randomId promises : forall k results k',
  FileUpload.promiseAll randomId promises k = (Normal results, k') ->
  Forall2 (fun e d =>
             UploadedFile.name d = FileUpload.ZipObject.name e
             /\ FileUpload.ZipObject.async e = Normal (UploadedFile.content d)
             /\ UploadedFile.type d = "text/plain"
             /\ UploadedFile.size d = strLength (UploadedFile.content d))
          promises results.
Proof.
  induction promises as [|e promises IH]; intros k results k' H; simpl in H.
  - injection H as <- _. constructor.
  - destruct (FileUpload.ZipObject.async e) as [content|err] eqn:He.
    + destruct (FileUpload.promiseAll randomId promises (S k)) as [[res|err] k1] eqn:Hp;
        simpl in H; [|discriminate].
      injection H as <- _. constructor; [|eapply IH, Hp].
      simpl. auto.
    + destruct (FileUpload.promiseAll randomId promises k) as [r k1].
      discriminate.
Qed.

(** The documents one archive adds to [newFiles]. *)
Lemma processZip_produced randomId file acc entries :
  FileUpload.File.loadAsync file = Normal entries ->
  exists produced,
    FileUpload.newFiles (FileUpload.processZip randomId file acc)
    = FileUpload.newFiles acc ++ produced
    /\ (produced = [] \/
        Forall2 (fun e d =>
             UploadedFile.name d = FileUpload.ZipObject.name e
             /\ FileUpload.ZipObject.async e = Normal (UploadedFile.content d)
             /\ UploadedFile.type d = "text/plain"
             /\ UploadedFile.size d = strLength (UploadedFile.content d))
          (List.filter awaited entries) produced).
Proof.
  intros Hload. unfold FileUpload.processZip. rewrite Hload.
  rewrite forEachEntry_filter. simpl app.
  destruct (FileUpload.promiseAll randomId _ _) as [[results|err] k] eqn:Hp.
  - exists results. split; [reflexivity|]. right.
    eapply promiseAll_results, Hp.
  - exists []. simpl. rewrite app_nil_r. auto.
Qed.

Lemma filter_awaited_hidden l1 e l2 :
  FileUpload.ZipObject.dir e = true
  \/ includes (FileUpload.ZipObject.name e) "__MACOSX" = true
  \/ startsWith (FileUpload.ZipObject.name e) "." = true ->
  List.filter awaited (l1 ++ e :: l2) = List.filter awaited (l1 ++ l2).
Proof.
  intros H. rewrite !List.filter_app. simpl.
  replace (awaited e) with false; [reflexivity|].
  unfold awaited. destruct H as [-> | [-> | ->]]; simpl;
    rewrite ?orb_true_r; reflexivity.
Qed.

(** What the handler does ensure for an upload handled as a zip archive
    that opens.  The three tests read [zipEntry.name], the entry's path
    inside the archive.  The documents added correspond one to one, in
    order, to a sub-list of the archive's entries, none of which is a
    directory, has a path containing [__MACOSX], or has a path beginning
    with [.]; and an entry that is a directory, or whose path contains the
    marker, or whose path begins with [.] is of no consequence at all: the
    handler's result is the same as on the archive without it, whatever the
    entry's extension. *)
Theorem archive_documents_have_visible_paths
    (randomId : nat -> string) (acc : FileUpload.Acc) (file : FileUpload.File.t)
    (entries : list FileUpload.ZipObject.t) :
  endsWith (FileUpload.File.name file) ".zip"
    || includes (FileUpload.File.type file) "zip" = true ->
  FileUpload.File.loadAsync file = Normal entries ->
  (exists produced kept,
     FileUpload.newFiles (FileUpload.processFile randomId acc file)
     = FileUpload.newFiles acc ++ produced
     /\ sublist kept entries
     /\ Forall2 (fun e d =>
                   UploadedFile.name d = FileUpload.ZipObject.name e
                   /\ FileUpload.ZipObject.async e
                      = Normal (UploadedFile.content d))
                kept produced
     /\ Forall (fun e =>
                  FileUpload.ZipObject.dir e = false
                  /\ includes (FileUpload.ZipObject.name e) "__MACOSX" = false
                  /\ startsWith (FileUpload.ZipObject.name e) "." = false)
               kept)
  /\ (forall l1 e l2,
        entries = l1 ++ e :: l2 ->
        FileUpload.ZipObject.dir e = true
        \/ includes (FileUpload.ZipObject.name e) "__MACOSX" = true
        \/ startsWith (FileUpload.ZipObject.name e) "." = true ->
        FileUpload.processFile randomId acc file
        = FileUpload.processFile randomId acc (withEntries file (l1 ++ l2))).
Proof.
  intros Hzip Hload. split.
  - unfold FileUpload.processFile. rewrite Hzip.
    destruct (processZip_produced randomId file acc entries Hload)
      as (produced & Hnew & [-> | Hall]).
    + exists [], []. repeat split; auto using sublist_nil_l.
    + exists produced, (List.filter awaited entries).
      split; [exact Hnew|]. split; [apply filter_awaited_sublist|]. split.
      * eapply Forall2_impl; [exact Hall|]. simpl. intros e d (? & ? & _). auto.
      * apply Forall_forall. intros e He.
        apply list_elem_of_In, List.filter_In in He. destruct He as [_ He].
        unfold awaited in He. apply andb_true_iff in He. destruct He as [He _].
        apply negb_true_iff in He.
        apply orb_false_iff in He. destruct He as [He ?].
        apply orb_false_iff in He. destruct He. auto.
  - intros l1 e l2 -> Hhid.
    unfold FileUpload.processFile. simpl. rewrite Hzip.
    unfold FileUpload.processZip. simpl. rewrite Hload.
    rewrite !forEachEntry_filter. rewrite (filter_awaited_hidden _ _ _ Hhid).
    reflexivity.
Qed.

Lemma hidden_root_entry_is_of_no_consequence :
  FileUpload.processFile sampleRandomId emptyAcc sampleZip
  = FileUpload.processFile sampleRandomId emptyAcc
      (withEntries sampleZip
         ([ FileUpload.ZipObject.mk "docs/" true (Normal EmptyString);
            FileUpload.ZipObject.mk "a.py" false (Normal "print(1)");
            FileUpload.ZipObject.mk "__MACOSX/._a.py" false (Normal "junk") ]
          ++ [ FileUpload.ZipObject.mk "logo.png" false (Normal "binary") ])).
Proof.
  apply (proj2 (archive_documents_have_visible_paths sampleRandomId emptyAcc
                  sampleZip sampleEntries eq_refl eq_refl)
               [ FileUpload.ZipObject.mk "docs/" true (Normal EmptyString);
                 FileUpload.ZipObject.mk "a.py" false (Normal "print(1)");
                 FileUpload.ZipObject.mk "__MACOSX/._a.py" false (Normal "junk") ]
               (FileUpload.ZipObject.mk ".notes.md" false (Normal "hidden"))
               [ FileUpload.ZipObject.mk "logo.png" false (Normal "binary") ]).
  - reflexivity.
  - right. right. reflexivity.
Defined.

Example zip_scenario :
  FileUpload.newFiles (FileUpload.normalize sampleRandomId [sampleZip] 0)
  = [ UploadedFile.mk "id0" "a.py" "print(1)" 8 "text/plain" ].
Proof. vm_compute. reflexivity. Qed.

(** C5.  The property fails for an entry that lies in a folder.  The
    archive [nestedHiddenZip] holds the entry [docs/._readme.md]: it is not
    a directory, its path does not contain [__MACOSX], and its name,
    [._readme.md], begins with [.].  The handler tests the leading [.] on
    [zipEntry.name], which is the entry's whole path [docs/._readme.md];
    the entry is therefore not skipped and, its extension being
    allow-listed, it appears in the output as a document, after the one of
    [docs/readme.md]. *)
Theorem C5_nested_hidden_entry_becomes_a_document :
  FileUpload.File.loadAsync nestedHiddenZip = Normal nestedHiddenEntries
  /\ FileUpload.ZipObject.mk "docs/._readme.md" false (Normal "Mac OS X")
     ∈ nestedHiddenEntries
  /\ includes "docs/._readme.md" "__MACOSX" = false
  /\ (fun name => startsWith name ".")
       <$> FileUpload.displayName "docs/._readme.md" = Some true
  /\ startsWith "docs/._readme.md" "." = false
  /\ FileUpload.newFiles
       (FileUpload.normalize sampleRandomId [nestedHiddenZip] 0)
     = [ UploadedFile.mk "id0" "docs/readme.md" "# Hello" 7 "text/plain";
         UploadedFile.mk "id1" "docs/._readme.md" "Mac OS X" 8 "text/plain" ].
Proof.
  split; [reflexivity|].
  split; [unfold nestedHiddenEntries; set_solver|].
  repeat split; vm_compute; reflexivity.
Qed.

(** The same with a configuration file in a folder. *)
Example nested_dot_file_is_kept :
  map UploadedFile.name
    (FileUpload.newFiles
       (FileUpload.normalize sampleRandomId
          [ withEntries sampleZip
              [ FileUpload.ZipObject.mk "conf/.eslintrc.json" false (Normal "{}") ] ]
          0))
  = ["conf/.eslintrc.json"].
Proof. vm_compute. reflexivity. Qed.

(** C9.  A single upload that is not handled as an archive, whose
    extension is in the allow-list and whose text can be read, yields
    exactly one document: its content is the decoded text, its size the
    file's declared size, its name the file's name. *)
Theorem C9_single_text_file
    (randomId : nat -> string) (k : nat) (file : FileUpload.File.t)
    (text : string) :
  endsWith (FileUpload.File.name file) ".zip"
    || includes (FileUpload.File.type file) "zip" = false ->
  FileUpload.isTextFile (FileUpload.File.name file) = true ->
  FileUpload.File.text file = Normal text ->
  exists d,
    FileUpload.newFiles (FileUpload.normalize randomId [file] k) = [d]
    /\ UploadedFile.content d = text
    /\ UploadedFile.size d = FileUpload.File.size file
    /\ UploadedFile.name d = FileUpload.File.name file.
Proof.
  intros Hzip Hext Htext.
  unfold FileUpload.normalize. simpl. unfold FileUpload.processFile.
  rewrite Hzip, Hext, Htext. simpl.
  eexists. repeat split.
Qed.

Lemma C9_witness :
  exists d,
    FileUpload.newFiles (FileUpload.normalize sampleRandomId [notesFile] 0) = [d]
    /\ UploadedFile.content d = "Hello"
    /\ UploadedFile.size d = 5
    /\ UploadedFile.name d = "notes.md".
Proof.
  apply (C9_single_text_file sampleRandomId 0 notesFile "Hello");
    vm_compute; reflexivity.
Defined.

(** C10 as stated fails: a document made from a single file does not
    always keep the declared media type.  A Markdown file declared with
    the empty type becomes a document of type [text/plain]. *)
Lemma C10_counterexample :
  ~ (forall (randomId : nat -> string) (k : nat) (file : FileUpload.File.t)
            (d : UploadedFile.t),
       endsWith (FileUpload.File.name file) ".zip"
         || includes (FileUpload.File.type file) "zip" = false ->
       d ∈ FileUpload.newFiles (FileUpload.normalize randomId [file] k) ->
       UploadedFile.size d = FileUpload.File.size file
       /\ UploadedFile.type d = FileUpload.File.type file).
Proof.
  intros H.
  destruct (H sampleRandomId 0%nat notesFile
              (UploadedFile.mk "id0" "notes.md" "Hello" 5 "text/plain"))
    as [_ Habs].
  - reflexivity.
  - vm_compute. left.
  - discriminate Habs.
Qed.

(** C10, amended.  Every document an archive adds has type [text/plain]
    and a size equal to the length of its decoded content.  Every document
    a single file adds keeps the file's declared size; its type is the
    declared media type when that is not empty, and otherwise [text/plain]
    on the text branch and the (empty) declared type on the fall-back
    branch. *)
Theorem C10_sizes_and_media_types
    (randomId : nat -> string) (acc : FileUpload.Acc)
    (file : FileUpload.File.t) :
  exists produced,
    FileUpload.newFiles (FileUpload.processFile randomId acc file)
    = FileUpload.newFiles acc ++ produced
    /\ Forall (fun d =>
         if endsWith (FileUpload.File.name file) ".zip"
            || includes (FileUpload.File.type file) "zip"
         then UploadedFile.type d = "text/plain"
              /\ UploadedFile.size d = strLength (UploadedFile.content d)
         else UploadedFile.size d = FileUpload.File.size file
              /\ UploadedFile.type d
                 = if truthy (FileUpload.File.type file)
                   then FileUpload.File.type file
                   else if textBranch file then "text/plain"
                        else FileUpload.File.type file)
       produced.
Proof.
  unfold FileUpload.processFile, textBranch.
  destruct (endsWith _ _ || includes _ _) eqn:Hzip.
  - unfold FileUpload.processZip.
    destruct (FileUpload.File.loadAsync file) as [entries|err] eqn:Hload.
    + destruct (FileUpload.promiseAll randomId _ _) as [[results|err] k] eqn:Hp.
      * exists results. split; [reflexivity|].
        apply promiseAll_results in Hp.
        clear -Hp. induction Hp as [|e d es ds (_ & _ & Ht & Hs) _ IH];
          constructor; auto.
      * exists []. simpl. rewrite app_nil_r. split; [reflexivity|constructor].
    + exists []. simpl. rewrite app_nil_r. split; [reflexivity|constructor].
  - destruct (FileUpload.isTextFile _ || startsWith _ _).
    + destruct (FileUpload.File.text file) as [text|err].
      * eexists [_]. split; [reflexivity|]. repeat constructor.
      * exists []. rewrite app_nil_r. split; [reflexivity|constructor].
    + destruct (FileUpload.File.text file) as [text|err].
      * destruct (negb _).
        -- eexists [_]. split; [reflexivity|]. repeat constructor. simpl.
           destruct (truthy _); reflexivity.
        -- exists []. rewrite app_nil_r. split; [reflexivity|constructor].
      * exists []. rewrite app_nil_r. split; [reflexivity|constructor].
Qed.

(** ** Document arrays *)

Lemma fresh_unallocated (h : gmap App.loc (list UploadedFile.t)) :
  h !! fresh (dom h) = None.
Proof. apply not_elem_of_dom, is_fresh. Qed.

(** ** Saving a knowledge base *)

(** C6.  A save attempt with a blank name writes nothing and changes no
    record.  Otherwise the handler first calls [setItem] with the complete
    updated set (the existing records followed by the new one, whose
    documents are a newly allocated array holding the live documents).
    When the write succeeds the slot holds that set and only then is the
    in-memory list replaced by it.  When the write throws, the in-memory
    list and the slot are what they were, no setter of the list is called,
    the existing arrays are untouched, and the user is told of a storage
    limit if the error is a quota error (by name or by message), of a
    generic failure otherwise; the two alerts differ. *)
Theorem C6_write_precedes_commit
    (clock : nat -> Z) (setItemError : option JsError) (s : App.State) :
  let s' := App.handleConfirmSave clock setItemError s in
  App.quotaAlert <> "Failed to save Knowledge Base. Please try again."
  /\ if negb (truthy (trim (App.saveName s))) then
       App.savedKBs s' = App.savedKBs s
       /\ App.localStorage s' = App.localStorage s
       /\ App.calls s'
          = App.calls s ++ [App.Alert "Please enter a name for the Knowledge Base."]
     else
       exists copy,
         let newKB :=
           App.KnowledgeBase.mk (toString (clock (App.ticks s)))
             (trim (App.saveName s)) (clock (S (App.ticks s))) copy in
         let written := App.stringify s' (App.savedKBs s ++ [newKB]) in
         App.heap s !! copy = None
         /\ App.readArray s' copy = App.liveDocuments s
         /\ (forall l, is_Some (App.heap s !! l) ->
               App.readArray s' l = App.readArray s l)
         /\ match setItemError with
            | None =>
                App.savedKBs s' = App.savedKBs s ++ [newKB]
                /\ App.localStorage s' = Some written
                /\ App.calls s'
                   = App.calls s ++
                     [ App.SetItem "smartsdk_kbs" written true;
                       App.SetState App.SavedKBs;
                       App.SetState App.ShowSaveInput;
                       App.SetState App.SaveName;
                       App.Alert "Knowledge Base saved successfully!";
                       App.SetState App.ActiveTab ]
            | Some error =>
                App.savedKBs s' = App.savedKBs s
                /\ App.localStorage s' = App.localStorage s
                /\ App.calls s'
                   = App.calls s ++
                     [ App.SetItem "smartsdk_kbs" written false;
                       App.ConsoleError "Error saving KB:";
                       App.Alert
                         (if App.isQuotaError error then App.quotaAlert
                          else "Failed to save Knowledge Base. Please try again.") ]
                /\ (errName error = "QuotaExceededError" ->
                    App.isQuotaError error = true)
                /\ (forall m, message error = Some m ->
                      includes (toLowerCase m) "quota" = true ->
                      App.isQuotaError error = true)
            end.
Proof.
  intros s'. subst s'. split; [vm_compute; discriminate|].
  unfold App.handleConfirmSave.
  destruct (negb (truthy (trim (App.saveName s)))) eqn:Hname.
  - repeat split.
  - exists (fresh (dom (App.heap s))).
    assert (forall l, is_Some (App.heap s !! l) ->
                      l <> fresh (dom (App.heap s))) as Hne
      by (intros l [w Hw] ->; rewrite fresh_unallocated in Hw; discriminate).
    destruct setItemError as [error|]; cbn.
    + destruct (App.isQuotaError error) eqn:Hq; cbn; unfold App.readArray; cbn;
        rewrite lookup_insert_eq, <- !List.app_assoc;
        (split; [apply fresh_unallocated|]); (split; [reflexivity|]);
        (split; [intros l Hl; rewrite lookup_insert_ne by (symmetry; auto);
                 reflexivity|]);
        repeat split.
      * intros Hn. unfold App.isQuotaError in Hq. rewrite Hn in Hq.
        discriminate Hq.
      * intros m Hm Hi. unfold App.isQuotaError in Hq.
        rewrite Hm, Hi, orb_true_r in Hq. discriminate Hq.
    + unfold App.readArray; cbn.
      rewrite lookup_insert_eq, <- !List.app_assoc.
      split; [apply fresh_unallocated|]. split; [reflexivity|].
      split; [intros l Hl; rewrite lookup_insert_ne by (symmetry; auto);
              reflexivity|].
      repeat split.
Qed.

Lemma C6_witness :
  App.savedKBs (App.handleConfirmSave sampleClock (Some quotaExceeded) namedState)
  = App.savedKBs namedState
  /\ last (App.calls
             (App.handleConfirmSave sampleClock (Some quotaExceeded) namedState))
     = Some (App.Alert App.quotaAlert).
Proof.
  destruct (C6_write_precedes_commit sampleClock (Some quotaExceeded) namedState)
    as [_ H].
  change (negb (truthy (trim (App.saveName namedState)))) with false in H.
  destruct H as (copy & _ & _ & _ & Hkbs & _ & Hcalls & _).
  split; [exact Hkbs|]. rewrite Hcalls. reflexivity.
Defined.

Example save_and_reload_scenario :
  let saved := App.handleConfirmSave sampleClock None namedState in
  let reloaded := App.mount (App.initial (App.localStorage saved)) in
  map App.KnowledgeBase.name (App.savedKBs reloaded) = ["SDK docs"]
  /\ map (App.readArray reloaded)
         (map App.KnowledgeBase.files (App.savedKBs reloaded))
     = [[readme; guide]].
Proof. vm_compute. split; reflexivity. Qed.

(** ** Runs of user actions *)

Lemma orNum_some_0 v : orNum (Some v) 0 = v.
Proof. unfold orNum. destruct (Z.eqb_spec v 0); congruence. Qed.

Lemma stream_fold_usage {S} (onChunk : string -> S -> S) chunks :
  forall st fullText finalUsage,
  (forall c um, c ∈ chunks -> GeminiService.usageMetadata c = Some um ->
     0 <= orNum (GeminiService.umPromptTokenCount um) 0
     /\ 0 <= orNum (GeminiService.umCandidatesTokenCount um) 0) ->
  usageNonNegative finalUsage ->
  usageNonNegative
    (snd (snd (fold_left (GeminiService.streamStep onChunk) chunks
                 (st, (fullText, finalUsage))))).
Proof.
  induction chunks as [|c chunks IH]; intros st fullText finalUsage Hall Hu;
    [exact Hu|].
  cbn [fold_left].
  destruct (GeminiService.streamStep onChunk (st, (fullText, finalUsage)) c)
    as [st' [fullText' finalUsage']] eqn:E.
  apply IH.
  - intros c' um Hc. apply Hall. right. exact Hc.
  - unfold GeminiService.streamStep in E.
    destruct (match GeminiService.chunkText c with
              | Some text => if truthy text then _ else _
              | None => _ end) as [st1 ft1].
    injection E as _ _ <-.
    destruct (GeminiService.usageMetadata c) as [um|] eqn:Hum; [|exact Hu].
    destruct (Hall c um (list_elem_of_here _ _) Hum) as [Hp Hc].
    unfold usageNonNegative. simpl. rewrite !orNum_some_0. auto.
Qed.

Lemma sendMessageStream_usage {S} ai chat msg (onChunk : string -> S -> S) st
    fullText usage :
  reportsNonNegative ai ->
  snd (GeminiService.sendMessageStream ai chat msg onChunk st)
    = Normal (fullText, usage) ->
  usageNonNegative usage.
Proof.
  intros Hai. unfold GeminiService.sendMessageStream.
  pose proof (stream_fold_usage onChunk
    (GeminiService.chunks (GeminiService.chatSendMessageStream ai chat msg))
    st EmptyString None (Hai chat msg)) as H.
  destruct (fold_left _ _ _) as [st' [ft fu]].
  destruct (GeminiService.failure _) as [error|]; simpl.
  - destruct (GeminiService.streamErrorMessage error); discriminate.
  - intros [= <- <-]. apply H. split; simpl; unfold orNum; lia.
Qed.

Lemma handleSendMessage_counters clock ai s :
  reportsNonNegative ai ->
  ChatState.totalInputTokens (App.chatState s)
  <= ChatState.totalInputTokens
       (App.chatState (App.final (App.handleSendMessage clock ai s)))
  /\ ChatState.totalOutputTokens (App.chatState s)
     <= ChatState.totalOutputTokens
          (App.chatState (App.final (App.handleSendMessage clock ai s))).
Proof.
  intros Hai. unfold App.handleSendMessage.
  destruct (App.chatInstance s) as [chat|]; [|simpl; lia].
  destruct (negb _ || _); [simpl; lia|].
  cbn [App.dateNow].
  match goal with
  | |- context [GeminiService.sendMessageStream ai chat ?m App.onChunk (?s1, ?r1)] =>
      pose proof (sendMessageStream_frame ai chat m s1 r1) as Hfr;
      pose proof (sendMessageStream_usage ai chat m App.onChunk (s1, r1)) as Hus;
      destruct (GeminiService.sendMessageStream ai chat m App.onChunk (s1, r1))
        as [[s' r'] [[t u]|e']]
  end;
    destruct Hfr as (_ & _ & Hi & Ho & _); cbn in Hi, Ho |- *;
    rewrite Hi, Ho; [|lia].
  destruct (Hus t u Hai eq_refl). lia.
Qed.

Lemma fold_alert_frame msgs : forall s,
  let s' := fold_left (fun s msg => App.alert msg s) msgs s in
  App.heap s' = App.heap s /\ App.files s' = App.files s
  /\ App.chatState s' = App.chatState s /\ App.savedKBs s' = App.savedKBs s.
Proof.
  induction msgs as [|m msgs IH]; intros s; [repeat split|].
  cbn [fold_left]. destruct (IH (App.alert m s)) as (-> & -> & -> & ->).
  repeat split.
Qed.

Lemma alloc_grows (h : gmap App.loc (list UploadedFile.t)) v :
  h ⊆ <[fresh (dom h) := v]> h.
Proof. apply insert_subseteq, fresh_unallocated. Qed.

(** Between session boundaries only a streaming turn touches the
    conversation state. *)
Lemma step_chatState clock dateString timeString randomId s e :
  sessionBoundary e = false ->
  (forall ai, e <> App.SendMessage ai) ->
  App.chatState (App.step clock dateString timeString randomId s e)
  = App.chatState s.
Proof.
  intros Hb Hs. destruct e; try discriminate Hb; cbn [App.step].
  - unfold App.handleFileChange. destruct targetFiles as [fileList|]; [|reflexivity].
    cbn. match goal with |- context [fold_left ?f ?l ?s0] =>
      destruct (fold_alert_frame l s0) as (_ & _ & H & _) end.
    cbn in H. exact H.
  - reflexivity.
  - unfold App.handleClearWorkspace. destruct answer; reflexivity.
  - reflexivity.
  - exfalso. eapply Hs. reflexivity.
  - unfold App.handleInitiateSave. destruct (_ =? _)%nat; reflexivity.
  - reflexivity.
  - unfold App.handleConfirmSave.
    destruct (negb _); [reflexivity|]. destruct setItemError as [error|];
      [|reflexivity].
    cbn. destruct (App.isQuotaError error); reflexivity.
  - reflexivity.
  - destruct (App.savedKBs s !! index); [|reflexivity].
    unfold App.handleDeleteKB.
    destruct answer; [|reflexivity]. destruct setItemError; reflexivity.
  - reflexivity.
  - reflexivity.
Qed.

Lemma step_counters clock dateString timeString randomId s e :
  sessionBoundary e = false ->
  eventReportsNonNegative e ->
  ChatState.totalInputTokens (App.chatState s)
  <= ChatState.totalInputTokens
       (App.chatState (App.step clock dateString timeString randomId s e))
  /\ ChatState.totalOutputTokens (App.chatState s)
     <= ChatState.totalOutputTokens
          (App.chatState (App.step clock dateString timeString randomId s e)).
Proof.
  intros Hb Hnn.
  destruct (match e with App.SendMessage _ => true | _ => false end) eqn:Hsend.
  - destruct e; try discriminate Hsend.
    apply handleSendMessage_counters, Hnn.
  - rewrite step_chatState; [lia|exact Hb|].
    intros ai ->. discriminate Hsend.
Qed.

Lemma run_counters clock dateString timeString randomId es : forall s,
  Forall (fun e => sessionBoundary e = false /\ eventReportsNonNegative e) es ->
  ChatState.totalInputTokens (App.chatState s)
  <= ChatState.totalInputTokens
       (App.chatState (App.run clock dateString timeString randomId s es))
  /\ ChatState.totalOutputTokens (App.chatState s)
     <= ChatState.totalOutputTokens
          (App.chatState (App.run clock dateString timeString randomId s es)).
Proof.
  induction es as [|e es IH]; intros s Hall; [simpl; lia|].
  inversion Hall as [|? ? [Hb Hnn] Hrest]; subst.
  pose proof (step_counters clock dateString timeString randomId s e Hb Hnn).
  specialize (IH (App.step clock dateString timeString randomId s e) Hrest).
  unfold App.run in *. cbn [fold_left]. lia.
Qed.

(** No handler writes into an array that exists: the heap only grows. *)
Lemma step_heap_grows clock dateString timeString randomId s e :
  App.heap s ⊆ App.heap (App.step clock dateString timeString randomId s e).
Proof.
  destruct e; cbn [App.step].
  - unfold App.handleFileChange. destruct targetFiles as [fileList|]; [|reflexivity].
    cbn. match goal with |- context [fold_left ?f ?l ?s0] =>
      destruct (fold_alert_frame l s0) as (H & _) end.
    cbn in H. rewrite H. apply alloc_grows.
  - cbn. apply alloc_grows.
  - unfold App.handleClearWorkspace. destruct answer; [|reflexivity].
    cbn. apply alloc_grows.
  - unfold App.handleStartSession.
    destruct (_ =? _)%nat; [reflexivity|].
    destruct (GeminiService.createChatSession _ _); [reflexivity|].
    destruct (getProp _ _ _); reflexivity.
  - reflexivity.
  - cbn. apply alloc_grows.
  - reflexivity.
  - unfold App.handleSendMessage.
    destruct (App.chatInstance s) as [chat|]; [|reflexivity].
    destruct (negb _ || _); [reflexivity|].
    cbn [App.dateNow].
    stream_cases ai chat s' r' t u e' Hfr;
      destruct Hfr as (_ & _ & _ & _ & Hh & _); cbn in Hh |- *;
      rewrite Hh; reflexivity.
  - unfold App.handleInitiateSave. destruct (_ =? _)%nat; reflexivity.
  - reflexivity.
  - unfold App.handleConfirmSave.
    destruct (negb _); [reflexivity|]. destruct setItemError as [error|].
    + cbn. destruct (App.isQuotaError error); cbn; apply alloc_grows.
    + cbn. apply alloc_grows.
  - reflexivity.
  - destruct (App.savedKBs s !! index) as [kb|]; [|reflexivity].
    unfold App.handleLoadKB.
    destruct (App.sessionActive s); [destruct answer|]; reflexivity.
  - destruct (App.savedKBs s !! index); [|reflexivity].
    unfold App.handleDeleteKB.
    destruct answer; [|reflexivity]. destruct setItemError; reflexivity.
  - reflexivity.
  - reflexivity.
Qed.

Lemma run_heap_grows clock dateString timeString randomId es : forall s,
  App.heap s ⊆ App.heap (App.run clock dateString timeString randomId s es).
Proof.
  induction es as [|e es IH]; intros s; [reflexivity|].
  unfold App.run in *. cbn [fold_left].
  etrans; [apply step_heap_grows|apply IH].
Qed.

Lemma readArray_grows s s' l v :
  App.heap s ⊆ App.heap s' ->
  App.heap s !! l = Some v ->
  App.readArray s' l = v.
Proof.
  intros Hsub Hl. unfold App.readArray.
  rewrite (lookup_weaken _ _ _ _ Hl Hsub). reflexivity.
Qed.

Lemma allocated_grows s s' :
  App.heap s ⊆ App.heap s' ->
  Forall (fun kb => is_Some (App.heap s !! App.KnowledgeBase.files kb))
         (App.savedKBs s) ->
  Forall (fun kb => is_Some (App.heap s' !! App.KnowledgeBase.files kb))
         (App.savedKBs s).
Proof.
  intros Hsub H. eapply Forall_impl; [exact H|]. intros kb [v Hv].
  exists v. eapply lookup_weaken; eauto.
Qed.

Lemma is_Some_grows (h h' : gmap App.loc (list UploadedFile.t)) l :
  h ⊆ h' -> is_Some (h !! l) -> is_Some (h' !! l).
Proof. intros Hsub [v Hv]. exists v. eapply lookup_weaken; eauto. Qed.

(** Every handler keeps the live list and the saved records allocated. *)
Lemma step_allocated clock dateString timeString randomId s e :
  allocated s ->
  allocated (App.step clock dateString timeString randomId s e).
Proof.
  intros [Hlive Hkbs].
  pose proof (step_heap_grows clock dateString timeString randomId s e) as Hgrow.
  assert (forall s', App.heap s ⊆ App.heap s' ->
            App.files s' = App.files s -> App.savedKBs s' = App.savedKBs s ->
            allocated s') as Hsame.
  { intros s' Hsub Hf Hk. split.
    - rewrite Hf. eapply is_Some_grows; eauto.
    - rewrite Hk. eapply allocated_grows; eauto. }
  assert (forall s', App.heap s ⊆ App.heap s' ->
            is_Some (App.heap s' !! App.files s') ->
            App.savedKBs s' = App.savedKBs s -> allocated s') as Hnew.
  { intros s' Hsub Hf Hk. split; [exact Hf|].
    rewrite Hk. eapply allocated_grows; eauto. }
  revert Hgrow. destruct e; cbn [App.step]; intros Hgrow.
  - revert Hgrow. unfold App.handleFileChange.
    destruct targetFiles as [fileList|]; [|intros; split; assumption].
    cbn. match goal with |- context [fold_left ?f ?l ?s0] =>
      destruct (fold_alert_frame l s0) as (Hh & Hf & _ & Hk) end.
    cbn in Hh, Hf, Hk. rewrite Hh. intros Hgrow.
    apply Hnew; cbn; [exact Hgrow| |exact Hk].
    rewrite lookup_insert_eq. eauto.
  - apply Hnew; [exact Hgrow| |reflexivity].
    cbn. rewrite lookup_insert_eq. eauto.
  - revert Hgrow. unfold App.handleClearWorkspace.
    destruct answer; intros Hgrow; [|apply Hsame; auto].
    apply Hnew; [exact Hgrow| |reflexivity].
    cbn. rewrite lookup_insert_eq. eauto.
  - revert Hgrow. unfold App.handleStartSession.
    destruct (_ =? _)%nat; [intros; apply Hsame; auto|].
    destruct (GeminiService.createChatSession _ _);
      [intros; apply Hsame; auto|].
    destruct (getProp _ _ _); intros; apply Hsame; auto.
  - apply Hsame; auto.
  - apply Hnew; [exact Hgrow| |reflexivity].
    cbn. rewrite lookup_insert_eq. eauto.
  - apply Hsame; auto.
  - revert Hgrow. unfold App.handleSendMessage.
    destruct (App.chatInstance s) as [chat|]; [|intros; apply Hsame; auto].
    destruct (negb _ || _); [intros; apply Hsame; auto|].
    cbn [App.dateNow].
    stream_cases ai chat s' r' t u e' Hfr;
      destruct Hfr as (_ & _ & _ & _ & _ & Hf & Hk & _); cbn in Hf, Hk;
      intros Hgrow; apply Hsame; auto.
  - revert Hgrow. unfold App.handleInitiateSave.
    destruct (_ =? _)%nat; intros; apply Hsame; auto.
  - apply Hsame; auto.
  - revert Hgrow. unfold App.handleConfirmSave.
    destruct (negb _); [intros; apply Hsame; auto|].
    destruct setItemError as [error|].
    + cbn. destruct (App.isQuotaError error); intros; apply Hsame; auto.
    + cbn. intros Hgrow. split; cbn.
      * eapply is_Some_grows; eauto.
      * apply Forall_app. split.
        -- eapply Forall_impl; [exact Hkbs|]. intros kb Hkb. cbn.
           eapply is_Some_grows; eauto.
        -- constructor; [|constructor]. cbn. rewrite lookup_insert_eq. eauto.
  - apply Hsame; auto.
  - revert Hgrow. destruct (App.savedKBs s !! index) as [kb|] eqn:Hkb;
      [|intros; apply Hsame; auto].
    assert (is_Some (App.heap s !! App.KnowledgeBase.files kb)) as Hal.
    { eapply Forall_forall in Hkbs; [exact Hkbs|].
      eapply list_elem_of_lookup_2, Hkb. }
    unfold App.handleLoadKB.
    destruct (App.sessionActive s); [destruct answer|]; intros Hgrow;
      try (apply Hsame; auto; fail);
      apply Hnew; auto.
  - revert Hgrow. destruct (App.savedKBs s !! index) as [kb|];
      [|intros; apply Hsame; auto].
    unfold App.handleDeleteKB.
    destruct answer; [|intros; apply Hsame; auto].
    destruct setItemError; [intros; apply Hsame; auto|].
    cbn. intros _. split; [exact Hlive|]. cbn.
    apply Forall_forall. intros kb' Hin.
    apply list_elem_of_filter in Hin. destruct Hin as [_ Hin].
    eapply Forall_forall in Hkbs; eauto.
  - apply Hsame; auto.
  - apply Hsame; auto.
Qed.

Lemma initial_allocated stored : allocated (App.initial stored).
Proof.
  split; [|constructor]. cbn. rewrite lookup_singleton_eq. eauto.
Qed.

Lemma parseStored_fold saved : forall acc s,
  Forall (fun kb => is_Some (App.heap s !! App.KnowledgeBase.files kb)) acc ->
  App.heap s ⊆ App.heap (snd (fold_left App.parseStored saved (acc, s)))
  /\ App.files (snd (fold_left App.parseStored saved (acc, s))) = App.files s
  /\ Forall (fun kb =>
               is_Some (App.heap (snd (fold_left App.parseStored saved (acc, s)))
                        !! App.KnowledgeBase.files kb))
            (fst (fold_left App.parseStored saved (acc, s))).
Proof.
  induction saved as [|stored saved IH]; intros acc s Hacc.
  - cbn. auto.
  - cbn [fold_left]. unfold App.parseStored at 2 4 6. cbn [fst snd App.allocArray].
    match goal with |- context [fold_left _ saved (?acc1, ?s1)] =>
      destruct (IH acc1 s1) as (Hg & Hf & Hk) end.
    + apply Forall_app. split.
      * eapply Forall_impl; [exact Hacc|]. intros kb Hkb. cbn.
        eapply is_Some_grows; [apply alloc_grows|exact Hkb].
      * constructor; [|constructor]. cbn. rewrite lookup_insert_eq. eauto.
    + split; [|split; [exact Hf|exact Hk]].
      etrans; [|exact Hg]. cbn. apply alloc_grows.
Qed.

Lemma mount_allocated s : allocated s -> allocated (App.mount s).
Proof.
  intros [Hlive Hkbs]. unfold App.mount.
  destruct (App.localStorage s) as [saved|]; [|split; assumption].
  destruct (parseStored_fold saved [] s) as (Hg & Hf & Hk); [constructor|].
  destruct (fold_left App.parseStored saved ([], s)) as [kbs s'].
  cbn in *. split; cbn.
  - rewrite Hf. eapply is_Some_grows; eauto.
  - exact Hk.
Qed.

(** In every state the component reaches from its first render, the live
    list and the saved records are allocated arrays. *)
Lemma run_allocated clock dateString timeString randomId es : forall s,
  allocated s ->
  allocated (App.run clock dateString timeString randomId s es).
Proof.
  induction es as [|e es IH]; intros s Hs; [exact Hs|].
  unfold App.run in *. cbn [fold_left]. apply IH, step_allocated, Hs.
Qed.

(** ** Save, then load *)

(** C2 as stated fails in its last part: after a saved knowledge base has
    been loaded, the live upload list is the very array of the saved
    record. *)
Lemma C2_counterexample :
  ~ (forall (clock : nat -> Z) (dateString timeString : Z -> string)
            (randomId : nat -> string) (es : list App.Event)
            (kb : App.KnowledgeBase.t),
       let s := App.run clock dateString timeString randomId
                  (App.initial None) es in
       kb ∈ App.savedKBs s ->
       App.KnowledgeBase.files kb <> App.files s).
Proof.
  intros H.
  apply (H sampleClock (fun _ => "1/2/2026") (fun _ => "10:30 AM")
           sampleRandomId
           [ App.FileChange (Some [notesFile]); App.InitiateSave;
             App.ConfirmSave None; App.LoadKB 0 true ]
           (App.KnowledgeBase.mk "1700000000002"
              "SDK Docs - 1/2/2026 10:30 AM" 1700000000003 2%nat)).
  - vm_compute. left.
  - vm_compute. reflexivity.
Qed.

(** C2, amended.  Saving under a non-blank name appends a record whose
    documents are a newly allocated array, distinct from the live array,
    holding the live documents in order.  Whatever the user does
    afterwards (uploads, removals, clearing the workspace, sessions, other
    saves, loads and deletions), the record's array still holds exactly
    those documents, and loading the record makes the live list equal to
    them, with the same names, contents and order. *)
Theorem C2_save_then_load_round_trip
    (clock : nat -> Z) (dateString timeString : Z -> string)
    (randomId : nat -> string)
    (s : App.State) (es : list App.Event) (answer : bool) :
  truthy (trim (App.saveName s)) = true ->
  is_Some (App.heap s !! App.files s) ->
  App.sessionActive
    (App.run clock dateString timeString randomId
       (App.handleConfirmSave clock None s) es) = false
  \/ answer = true ->
  exists kb,
    App.savedKBs (App.handleConfirmSave clock None s) = App.savedKBs s ++ [kb]
    /\ App.heap s !! App.KnowledgeBase.files kb = None
    /\ App.KnowledgeBase.files kb <> App.files s
    /\ App.files (App.handleConfirmSave clock None s) = App.files s
    /\ App.readArray (App.handleConfirmSave clock None s)
         (App.KnowledgeBase.files kb)
       = App.liveDocuments s
    /\ App.readArray
         (App.run clock dateString timeString randomId
            (App.handleConfirmSave clock None s) es)
         (App.KnowledgeBase.files kb)
       = App.liveDocuments s
    /\ App.liveDocuments
         (App.handleLoadKB kb answer
            (App.run clock dateString timeString randomId
               (App.handleConfirmSave clock None s) es))
       = App.liveDocuments s.
Proof.
  intros Hname [live Hlive] Hload.
  pose proof (run_heap_grows clock dateString timeString randomId es
                (App.handleConfirmSave clock None s)) as Hgrow.
  revert Hload Hgrow. unfold App.handleConfirmSave. rewrite Hname.
  cbn [negb]. cbn -[App.run App.handleLoadKB].
  set (saved := App.setActiveTab _ _).
  set (later := App.run _ _ _ _ saved es).
  intros Hload Hgrow.
  assert (App.heap saved !! fresh (dom (App.heap s))
          = Some (App.liveDocuments s)) as Hcopy.
  { subst saved. cbn. rewrite lookup_insert_eq. reflexivity. }
  eexists. split; [reflexivity|]. cbn [App.KnowledgeBase.files].
  split; [apply fresh_unallocated|].
  split; [intros Heq; rewrite <- Heq, fresh_unallocated in Hlive; discriminate|].
  split; [reflexivity|].
  split; [exact (readArray_grows saved saved _ _ (reflexivity _) Hcopy)|].
  split; [exact (readArray_grows saved later _ _ Hgrow Hcopy)|].
  unfold App.handleLoadKB.
  destruct Hload as [-> | ->]; [|destruct (App.sessionActive later)];
    exact (readArray_grows saved later _ _ Hgrow Hcopy).
Qed.

Lemma C2_witness :
  exists kb,
    App.liveDocuments
      (App.handleLoadKB kb true
         (App.run sampleClock (fun _ => "1/2/2026") (fun _ => "10:30 AM")
            sampleRandomId (App.handleConfirmSave sampleClock None namedState)
            [ App.RemoveFile "a1"; App.ClearWorkspace true;
              App.FileChange (Some [notesFile]) ]))
    = [readme; guide].
Proof.
  destruct (C2_save_then_load_round_trip sampleClock
              (fun _ => "1/2/2026") (fun _ => "10:30 AM") sampleRandomId
              namedState
              [ App.RemoveFile "a1"; App.ClearWorkspace true;
                App.FileChange (Some [notesFile]) ] true)
    as (kb & _ & _ & _ & _ & _ & _ & H).
  - reflexivity.
  - exists [readme; guide]. vm_compute. reflexivity.
  - right. reflexivity.
  - exists kb. exact H.
Defined.

(** ** Token counters *)

(** C7 as stated fails in its last part: when a new session starts the
    input counter is not reset to zero but set to the estimate of the
    instruction. *)
Lemma C7_counterexample :
  ~ (forall (clock : nat -> Z) (ai : GeminiService.Provider) (s : App.State),
       App.sessionActive s = false ->
       App.sessionActive (App.final (App.handleStartSession clock ai s)) = true ->
       ChatState.totalInputTokens
         (App.chatState (App.final (App.handleStartSession clock ai s))) = 0
       /\ ChatState.totalOutputTokens
            (App.chatState (App.final (App.handleStartSession clock ai s))) = 0).
Proof.
  intros H.
  destruct (H sampleClock offlineProvider uploadedState) as [Habs _].
  - reflexivity.
  - vm_compute. reflexivity.
  - vm_compute in Habs. discriminate Habs.
Qed.

Lemma handleStartSession_started clock ai s :
  App.sessionActive s = false ->
  App.sessionActive (App.final (App.handleStartSession clock ai s)) = true ->
  ChatState.totalOutputTokens
    (App.chatState (App.final (App.handleStartSession clock ai s))) = 0
  /\ ChatState.totalInputTokens
       (App.chatState (App.final (App.handleStartSession clock ai s)))
     = GeminiService.estimateTokenCount ai
         (App.systemInstruction (App.liveDocuments s)).
Proof.
  intros Hoff. unfold App.handleStartSession, App.liveDocuments.
  destruct (_ =? _)%nat; [cbn; congruence|].
  destruct (GeminiService.createChatSession _ _).
  - cbn. auto.
  - destruct (getProp _ _ _); cbn; congruence.
Qed.

(** C7, amended.  Over any run of user actions that contains no session
    boundary (start, reset, new workspace, load), with a provider whose
    reported usage is never negative, neither counter decreases.  At the
    boundaries: [reset] and the full reset set both counters to zero, and
    so does a load that resets an active session; a start that activates
    a session sets the output counter to zero and the input counter to the
    token estimate of the instruction built from the live documents. *)
Theorem C7_counters_over_a_session
    (clock : nat -> Z) (dateString timeString : Z -> string)
    (randomId : nat -> string) (s : App.State) (es : list App.Event) :
  Forall (fun e => sessionBoundary e = false /\ eventReportsNonNegative e) es ->
  (ChatState.totalInputTokens (App.chatState s)
   <= ChatState.totalInputTokens
        (App.chatState (App.run clock dateString timeString randomId s es))
   /\ ChatState.totalOutputTokens (App.chatState s)
      <= ChatState.totalOutputTokens
           (App.chatState (App.run clock dateString timeString randomId s es)))
  /\ (forall t, t = App.handleReset s \/ t = App.handleCreateNew s ->
        ChatState.totalInputTokens (App.chatState t) = 0
        /\ ChatState.totalOutputTokens (App.chatState t) = 0)
  /\ (forall kb, App.sessionActive s = true ->
        ChatState.totalInputTokens
          (App.chatState (App.handleLoadKB kb true s)) = 0
        /\ ChatState.totalOutputTokens
             (App.chatState (App.handleLoadKB kb true s)) = 0)
  /\ (forall ai,
        App.sessionActive s = false ->
        App.sessionActive (App.final (App.handleStartSession clock ai s)) = true ->
        ChatState.totalOutputTokens
          (App.chatState (App.final (App.handleStartSession clock ai s))) = 0
        /\ ChatState.totalInputTokens
             (App.chatState (App.final (App.handleStartSession clock ai s)))
           = GeminiService.estimateTokenCount ai
               (App.systemInstruction (App.liveDocuments s))).
Proof.
  intros Hall. split; [apply run_counters, Hall|]. split; [|split].
  - intros t [-> | ->]; split; reflexivity.
  - intros kb Hon. unfold App.handleLoadKB. rewrite Hon. split; reflexivity.
  - intros ai. apply handleStartSession_started.
Qed.

Lemma onlineProvider_nonNegative : reportsNonNegative onlineProvider.
Proof.
  intros chat msg c um Hc Hum. cbn in Hc.
  repeat match goal with
         | H : _ ∈ _ :: _ |- _ => apply elem_of_cons in H; destruct H as [-> | H]
         | H : _ ∈ [] |- _ => apply elem_of_nil in H; contradiction
         end;
    try discriminate Hum.
  injection Hum as <-. split; vm_compute; discriminate.
Qed.

Lemma C7_witness :
  ChatState.totalInputTokens (App.chatState chattingState)
  <= ChatState.totalInputTokens
       (App.chatState
          (App.run sampleClock (fun _ => "1/2/2026") (fun _ => "10:30 AM")
             sampleRandomId chattingState
             [ App.SendMessage onlineProvider; App.TypeMessage "and then?";
               App.SendMessage offlineProvider ])).
Proof.
  apply (C7_counters_over_a_session sampleClock
           (fun _ => "1/2/2026") (fun _ => "10:30 AM") sampleRandomId
           chattingState
           [ App.SendMessage onlineProvider; App.TypeMessage "and then?";
             App.SendMessage offlineProvider ]).
  constructor; [split; [reflexivity|apply onlineProvider_nonNegative]|].
  constructor; [split; [reflexivity|exact I]|].
  constructor; [split; [reflexivity|]|constructor].
  intros chat msg c um Hc Hum. cbn in Hc.
  apply elem_of_cons in Hc. destruct Hc as [-> | Hc]; [discriminate Hum|].
  apply elem_of_nil in Hc. contradiction.
Defined.

Example turn_scenario :
  let s := App.run sampleClock (fun _ => "1/2/2026") (fun _ => "10:30 AM")
             sampleRandomId chattingState
             [ App.SendMessage onlineProvider; App.TypeMessage "and then?";
               App.SendMessage offlineProvider ] in
  ChatState.totalInputTokens (App.chatState s) = 92
  /\ ChatState.totalOutputTokens (App.chatState s) = 7
  /\ map Message.role (ChatState.messages (App.chatState s))
     = [USER; MODEL; USER; MODEL]
  /\ map Message.isError (ChatState.messages (App.chatState s))
     = [None; None; None; Some true]
  /\ map Message.text (ChatState.messages (App.chatState s))
     = [ "how do I start?"; "Hello there"; "and then?";
         "Connection failed. This could be due to a network issue, an invalid API Key, or a browser extension blocking the request." ].
Proof. vm_compute. repeat split. Qed.

(** * Further properties of the sources *)

(** ** The stream of a turn *)

Lemma fragments_cons c chunks :
  fragments (c :: chunks)
  = match GeminiService.chunkText c with
    | Some t => if truthy t then t :: fragments chunks else fragments chunks
    | None => fragments chunks
    end.
Proof.
  unfold fragments. cbn.
  destruct (GeminiService.chunkText c) as [t|]; [destruct (truthy t)|];
    reflexivity.
Qed.

Lemma reportedUsage_cons c chunks (d : option UsageStats.t) :
  match reportedUsage (c :: chunks) with Some u => Some u | None => d end
  = match reportedUsage chunks with
    | Some u => Some u
    | None => match GeminiService.usageMetadata c with
              | Some um => Some (usageOf um)
              | None => d
              end
    end.
Proof.
  unfold reportedUsage. cbn.
  destruct (GeminiService.usageMetadata c) as [um|]; cbn; [|reflexivity].
  destruct (omap _ chunks) as [|u us]; [reflexivity|].
  cbn [last]. destruct (last (u :: us)) eqn:E; [reflexivity|].
  apply last_None in E. discriminate E.
Qed.

Lemma stream_fold_result {S} (onChunk : string -> S -> S) chunks :
  forall st fullText finalUsage,
  fold_left (GeminiService.streamStep onChunk) chunks
    (st, (fullText, finalUsage))
  = (fold_left (fun st t => onChunk t st) (fragments chunks) st,
     (fullText +:+ concatAll (fragments chunks),
      match reportedUsage chunks with
      | Some u => Some u
      | None => finalUsage
      end)).
Proof.
  induction chunks as [|c chunks IH]; intros st fullText finalUsage.
  - cbn. rewrite string_app_nil_r. reflexivity.
  - cbn [fold_left]. rewrite reportedUsage_cons, fragments_cons.
    unfold GeminiService.streamStep at 2.
    destruct (GeminiService.chunkText c) as [t|];
      [destruct (truthy t)|];
      rewrite IH; cbn [fold_left concatAll fold_right];
      rewrite ?string_app_assoc;
      destruct (GeminiService.usageMetadata c); reflexivity.
Qed.

Lemma sendMessageStream_completes {S} ai chat msg
    (onChunk : string -> S -> S) st :
  GeminiService.failure (GeminiService.chatSendMessageStream ai chat msg) = None ->
  GeminiService.sendMessageStream ai chat msg onChunk st
  = (fold_left (fun st t => onChunk t st)
       (fragments (GeminiService.chunks
                     (GeminiService.chatSendMessageStream ai chat msg))) st,
     Normal
       (concatAll (fragments (GeminiService.chunks
                     (GeminiService.chatSendMessageStream ai chat msg))),
        reportedUsage (GeminiService.chunks
                         (GeminiService.chatSendMessageStream ai chat msg)))).
Proof.
  intros Hok. unfold GeminiService.sendMessageStream.
  rewrite stream_fold_result, Hok. cbn.
  destruct (reportedUsage _); reflexivity.
Qed.

(** X1.  [sendMessageStream] hands the callback exactly the non-empty text
    fragments of a stream that completes, in the order they arrive; the
    text it returns is the concatenation of those fragments and the usage
    is that of the last chunk carrying usage metadata (none if no chunk
    carries any). *)
Theorem X1_stream_delivers_fragments_in_order
    {S : Type} (ai : GeminiService.Provider) (chat : GeminiService.Chat)
    (msg : string) (onChunk : string -> S -> S) (st : S) :
  GeminiService.failure (GeminiService.chatSendMessageStream ai chat msg) = None ->
  fst (GeminiService.sendMessageStream ai chat msg onChunk st)
  = fold_left (fun st t => onChunk t st)
      (fragments (GeminiService.chunks
                    (GeminiService.chatSendMessageStream ai chat msg))) st
  /\ snd (GeminiService.sendMessageStream ai chat msg onChunk st)
     = Normal
         (concatAll (fragments (GeminiService.chunks
                       (GeminiService.chatSendMessageStream ai chat msg))),
          reportedUsage (GeminiService.chunks
                           (GeminiService.chatSendMessageStream ai chat msg))).
Proof.
  intros Hok. rewrite (sendMessageStream_completes _ _ _ _ _ Hok).
  split; reflexivity.
Qed.

Lemma X1_witness :
  snd (GeminiService.sendMessageStream onlineProvider sampleChat "hi"
         (fun t (n : nat) => S n) 0%nat)
  = Normal ("Hello there", Some (UsageStats.mk 50 7 57)).
Proof.
  exact (proj2 (X1_stream_delivers_fragments_in_order onlineProvider sampleChat
                  "hi" (fun t (n : nat) => S n) 0%nat eq_refl)).
Defined.

(** The callback of a turn appends each fragment to the local response
    text. *)
Lemma onChunk_fold l : forall s r,
  snd (fold_left (fun st t => App.onChunk t st) l (s, r)) = r +:+ concatAll l.
Proof.
  induction l as [|t l IH]; intros s r.
  - cbn. rewrite string_app_nil_r. reflexivity.
  - cbn [fold_left]. unfold App.onChunk at 2. cbn [fst snd].
    rewrite IH. cbn. rewrite string_app_assoc. reflexivity.
Qed.

(** X2.  A turn whose stream completes ends without an exception; the
    conversation grows by the USER message (the trimmed input) and one
    MODEL message, not flagged as an error, whose text is the concatenation
    of the stream's non-empty fragments in order; each counter grows by the
    count of the last usage report of the stream, and by nothing when the
    stream reports no usage; the streaming buffer is empty again. *)
Theorem X2_completed_turn
    (clock : nat -> Z) (ai : GeminiService.Provider) (s : App.State)
    (chat : GeminiService.Chat) :
  App.chatInstance s = Some chat ->
  truthy (trim (App.inputMessage s)) = true ->
  ChatState.isLoading (App.chatState s) = false ->
  GeminiService.failure
    (GeminiService.chatSendMessageStream ai chat (trim (App.inputMessage s)))
    = None ->
  App.uncaught (App.handleSendMessage clock ai s) = None
  /\ ChatState.totalInputTokens
       (App.chatState (App.final (App.handleSendMessage clock ai s)))
     = ChatState.totalInputTokens (App.chatState s)
       + match reportedUsage
                 (GeminiService.chunks
                    (GeminiService.chatSendMessageStream ai chat
                       (trim (App.inputMessage s)))) with
         | Some u => UsageStats.promptTokenCount u
         | None => 0
         end
  /\ ChatState.totalOutputTokens
       (App.chatState (App.final (App.handleSendMessage clock ai s)))
     = ChatState.totalOutputTokens (App.chatState s)
       + match reportedUsage
                 (GeminiService.chunks
                    (GeminiService.chatSendMessageStream ai chat
                       (trim (App.inputMessage s)))) with
         | Some u => UsageStats.candidatesTokenCount u
         | None => 0
         end
  /\ ChatState.streamingText
       (App.chatState (App.final (App.handleSendMessage clock ai s)))
     = EmptyString
  /\ ChatState.isLoading
       (App.chatState (App.final (App.handleSendMessage clock ai s))) = false
  /\ exists userMsg botMsg,
       ChatState.messages
         (App.chatState (App.final (App.handleSendMessage clock ai s)))
       = ChatState.messages (App.chatState s) ++ [userMsg; botMsg]
       /\ Message.role userMsg = USER
       /\ Message.text userMsg = trim (App.inputMessage s)
       /\ Message.role botMsg = MODEL
       /\ Message.isError botMsg = None
       /\ Message.text botMsg
          = concatAll
              (fragments
                 (GeminiService.chunks
                    (GeminiService.chatSendMessageStream ai chat
                       (trim (App.inputMessage s))))).
Proof.
  intros Hchat Hmsg Hload Hok.
  unfold App.handleSendMessage. rewrite Hchat, Hmsg, Hload.
  cbn [negb orb App.dateNow].
  match goal with
  | |- context [GeminiService.sendMessageStream ai chat ?m App.onChunk (?s1, ?r1)] =>
      pose proof (sendMessageStream_frame ai chat m s1 r1) as Hfr;
      rewrite (sendMessageStream_completes ai chat m App.onChunk (s1, r1) Hok) in *;
      pose proof (onChunk_fold
        (fragments (GeminiService.chunks
                      (GeminiService.chatSendMessageStream ai chat m))) s1 r1)
        as Htext;
      destruct (fold_left (fun st t => App.onChunk t st) _ (s1, r1))
        as [s' r']
  end.
  destruct Hfr as (Hm & _ & Hi & Ho & _). cbn in Hm, Hi, Ho, Htext |- *.
  rewrite Hi, Ho, Hm, Htext.
  destruct (reportedUsage _) as [u|]; cbn; rewrite ?orNum_some_0;
    do 5 (split; [reflexivity|]);
    eexists _, _; rewrite <- List.app_assoc; repeat split.
Qed.

Lemma X2_witness :
  ChatState.totalInputTokens
    (App.chatState (App.final
       (App.handleSendMessage sampleClock onlineProvider chattingState))) = 92.
Proof.
  exact (proj1 (proj2 (X2_completed_turn sampleClock onlineProvider
                         chattingState sampleChat
                         eq_refl eq_refl eq_refl eq_refl))).
Defined.

(** The text of the message a failed turn appends, through the two
    [catch] blocks. *)
Lemma failed_turn_text clock ai s chat error :
  App.chatInstance s = Some chat ->
  truthy (trim (App.inputMessage s)) = true ->
  ChatState.isLoading (App.chatState s) = false ->
  GeminiService.failure
    (GeminiService.chatSendMessageStream ai chat (trim (App.inputMessage s)))
    = Some error ->
  exists errorMsg,
    last (ChatState.messages
            (App.chatState (App.final (App.handleSendMessage clock ai s))))
    = Some errorMsg
    /\ Message.isError errorMsg = Some true
    /\ Message.text errorMsg
       = orStr (match GeminiService.streamErrorMessage error with
                | Normal m => Some m
                | Throw e => message e
                end)
               "I encountered an error connecting to the support system.".
Proof.
  intros Hchat Hmsg Hload Hfail.
  unfold App.handleSendMessage. rewrite Hchat, Hmsg, Hload.
  cbn [negb orb App.dateNow].
  unfold GeminiService.sendMessageStream. rewrite Hfail.
  destruct (fold_left _ _ _) as [[s' r'] [ft fu]].
  destruct (GeminiService.streamErrorMessage error) as [m|e]; cbn;
    eexists; rewrite last_snoc; repeat split.
Qed.

(** X3.  What the user reads after a failed turn.  When the provider
    rejects with an error whose message contains [http status code: 0] or
    whose status is [UNKNOWN], the error-flagged message is the
    connectivity diagnosis; otherwise, when the error has a non-empty
    message [m], it is [Error: m]; when it has no message it is the
    generic communication error.  The handler's own fall-back text is
    never shown, whatever the provider rejects with. *)
Theorem X3_failed_turn_diagnostic
    (clock : nat -> Z) (ai : GeminiService.Provider) (s : App.State)
    (chat : GeminiService.Chat) (error : Thrown) :
  App.chatInstance s = Some chat ->
  truthy (trim (App.inputMessage s)) = true ->
  ChatState.isLoading (App.chatState s) = false ->
  GeminiService.failure
    (GeminiService.chatSendMessageStream ai chat (trim (App.inputMessage s)))
    = Some error ->
  exists errorMsg,
    last (ChatState.messages
            (App.chatState (App.final (App.handleSendMessage clock ai s))))
    = Some errorMsg
    /\ Message.isError errorMsg = Some true
    /\ Message.text errorMsg
       <> "I encountered an error connecting to the support system."
    /\ (forall e, error = ThrownObject e ->
          (exists m, message e = Some m
                     /\ includes m "http status code: 0" = true)
          \/ status e = Some "UNKNOWN" ->
          Message.text errorMsg
          = "Connection failed. This could be due to a network issue, an invalid API Key, or a browser extension blocking the request.")
    /\ (forall e m, error = ThrownObject e ->
          message e = Some m -> m <> EmptyString ->
          includes m "http status code: 0" = false ->
          status e <> Some "UNKNOWN" ->
          Message.text errorMsg = "Error: " +:+ m)
    /\ (forall e, error = ThrownObject e ->
          message e = None \/ message e = Some EmptyString ->
          status e <> Some "UNKNOWN" ->
          Message.text errorMsg
          = "An error occurred while communicating with the AI.").
Proof.
  intros Hchat Hmsg Hload Hfail.
  destruct (failed_turn_text clock ai s chat error Hchat Hmsg Hload Hfail)
    as (errorMsg & Hlast & Hflag & Htext).
  exists errorMsg. split; [exact Hlast|]. split; [exact Hflag|].
  rewrite Htext. clear Hlast Hflag Htext.
  assert (forall st : option string,
            st <> Some "UNKNOWN" ->
            match st with Some v => String.eqb v "UNKNOWN" | None => false end
            = false) as Hst.
  { intros [v|] Hv; [|reflexivity].
    destruct (String.eqb_spec v "UNKNOWN"); congruence. }
  split; [|split; [|split]].
  - destruct error as [|e]; [vm_compute; discriminate|].
    unfold GeminiService.streamErrorMessage. cbn.
    destruct (_ || _); [vm_compute; discriminate|].
    destruct (message e) as [m|]; [|vm_compute; discriminate].
    destruct m as [|c m]; [vm_compute; discriminate|].
    cbn. unfold orStr. cbn. discriminate.
  - intros e -> Hcond. unfold GeminiService.streamErrorMessage. cbn.
    replace (_ || _) with true; [reflexivity|].
    destruct Hcond as [(m & -> & ->) | ->]; [reflexivity|].
    cbn. rewrite orb_true_r. reflexivity.
  - intros e m -> Hm Hne Hinc Hs.
    unfold GeminiService.streamErrorMessage. cbn.
    rewrite Hm, Hinc, (Hst _ Hs). cbn.
    destruct m as [|c m]; [contradiction|]. reflexivity.
  - intros e -> Hm Hs.
    unfold GeminiService.streamErrorMessage. cbn.
    rewrite (Hst _ Hs).
    destruct Hm as [-> | ->]; reflexivity.
Qed.

Lemma X3_witness :
  exists errorMsg,
    last (ChatState.messages
            (App.chatState (App.final
               (App.handleSendMessage sampleClock offlineProvider chattingState))))
    = Some errorMsg
    /\ Message.isError errorMsg = Some true.
Proof.
  destruct (X3_failed_turn_diagnostic sampleClock offlineProvider chattingState
              sampleChat
              (ThrownObject (mkError "ApiError"
                               (Some "got http status code: 0") None))
              eq_refl eq_refl eq_refl eq_refl)
    as (errorMsg & H1 & H2 & _).
  exists errorMsg. split; [exact H1|exact H2].
Defined.

(** ** Starting a session that cannot be opened *)

Lemma handleStartSession_throws clock ai s e :
  App.liveDocuments s <> [] ->
  GeminiService.createChatSession ai (App.knowledgeBase (App.liveDocuments s))
    = Throw (ThrownObject e) ->
  App.handleStartSession clock ai s
  = App.mkRun
      (App.setChatState
         (fun prev => ChatState.mk (ChatState.messages prev) false
                        (ChatState.streamingText prev)
                        (ChatState.totalInputTokens prev)
                        (ChatState.totalOutputTokens prev))
         (App.alert (orStr (message e) "Failed to initialize the AI session.")
            (App.consoleError "Failed to start session"
               (App.setChatState
                  (fun prev => ChatState.mk (ChatState.messages prev) true
                                 (ChatState.streamingText prev)
                                 (ChatState.totalInputTokens prev)
                                 (ChatState.totalOutputTokens prev))
                  s))))
      None.
Proof.
  intros Hne Hc. unfold App.handleStartSession, App.liveDocuments in *.
  destruct (App.readArray s (App.files s)) as [|d D] eqn:HD; [contradiction|].
  cbn [length Nat.eqb]. cbn beta.
  change (App.readArray _ (App.files _)) with (App.readArray s (App.files s)).
  rewrite ?HD, Hc. reflexivity.
Qed.

(** X4.  When opening the session throws an error object, [start] ends
    without an exception and leaves no session: the active flag and the
    chat handle are what they were, the conversation and both counters are
    untouched, the loading flag is off again, the documents and saved
    records are untouched, and the user is alerted with the error's message
    (with a fixed text when the error has none). *)
Theorem X4_failed_start_leaves_no_session
    (clock : nat -> Z) (ai : GeminiService.Provider) (s : App.State)
    (e : JsError) :
  App.liveDocuments s <> [] ->
  GeminiService.createChatSession ai (App.knowledgeBase (App.liveDocuments s))
    = Throw (ThrownObject e) ->
  App.uncaught (App.handleStartSession clock ai s) = None
  /\ App.sessionActive (App.final (App.handleStartSession clock ai s))
     = App.sessionActive s
  /\ App.chatInstance (App.final (App.handleStartSession clock ai s))
     = App.chatInstance s
  /\ App.chatState (App.final (App.handleStartSession clock ai s))
     = ChatState.mk (ChatState.messages (App.chatState s)) false
         (ChatState.streamingText (App.chatState s))
         (ChatState.totalInputTokens (App.chatState s))
         (ChatState.totalOutputTokens (App.chatState s))
  /\ App.files (App.final (App.handleStartSession clock ai s)) = App.files s
  /\ App.heap (App.final (App.handleStartSession clock ai s)) = App.heap s
  /\ App.savedKBs (App.final (App.handleStartSession clock ai s))
     = App.savedKBs s
  /\ App.calls (App.final (App.handleStartSession clock ai s))
     = App.calls s ++
       [ App.SetState App.ChatStateCell;
         App.ConsoleError "Failed to start session";
         App.Alert (match message e with
                    | Some m => if truthy m then m
                                else "Failed to initialize the AI session."
                    | None => "Failed to initialize the AI session."
                    end);
         App.SetState App.ChatStateCell ].
Proof.
  intros Hne Hc. rewrite (handleStartSession_throws clock ai s e Hne Hc).
  cbn. rewrite <- !List.app_assoc. repeat split.
Qed.

(** A provider without an API key. *)
Lemma X4_witness :
  App.sessionActive
    (App.final (App.handleStartSession sampleClock
                  (GeminiService.mkProvider None
                     (fun _ _ => Normal (Some 42)) (fun c => Normal c)
                     (fun _ _ => GeminiService.mkStream [] None))
                  uploadedState))
  = false.
Proof.
  refine (proj1 (proj2 (X4_failed_start_leaves_no_session sampleClock
            (GeminiService.mkProvider None
               (fun _ _ => Normal (Some 42)) (fun c => Normal c)
               (fun _ _ => GeminiService.mkStream [] None))
            uploadedState
            (newError "API_KEY is missing. Please set process.env.API_KEY or VITE_API_KEY in your .env file.")
            _ eq_refl))).
  vm_compute. discriminate.
Defined.

(** X5.  Without an API key (absent or empty) the provider is never
    called: the token estimate is 0, opening a session throws the
    [API_KEY is missing] error whatever the provider would have answered,
    and a start on a non-empty document list alerts exactly that text and
    leaves the session inactive. *)
Theorem X5_missing_api_key
    (clock : nat -> Z) (ai : GeminiService.Provider) (s : App.State)
    (text : string) :
  GeminiService.apiKey ai = None \/ GeminiService.apiKey ai = Some EmptyString ->
  App.liveDocuments s <> [] ->
  App.sessionActive s = false ->
  GeminiService.estimateTokenCount ai text = 0
  /\ GeminiService.createChatSession ai text
     = Throw (ThrownObject (newError
         "API_KEY is missing. Please set process.env.API_KEY or VITE_API_KEY in your .env file."))
  /\ App.sessionActive (App.final (App.handleStartSession clock ai s)) = false
  /\ App.chatInstance (App.final (App.handleStartSession clock ai s))
     = App.chatInstance s
  /\ last (App.calls (App.final (App.handleStartSession clock ai s)))
     = Some (App.SetState App.ChatStateCell)
  /\ App.Alert
       "API_KEY is missing. Please set process.env.API_KEY or VITE_API_KEY in your .env file."
     ∈ App.calls (App.final (App.handleStartSession clock ai s)).
Proof.
  intros Hkey Hne Hoff.
  assert (forall context,
            GeminiService.createChatSession ai context
            = Throw (ThrownObject (newError
                "API_KEY is missing. Please set process.env.API_KEY or VITE_API_KEY in your .env file.")))
    as Hc.
  { intros context. unfold GeminiService.createChatSession, GeminiService.getClient.
    destruct Hkey as [-> | ->]; reflexivity. }
  split; [|split; [apply Hc|]].
  - unfold GeminiService.estimateTokenCount, GeminiService.getClient.
    destruct Hkey as [-> | ->]; reflexivity.
  - rewrite (handleStartSession_throws clock ai s _ Hne (Hc _)). cbn.
    split; [exact Hoff|]. split; [reflexivity|].
    split; [apply last_snoc|].
    apply elem_of_app. left. apply elem_of_app. right. left.
Qed.

Lemma X5_witness :
  GeminiService.estimateTokenCount
    (GeminiService.mkProvider (Some EmptyString)
       (fun _ _ => Normal (Some 42)) (fun c => Normal c)
       (fun _ _ => GeminiService.mkStream [] None))
    "text" = 0.
Proof.
  refine (proj1 (X5_missing_api_key sampleClock
            (GeminiService.mkProvider (Some EmptyString)
               (fun _ _ => Normal (Some 42)) (fun c => Normal c)
               (fun _ _ => GeminiService.mkStream [] None))
            uploadedState "text" _ _ eq_refl)).
  - right. reflexivity.
  - vm_compute. discriminate.
Defined.

(** ** The session cells over a run *)

Lemma turns_snoc u m :
  Message.role u = USER -> Message.role m = MODEL ->
  forall l, (turns l -> turns (l ++ [u; m]))
            /\ (forall a, turns (a :: l) -> turns ((a :: l) ++ [u; m])).
Proof.
  intros Hu Hm. induction l as [|b l [IH1 IH2]].
  - split; [intros _; cbn; auto|]. intros a [].
  - split; [apply IH2|].
    intros a (Ha & Hb & Hl). cbn. auto.
Qed.

(** The shape of the state a turn leaves, whether its stream completes or
    fails. *)
Lemma handleSendMessage_shape clock ai s :
  App.final (App.handleSendMessage clock ai s) = s
  \/ (App.chatInstance s <> None
      /\ App.sessionActive (App.final (App.handleSendMessage clock ai s))
         = App.sessionActive s
      /\ App.chatInstance (App.final (App.handleSendMessage clock ai s))
         = App.chatInstance s
      /\ ChatState.streamingText
           (App.chatState (App.final (App.handleSendMessage clock ai s)))
         = EmptyString
      /\ exists u m,
           ChatState.messages
             (App.chatState (App.final (App.handleSendMessage clock ai s)))
           = ChatState.messages (App.chatState s) ++ [u; m]
           /\ Message.role u = USER /\ Message.role m = MODEL).
Proof.
  unfold App.handleSendMessage.
  destruct (App.chatInstance s) as [chat|] eqn:Hchat; [|left; reflexivity].
  destruct (negb _ || _); [left; reflexivity|]. right.
  split; [discriminate|].
  cbn [App.dateNow].
  stream_cases ai chat s' r' t u e' Hfr;
    destruct Hfr as (Hm & _ & _ & _ & _ & _ & _ & Hs & Hc & _);
    cbn in Hm, Hs, Hc |- *; rewrite Hs, Hc, Hm, Hchat;
    do 3 (split; [reflexivity|]);
    eexists _, _; rewrite <- List.app_assoc; repeat split.
Qed.

Lemma step_sessionInvariant clock dateString timeString randomId s e :
  sessionInvariant s ->
  sessionInvariant (App.step clock dateString timeString randomId s e).
Proof.
  intros Hinv.
  assert (forall s', App.sessionActive s' = App.sessionActive s ->
            App.chatInstance s' = App.chatInstance s ->
            ChatState.messages (App.chatState s')
            = ChatState.messages (App.chatState s) ->
            ChatState.streamingText (App.chatState s')
            = ChatState.streamingText (App.chatState s) ->
            ChatState.totalInputTokens (App.chatState s')
            = ChatState.totalInputTokens (App.chatState s) ->
            ChatState.totalOutputTokens (App.chatState s')
            = ChatState.totalOutputTokens (App.chatState s) ->
            sessionInvariant s') as Hsame.
  { intros s' Ha Hc Hm Hst Hi Ho. unfold sessionInvariant.
    rewrite Ha, Hc, Hm, Hst, Hi, Ho. exact Hinv. }
  assert (forall s', App.sessionActive s' = false ->
            App.chatInstance s' = None ->
            App.chatState s' = App.emptyChatState ->
            sessionInvariant s') as Hoff.
  { intros s' Ha Hc Hcs. unfold sessionInvariant. rewrite Ha, Hc, Hcs. cbn.
    split; [split; [discriminate|congruence]|].
    split; [reflexivity|]. split; [auto|congruence]. }
  destruct e; cbn [App.step].
  - unfold App.handleFileChange. destruct targetFiles as [fileList|]; [|exact Hinv].
    cbn. match goal with |- context [fold_left ?f ?l ?s0] =>
      pose proof (fold_alert_frame l s0) as Hfr end.
    cbn in Hfr. destruct Hfr as (_ & _ & Hcs & _).
    assert (forall l s0, App.sessionActive
                (fold_left (fun s msg => App.alert msg s) l s0)
              = App.sessionActive s0
              /\ App.chatInstance
                   (fold_left (fun s msg => App.alert msg s) l s0)
                 = App.chatInstance s0) as Hfold.
    { clear. induction l as [|m l IH]; intros s0; [auto|].
      cbn [fold_left]. destruct (IH (App.alert m s0)) as [-> ->]. auto. }
    match goal with |- context [fold_left ?f ?l ?s0] =>
      destruct (Hfold l s0) as [Ha Hc] end.
    apply Hsame; cbn; rewrite ?Ha, ?Hc, ?Hcs; reflexivity.
  - apply Hsame; reflexivity.
  - unfold App.handleClearWorkspace. destruct answer; apply Hsame; reflexivity.
  - unfold App.handleStartSession.
    destruct (_ =? _)%nat; [exact Hinv|].
    destruct (GeminiService.createChatSession _ _) as [chat|error].
    + unfold sessionInvariant. cbn.
      split; [split; [discriminate|reflexivity]|].
      split; [reflexivity|]. split; [discriminate|].
      intros _. eexists _, []. repeat split.
    + destruct (getProp _ _ _); apply Hsame; reflexivity.
  - apply Hoff; reflexivity.
  - apply Hoff; reflexivity.
  - apply Hsame; reflexivity.
  - destruct (handleSendMessage_shape clock ai s)
      as [-> | (Hchat & Ha & Hc & Hst & u & m & Hm & Hu & Hmm)];
      [exact Hinv|].
    destruct Hinv as (Hact & _ & _ & Hconv).
    destruct (Hconv Hchat) as (hello & rest & Hmsgs & Hid & Hrole & Hturns).
    unfold sessionInvariant. rewrite Ha, Hc, Hst, Hm, Hmsgs.
    split; [exact Hact|]. split; [reflexivity|].
    split; [intros Hn; contradiction|].
    intros _. exists hello, (rest ++ [u; m]).
    repeat split; auto. apply (turns_snoc u m Hu Hmm rest), Hturns.
  - unfold App.handleInitiateSave. destruct (_ =? _)%nat; apply Hsame; reflexivity.
  - apply Hsame; reflexivity.
  - unfold App.handleConfirmSave.
    destruct (negb _); [apply Hsame; reflexivity|].
    destruct setItemError as [error|]; [|apply Hsame; reflexivity].
    cbn. destruct (App.isQuotaError error); apply Hsame; reflexivity.
  - apply Hsame; reflexivity.
  - destruct (App.savedKBs s !! index) as [kb|]; [|exact Hinv].
    unfold App.handleLoadKB.
    destruct (App.sessionActive s) eqn:Hon; [destruct answer|];
      try (apply Hsame; reflexivity || (cbn; auto); fail).
    apply Hoff; reflexivity.
  - destruct (App.savedKBs s !! index); [|exact Hinv].
    unfold App.handleDeleteKB.
    destruct answer; [|apply Hsame; reflexivity].
    destruct setItemError; apply Hsame; reflexivity.
  - apply Hsame; reflexivity.
  - apply Hsame; reflexivity.
Qed.

Lemma parseStored_fold_cells saved : forall acc s,
  let s' := snd (fold_left App.parseStored saved (acc, s)) in
  App.sessionActive s' = App.sessionActive s
  /\ App.chatInstance s' = App.chatInstance s
  /\ App.chatState s' = App.chatState s
  /\ App.files s' = App.files s
  /\ App.localStorage s' = App.localStorage s.
Proof.
  induction saved as [|stored saved IH]; intros acc s; [cbn; auto 6|].
  cbn [fold_left]. unfold App.parseStored at 2. cbn [fst snd App.allocArray].
  match goal with |- context [fold_left _ saved (?acc1, ?s1)] =>
    destruct (IH acc1 s1) as (Ha & Hc & Hcs & Hf & Hl) end.
  cbn in *. auto 6.
Qed.

Lemma mount_cells s :
  App.sessionActive (App.mount s) = App.sessionActive s
  /\ App.chatInstance (App.mount s) = App.chatInstance s
  /\ App.chatState (App.mount s) = App.chatState s
  /\ App.files (App.mount s) = App.files s
  /\ App.localStorage (App.mount s) = App.localStorage s.
Proof.
  unfold App.mount. destruct (App.localStorage s) as [saved|] eqn:Hl; [|auto 6].
  pose proof (parseStored_fold_cells saved [] s) as H.
  destruct (fold_left App.parseStored saved ([], s)) as [kbs s'].
  cbn in *. rewrite Hl in H. exact H.
Qed.

(** X6.  The session cells are consistent at the first render, whatever
    was stored, and every handler keeps them consistent when it runs from
    its first statement to its last with no other handler in between.
    Consistent means: the session is flagged active exactly when there is a
    chat handle; the streaming buffer is empty; without a chat handle the
    conversation is empty and both counters are zero; with a chat handle
    the conversation is the greeting followed by completed turns, each a
    USER message followed by one MODEL message.  This is a statement about
    one handler at a time, not about every state of the component: when
    the reset button is pressed while a turn is streaming, the turn's
    continuation appends its MODEL message and its usage to the reset
    conversation, and the cells are then not consistent. *)
Theorem X6_handlers_keep_session_invariant
    (clock : nat -> Z) (dateString timeString : Z -> string)
    (randomId : nat -> string) (stored : option (list App.StoredKB.t)) :
  sessionInvariant (App.mount (App.initial stored))
  /\ (forall (s : App.State) (e : App.Event),
        sessionInvariant s ->
        sessionInvariant
          (App.step clock dateString timeString randomId s e)).
Proof.
  split.
  - destruct (mount_cells (App.initial stored)) as (Ha & Hc & Hcs & _).
    unfold sessionInvariant. rewrite Ha, Hc, Hcs. cbn.
    split; [split; [discriminate|congruence]|].
    split; [reflexivity|]. split; [auto|congruence].
  - intros s e Hs. apply step_sessionInvariant, Hs.
Qed.

Lemma X6_witness :
  sessionInvariant
    (App.step sampleClock (fun _ => "1/2/2026") (fun _ => "10:30 AM")
       sampleRandomId uploadedState (App.StartSession onlineProvider)).
Proof.
  apply (proj2 (X6_handlers_keep_session_invariant sampleClock
                  (fun _ => "1/2/2026") (fun _ => "10:30 AM")
                  sampleRandomId None)).
  unfold sessionInvariant, uploadedState. cbn.
  split; [split; [discriminate|congruence]|].
  split; [reflexivity|]. split; [auto|congruence].
Defined.

(** ** Document arrays and the storage slot over a run *)

(** X7.  No user action ever changes the contents of a document array
    that exists: whatever happens afterwards (uploads, removals, clearing,
    sessions, saves, loads, deletions), the array reads as it did.  In
    particular the documents of a saved record never change. *)
Theorem X7_arrays_are_never_modified
    (clock : nat -> Z) (dateString timeString : Z -> string)
    (randomId : nat -> string) (s : App.State) (es : list App.Event)
    (l : App.loc) :
  is_Some (App.heap s !! l) ->
  App.readArray (App.run clock dateString timeString randomId s es) l
  = App.readArray s l.
Proof.
  intros [v Hv].
  rewrite (readArray_grows s _ l v
             (run_heap_grows clock dateString timeString randomId es s) Hv).
  unfold App.readArray. rewrite Hv. reflexivity.
Qed.

Lemma X7_witness :
  App.readArray
    (App.run sampleClock (fun _ => "1/2/2026") (fun _ => "10:30 AM")
       sampleRandomId uploadedState
       [ App.RemoveFile "a1"; App.CreateNew; App.FileChange (Some [notesFile]) ])
    0%nat
  = [readme; guide].
Proof.
  apply (X7_arrays_are_never_modified sampleClock (fun _ => "1/2/2026")
           (fun _ => "10:30 AM") sampleRandomId uploadedState
           [ App.RemoveFile "a1"; App.CreateNew;
             App.FileChange (Some [notesFile]) ] 0%nat).
  exists [readme; guide]. vm_compute. reflexivity.
Defined.

Lemma stringify_grows s s' kbs :
  App.heap s ⊆ App.heap s' ->
  Forall (fun kb => is_Some (App.heap s !! App.KnowledgeBase.files kb)) kbs ->
  App.stringify s' kbs = App.stringify s kbs.
Proof.
  intros Hsub Hall. unfold App.stringify.
  apply map_ext_in. intros kb Hin.
  eapply Forall_forall in Hall; [|apply list_elem_of_In, Hin].
  destruct Hall as [v Hv].
  rewrite (readArray_grows s s' _ v Hsub Hv).
  unfold App.readArray. rewrite Hv. reflexivity.
Qed.

Lemma stringify_app s l1 l2 :
  App.stringify s (l1 ++ l2) = App.stringify s l1 ++ App.stringify s l2.
Proof. apply map_app. Qed.

Lemma parseStored_fold_stringify saved : forall acc s,
  Forall (fun kb => is_Some (App.heap s !! App.KnowledgeBase.files kb)) acc ->
  App.stringify (snd (fold_left App.parseStored saved (acc, s)))
    (fst (fold_left App.parseStored saved (acc, s)))
  = App.stringify s acc ++ saved.
Proof.
  induction saved as [|stored saved IH]; intros acc s Hacc.
  - cbn. rewrite app_nil_r. reflexivity.
  - cbn [fold_left]. unfold App.parseStored at 2 4. cbn [fst snd App.allocArray].
    rewrite IH.
    + rewrite stringify_app, <- List.app_assoc. f_equal.
      * apply stringify_grows; [apply alloc_grows|exact Hacc].
      * cbn. unfold App.readArray. cbn. rewrite lookup_insert_eq.
        destruct stored. reflexivity.
    + apply Forall_app. split.
      * eapply Forall_impl; [exact Hacc|]. intros kb Hkb. cbn.
        eapply is_Some_grows; [apply alloc_grows|exact Hkb].
      * constructor; [|constructor]. cbn. rewrite lookup_insert_eq. eauto.
Qed.

Lemma mount_stringify s saved :
  App.localStorage s = Some saved ->
  App.stringify (App.mount s) (App.savedKBs (App.mount s)) = saved.
Proof.
  intros Hl. unfold App.mount. rewrite Hl.
  pose proof (parseStored_fold_stringify saved [] s (Forall_nil_2 _)) as H.
  destruct (fold_left App.parseStored saved ([], s)) as [kbs s'].
  exact H.
Qed.

(** X8.  Reading back what was stored: when the slot holds a stored set,
    the effect run on mount rebuilds a list of knowledge bases whose
    serialization is exactly that set (same ids, names, creation times and
    documents, in the same order); it leaves the live upload list and the
    slot as they were. *)
Theorem X8_mount_reads_back_the_stored_set
    (s : App.State) (saved : list App.StoredKB.t) :
  App.localStorage s = Some saved ->
  App.stringify (App.mount s) (App.savedKBs (App.mount s)) = saved
  /\ length (App.savedKBs (App.mount s)) = length saved
  /\ App.files (App.mount s) = App.files s
  /\ App.localStorage (App.mount s) = Some saved.
Proof.
  intros Hl. pose proof (mount_stringify s saved Hl) as Hrt.
  destruct (mount_cells s) as (_ & _ & _ & Hf & Hls).
  split; [exact Hrt|]. split; [|split; [exact Hf|congruence]].
  rewrite <- Hrt. unfold App.stringify. rewrite length_map. reflexivity.
Qed.

Lemma X8_witness :
  App.stringify
    (App.mount (App.initial (Some [App.StoredKB.mk "17" "docs" 17 [readme; guide]])))
    (App.savedKBs
       (App.mount (App.initial (Some [App.StoredKB.mk "17" "docs" 17 [readme; guide]]))))
  = [App.StoredKB.mk "17" "docs" 17 [readme; guide]].
Proof.
  exact (proj1 (X8_mount_reads_back_the_stored_set
                  (App.initial (Some [App.StoredKB.mk "17" "docs" 17 [readme; guide]]))
                  [App.StoredKB.mk "17" "docs" 17 [readme; guide]] eq_refl)).
Defined.

Lemma fold_alert_storage msgs : forall s,
  App.localStorage (fold_left (fun s msg => App.alert msg s) msgs s)
  = App.localStorage s.
Proof.
  induction msgs as [|m msgs IH]; intros s; [reflexivity|].
  cbn [fold_left]. rewrite IH. reflexivity.
Qed.

(** Only a successful save and a successful deletion touch the list of
    saved knowledge bases and the storage slot. *)
Lemma step_saved_cells clock dateString timeString randomId s e :
  match e with
  | App.ConfirmSave None | App.DeleteKB _ true None => False
  | _ => True
  end ->
  App.savedKBs (App.step clock dateString timeString randomId s e)
  = App.savedKBs s
  /\ App.localStorage (App.step clock dateString timeString randomId s e)
     = App.localStorage s.
Proof.
  intros He. destruct e; cbn [App.step].
  - unfold App.handleFileChange. destruct targetFiles as [fileList|]; [|auto].
    cbn. match goal with |- context [fold_left ?f ?l ?s0] =>
      destruct (fold_alert_frame l s0) as (_ & _ & _ & Hk);
      pose proof (fold_alert_storage l s0) as Hl end.
    cbn in Hk, Hl. auto.
  - auto.
  - unfold App.handleClearWorkspace. destruct answer; auto.
  - unfold App.handleStartSession.
    destruct (_ =? _)%nat; [auto|].
    destruct (GeminiService.createChatSession _ _); [auto|].
    destruct (getProp _ _ _); auto.
  - auto.
  - auto.
  - auto.
  - unfold App.handleSendMessage.
    destruct (App.chatInstance s) as [chat|]; [|auto].
    destruct (negb _ || _); [auto|].
    cbn [App.dateNow].
    stream_cases ai chat s' r' t u e' Hfr;
      destruct Hfr as (_ & _ & _ & _ & _ & _ & Hk & _ & _ & Hl & _);
      cbn in Hk, Hl |- *; auto.
  - unfold App.handleInitiateSave. destruct (_ =? _)%nat; auto.
  - auto.
  - destruct setItemError as [error|]; [|contradiction].
    unfold App.handleConfirmSave. destruct (negb _); [auto|].
    cbn. destruct (App.isQuotaError error); auto.
  - auto.
  - destruct (App.savedKBs s !! index) as [kb|]; [|auto].
    unfold App.handleLoadKB.
    destruct (App.sessionActive s); [destruct answer|]; auto.
  - destruct (App.savedKBs s !! index); [|auto].
    unfold App.handleDeleteKB.
    destruct answer; [|auto]. destruct setItemError; [auto|contradiction].
  - auto.
  - auto.
Qed.

Lemma step_inSync clock dateString timeString randomId s e :
  allocated s -> inSync s ->
  inSync (App.step clock dateString timeString randomId s e).
Proof.
  intros [Hlive Hkbs] Hsync.
  destruct (match e with
            | App.ConfirmSave None | App.DeleteKB _ true None => true
            | _ => false
            end) eqn:Hkind.
  - destruct e; try discriminate Hkind; cbn [App.step].
    + destruct setItemError; [discriminate Hkind|].
      unfold App.handleConfirmSave.
      destruct (negb _); [exact Hsync|]. reflexivity.
    + destruct answer; [|discriminate Hkind].
      destruct setItemError; [discriminate Hkind|].
      destruct (App.savedKBs s !! index); [|exact Hsync]. reflexivity.
  - destruct (step_saved_cells clock dateString timeString randomId s e)
      as [Hk Hl].
    { destruct e; try exact I.
      - destruct setItemError; [exact I|discriminate Hkind].
      - destruct answer; [|exact I].
        destruct setItemError; [exact I|discriminate Hkind]. }
    unfold inSync in *. rewrite Hl, Hk.
    rewrite (stringify_grows s _ _
               (step_heap_grows clock dateString timeString randomId s e) Hkbs).
    exact Hsync.
Qed.

(** X9.  Provided that the storage slot, when the page loads, is empty or
    holds the JSON text of a list of knowledge-base records (what the
    component itself writes there), the slot and the in-memory list of
    saved knowledge bases agree at the first render and after every
    sequence of user actions: the list of records that the slot encodes is
    exactly the serialization of the in-memory list (same records in the
    same order, each with its documents), and the in-memory list is empty
    while the slot is.  [stored] is the list that the slot's text encodes
    when the page loads.  A slot whose text does not parse is not covered:
    there the first render has an empty list beside a non-empty slot. *)
Theorem X9_storage_mirrors_saved_list
    (clock : nat -> Z) (dateString timeString : Z -> string)
    (randomId : nat -> string) (stored : option (list App.StoredKB.t))
    (es : list App.Event) :
  inSync (App.run clock dateString timeString randomId
            (App.mount (App.initial stored)) es).
Proof.
  assert (allocated (App.mount (App.initial stored))) as Hal
    by apply mount_allocated, initial_allocated.
  assert (inSync (App.mount (App.initial stored))) as Hsync.
  { unfold inSync.
    destruct (mount_cells (App.initial stored)) as (_ & _ & _ & _ & ->).
    destruct stored as [saved|]; [|reflexivity].
    apply mount_stringify. reflexivity. }
  revert Hal Hsync. generalize (App.mount (App.initial stored)).
  induction es as [|e es IH]; intros s Hal Hsync; [exact Hsync|].
  unfold App.run in *. cbn [fold_left].
  apply IH; [apply step_allocated, Hal|apply step_inSync; assumption].
Qed.

(** ** Deleting a knowledge base *)

(** X10.  Deleting by id.  If the user declines the confirmation nothing
    changes.  Otherwise the handler first writes the remaining set to the
    slot and only then replaces the in-memory list: the list keeps, in
    their order, exactly the records whose id differs from the given one
    (every record with that id goes, were there several), and the slot
    holds their serialization.  If the write throws, the list and the slot
    are what they were and the user is alerted.  In no case are the live
    upload list, the document arrays or the session touched. *)
Theorem X10_delete_by_id
    (id : string) (answer : bool) (setItemError : option JsError)
    (s : App.State) :
  App.files (App.handleDeleteKB id answer setItemError s) = App.files s
  /\ App.heap (App.handleDeleteKB id answer setItemError s) = App.heap s
  /\ App.sessionActive (App.handleDeleteKB id answer setItemError s)
     = App.sessionActive s
  /\ App.chatState (App.handleDeleteKB id answer setItemError s)
     = App.chatState s
  /\ (answer = false ->
        App.savedKBs (App.handleDeleteKB id answer setItemError s)
        = App.savedKBs s
        /\ App.localStorage (App.handleDeleteKB id answer setItemError s)
           = App.localStorage s)
  /\ (answer = true -> setItemError = None ->
        (forall kb,
           kb ∈ App.savedKBs (App.handleDeleteKB id answer setItemError s)
           <-> kb ∈ App.savedKBs s /\ App.KnowledgeBase.id kb <> id)
        /\ sublist (App.savedKBs (App.handleDeleteKB id answer setItemError s))
                   (App.savedKBs s)
        /\ App.localStorage (App.handleDeleteKB id answer setItemError s)
           = Some (App.stringify s
                     (App.savedKBs (App.handleDeleteKB id answer setItemError s)))
        /\ exists written,
             App.calls (App.handleDeleteKB id answer setItemError s)
             = App.calls s ++
               [ App.Confirm "Are you sure you want to delete this Knowledge Base?" true;
                 App.SetItem "smartsdk_kbs" written true;
                 App.SetState App.SavedKBs ])
  /\ (answer = true -> setItemError <> None ->
        App.savedKBs (App.handleDeleteKB id answer setItemError s)
        = App.savedKBs s
        /\ App.localStorage (App.handleDeleteKB id answer setItemError s)
           = App.localStorage s
        /\ last (App.calls (App.handleDeleteKB id answer setItemError s))
           = Some (App.Alert "Failed to delete Knowledge Base.")).
Proof.
  unfold App.handleDeleteKB.
  destruct answer; [destruct setItemError as [e|]|]; cbn;
    (do 4 (split; [reflexivity|])); (split; [|split]);
    try (intros; discriminate); try (intros; congruence).
  - intros _ _. split; [reflexivity|]. split; [reflexivity|].
    rewrite last_app. reflexivity.
  - intros _ _. split; [|split; [|split]].
    + intros kb. rewrite list_elem_of_filter. tauto.
    + apply sublist_filter.
    + reflexivity.
    + eexists. rewrite <- !List.app_assoc. reflexivity.
  - intros _. split; reflexivity.
Qed.

Lemma X10_witness :
  App.localStorage (App.handleDeleteKB "17" true None twoSavedState)
  = Some [ App.StoredKB.mk "18" "second" 18 [guide] ].
Proof.
  destruct (X10_delete_by_id "17" true None twoSavedState)
    as (_ & _ & _ & _ & _ & H & _).
  destruct (H eq_refl eq_refl) as (_ & _ & Hslot & _).
  rewrite Hslot. vm_compute. reflexivity.
Defined.

(** ** Batches of uploads *)

(** What a file adds does not depend on what was produced before it, but
    for the number of identifiers drawn. *)
Lemma processFile_from randomId acc file :
  FileUpload.processFile randomId acc file
  = FileUpload.mkAcc
      (FileUpload.newFiles acc ++
       FileUpload.newFiles
         (FileUpload.processFile randomId
            (FileUpload.mkAcc [] (FileUpload.draws acc) []) file))
      (FileUpload.draws
         (FileUpload.processFile randomId
            (FileUpload.mkAcc [] (FileUpload.draws acc) []) file))
      (FileUpload.alerts acc ++
       FileUpload.alerts
         (FileUpload.processFile randomId
            (FileUpload.mkAcc [] (FileUpload.draws acc) []) file)).
Proof.
  destruct acc as [docs k als].
  unfold FileUpload.processFile, FileUpload.processZip. cbn.
  destruct (endsWith _ _ || includes _ _).
  - destruct (FileUpload.File.loadAsync file) as [entries|err];
      [|cbn; rewrite app_nil_r; reflexivity].
    destruct (FileUpload.promiseAll randomId _ k) as [[results|err] k'];
      cbn; rewrite ?app_nil_r; reflexivity.
  - destruct (FileUpload.isTextFile _ || startsWith _ _);
      destruct (FileUpload.File.text file) as [text|err];
      try (cbn; rewrite !app_nil_r; reflexivity).
    destruct (negb _); cbn; rewrite ?app_nil_r; reflexivity.
Qed.

Lemma normalize_from randomId fileList : forall acc,
  fold_left (FileUpload.processFile randomId) fileList acc
  = FileUpload.mkAcc
      (FileUpload.newFiles acc ++
       FileUpload.newFiles
         (FileUpload.normalize randomId fileList (FileUpload.draws acc)))
      (FileUpload.draws
         (FileUpload.normalize randomId fileList (FileUpload.draws acc)))
      (FileUpload.alerts acc ++
       FileUpload.alerts
         (FileUpload.normalize randomId fileList (FileUpload.draws acc))).
Proof.
  unfold FileUpload.normalize.
  induction fileList as [|file fileList IH]; intros acc.
  - destruct acc. cbn. rewrite !app_nil_r. reflexivity.
  - cbn [fold_left].
    rewrite (IH (FileUpload.processFile randomId acc file)).
    rewrite (IH (FileUpload.processFile randomId _ file)).
    rewrite (processFile_from randomId acc file). cbn.
    rewrite <- !List.app_assoc. reflexivity.
Qed.

Lemma normalize_app randomId l1 l2 k :
  FileUpload.normalize randomId (l1 ++ l2) k
  = FileUpload.mkAcc
      (FileUpload.newFiles (FileUpload.normalize randomId l1 k) ++
       FileUpload.newFiles
         (FileUpload.normalize randomId l2
            (FileUpload.draws (FileUpload.normalize randomId l1 k))))
      (FileUpload.draws
         (FileUpload.normalize randomId l2
            (FileUpload.draws (FileUpload.normalize randomId l1 k))))
      (FileUpload.alerts (FileUpload.normalize randomId l1 k) ++
       FileUpload.alerts
         (FileUpload.normalize randomId l2
            (FileUpload.draws (FileUpload.normalize randomId l1 k)))).
Proof.
  unfold FileUpload.normalize at 1. rewrite fold_left_app.
  fold (FileUpload.normalize randomId l1 k).
  apply normalize_from.
Qed.

Lemma fold_alert_draws msgs : forall s,
  App.draws (fold_left (fun s msg => App.alert msg s) msgs s) = App.draws s.
Proof.
  induction msgs as [|m msgs IH]; intros s; [reflexivity|].
  cbn [fold_left]. rewrite IH. reflexivity.
Qed.

Lemma handleFileChange_live randomId fileList s :
  App.liveDocuments (App.handleFileChange randomId (Some fileList) s)
  = App.liveDocuments s
    ++ FileUpload.newFiles (FileUpload.normalize randomId fileList (App.draws s))
  /\ App.draws (App.handleFileChange randomId (Some fileList) s)
     = FileUpload.draws (FileUpload.normalize randomId fileList (App.draws s))
  /\ (forall l, is_Some (App.heap s !! l) ->
        App.readArray (App.handleFileChange randomId (Some fileList) s) l
        = App.readArray s l).
Proof.
  unfold App.handleFileChange, App.liveDocuments. cbn.
  match goal with |- context [fold_left ?f ?l ?s0] =>
    destruct (fold_alert_frame l s0) as (Hh & Hf & _);
    pose proof (fold_alert_draws l s0) as Hd end.
  cbn in Hh, Hf, Hd. unfold App.readArray. cbn.
  rewrite lookup_insert_eq, Hh, Hf, Hd. cbn.
  split; [reflexivity|]. split; [reflexivity|].
  intros l [v Hv]. rewrite lookup_insert_ne; [reflexivity|].
  intros <-. rewrite fresh_unallocated in Hv. discriminate.
Qed.

(** X11.  An upload never replaces documents: the live list afterwards is
    the list before followed by the documents of the batch, in the order
    of the selected files, and the array that held the list before is
    untouched.  Uploading a batch in one go or in two successive parts
    gives the same live list. *)
Theorem X11_upload_appends_and_composes
    (randomId : nat -> string) (l1 l2 : list FileUpload.File.t)
    (s : App.State) :
  is_Some (App.heap s !! App.files s) ->
  App.liveDocuments (App.handleFileChange randomId (Some (l1 ++ l2)) s)
  = App.liveDocuments s
    ++ FileUpload.newFiles (FileUpload.normalize randomId l1 (App.draws s))
    ++ FileUpload.newFiles
         (FileUpload.normalize randomId l2
            (FileUpload.draws (FileUpload.normalize randomId l1 (App.draws s))))
  /\ App.readArray (App.handleFileChange randomId (Some (l1 ++ l2)) s)
       (App.files s)
     = App.liveDocuments s
  /\ App.liveDocuments
       (App.handleFileChange randomId (Some l2)
          (App.handleFileChange randomId (Some l1) s))
     = App.liveDocuments (App.handleFileChange randomId (Some (l1 ++ l2)) s).
Proof.
  intros Hlive.
  destruct (handleFileChange_live randomId (l1 ++ l2) s) as (Hall & _ & Hold).
  destruct (handleFileChange_live randomId l1 s) as (H1 & Hd1 & _).
  destruct (handleFileChange_live randomId l2
              (App.handleFileChange randomId (Some l1) s)) as (H2 & _ & _).
  rewrite normalize_app in Hall. cbn [FileUpload.newFiles] in Hall.
  split; [exact Hall|]. split; [apply Hold, Hlive|].
  rewrite H2, H1, Hd1, Hall, <- List.app_assoc. reflexivity.
Qed.

Lemma X11_witness :
  App.liveDocuments
    (App.handleFileChange sampleRandomId (Some [sampleZip])
       (App.handleFileChange sampleRandomId (Some [notesFile]) uploadedState))
  = App.liveDocuments
      (App.handleFileChange sampleRandomId (Some ([notesFile] ++ [sampleZip]))
         uploadedState).
Proof.
  refine (proj2 (proj2 (X11_upload_appends_and_composes sampleRandomId
                          [notesFile] [sampleZip] uploadedState _))).
  exists [readme; guide]. vm_compute. reflexivity.
Defined.

(** ** Files and entries that cannot be read *)

Lemma normalize_after randomId l1 l2 k :
  FileUpload.normalize randomId (l1 ++ l2) k
  = fold_left (FileUpload.processFile randomId) l2
      (FileUpload.normalize randomId l1 k).
Proof.
  unfold FileUpload.normalize. rewrite fold_left_app. reflexivity.
Qed.

(** X12.  One unreadable file never aborts a batch.  A file whose text
    cannot be read, or an archive that cannot be opened, adds no document
    and draws no identifier: the documents of the batch, and the
    identifiers drawn, are those of the batch without it.  The single file
    raises no alert either (the handler reports it on the console only,
    which is not part of the statement); for the archive an alert naming
    it is shown. *)
Theorem X12_unreadable_file_is_skipped
    (randomId : nat -> string) (l1 l2 : list FileUpload.File.t)
    (file : FileUpload.File.t) (k : nat) (err : Thrown) :
  (endsWith (FileUpload.File.name file) ".zip"
     || includes (FileUpload.File.type file) "zip" = false
   /\ FileUpload.File.text file = Throw err)
  \/ (endsWith (FileUpload.File.name file) ".zip"
        || includes (FileUpload.File.type file) "zip" = true
      /\ FileUpload.File.loadAsync file = Throw err) ->
  FileUpload.newFiles (FileUpload.normalize randomId (l1 ++ file :: l2) k)
  = FileUpload.newFiles (FileUpload.normalize randomId (l1 ++ l2) k)
  /\ FileUpload.draws (FileUpload.normalize randomId (l1 ++ file :: l2) k)
     = FileUpload.draws (FileUpload.normalize randomId (l1 ++ l2) k)
  /\ (endsWith (FileUpload.File.name file) ".zip"
        || includes (FileUpload.File.type file) "zip" = false ->
      FileUpload.alerts (FileUpload.normalize randomId (l1 ++ file :: l2) k)
      = FileUpload.alerts (FileUpload.normalize randomId (l1 ++ l2) k))
  /\ (endsWith (FileUpload.File.name file) ".zip"
        || includes (FileUpload.File.type file) "zip" = true ->
      ("Failed to process zip file: " +:+ FileUpload.File.name file)
      ∈ FileUpload.alerts (FileUpload.normalize randomId (l1 ++ file :: l2) k)).
Proof.
  intros Hcase. rewrite !normalize_after. cbn [fold_left].
  destruct Hcase as [[Hzip Htext] | [Hzip Hload]].
  - assert (FileUpload.processFile randomId
              (FileUpload.normalize randomId l1 k) file
            = FileUpload.normalize randomId l1 k) as ->.
    { unfold FileUpload.processFile. rewrite Hzip, Htext.
      destruct (FileUpload.isTextFile _ || startsWith _ _); reflexivity. }
    split; [reflexivity|]. split; [reflexivity|].
    split; [intros _; reflexivity|].
    intros Habs. rewrite Hzip in Habs. discriminate Habs.
  - assert (FileUpload.processFile randomId
              (FileUpload.normalize randomId l1 k) file
            = FileUpload.mkAcc
                (FileUpload.newFiles (FileUpload.normalize randomId l1 k))
                (FileUpload.draws (FileUpload.normalize randomId l1 k))
                (FileUpload.alerts (FileUpload.normalize randomId l1 k)
                 ++ ["Failed to process zip file: "
                     +:+ FileUpload.File.name file])) as ->.
    { unfold FileUpload.processFile, FileUpload.processZip.
      rewrite Hzip, Hload. reflexivity. }
    rewrite (normalize_from randomId l2 (FileUpload.mkAcc _ _ _)).
    rewrite (normalize_from randomId l2 (FileUpload.normalize randomId l1 k)).
    cbn. split; [reflexivity|]. split; [reflexivity|].
    split; [intros Habs; rewrite Hzip in Habs; discriminate|].
    intros _. apply elem_of_app. left. apply elem_of_app. right. left.
Qed.

Lemma X12_witness :
  FileUpload.newFiles
    (FileUpload.normalize sampleRandomId ([notesFile] ++ brokenArchive :: [sampleZip]) 0)
  = FileUpload.newFiles
      (FileUpload.normalize sampleRandomId ([notesFile] ++ [sampleZip]) 0).
Proof.
  refine (proj1 (X12_unreadable_file_is_skipped sampleRandomId
                   [notesFile] [sampleZip] brokenArchive 0 ThrownUndefined _)).
  right. split; reflexivity.
Defined.

Lemma promiseAll_rejects randomId promises : forall k e err,
  e ∈ promises ->
  FileUpload.ZipObject.async e = Throw err ->
  exists err', fst (FileUpload.promiseAll randomId promises k) = Throw err'.
Proof.
  induction promises as [|p promises IH]; intros k e err Hin He.
  - apply elem_of_nil in Hin. contradiction.
  - cbn. destruct (FileUpload.ZipObject.async p) as [content|err0] eqn:Hp.
    + apply elem_of_cons in Hin. destruct Hin as [-> | Hin]; [congruence|].
      destruct (IH (S k) e err Hin He) as [err' Herr'].
      destruct (FileUpload.promiseAll randomId promises (S k)) as [r k'].
      cbn in *. rewrite Herr'. cbn. eauto.
    + destruct (FileUpload.promiseAll randomId promises k) as [r k'].
      cbn. eauto.
Qed.

(** X13.  An archive is taken whole or not at all.  If the decoding of one
    entry that is awaited (not a directory, no [__MACOSX] in its path, not
    beginning with [.], extension in the allow-list) is rejected, the
    archive adds no document at all, also not those of its entries that
    decode, and one alert naming the archive is shown. *)
Theorem X13_archive_with_undecodable_entry_is_dropped
    (randomId : nat -> string) (acc : FileUpload.Acc) (file : FileUpload.File.t)
    (entries : list FileUpload.ZipObject.t) (e : FileUpload.ZipObject.t)
    (err : Thrown) :
  endsWith (FileUpload.File.name file) ".zip"
    || includes (FileUpload.File.type file) "zip" = true ->
  FileUpload.File.loadAsync file = Normal entries ->
  e ∈ entries ->
  FileUpload.ZipObject.dir e = false ->
  includes (FileUpload.ZipObject.name e) "__MACOSX" = false ->
  startsWith (FileUpload.ZipObject.name e) "." = false ->
  FileUpload.isTextFile (FileUpload.ZipObject.name e) = true ->
  FileUpload.ZipObject.async e = Throw err ->
  FileUpload.newFiles (FileUpload.processFile randomId acc file)
  = FileUpload.newFiles acc
  /\ FileUpload.alerts (FileUpload.processFile randomId acc file)
     = FileUpload.alerts acc
       ++ ["Failed to process zip file: " +:+ FileUpload.File.name file].
Proof.
  intros Hzip Hload Hin Hdir Hmac Hdot Hext Herr.
  unfold FileUpload.processFile, FileUpload.processZip.
  rewrite Hzip, Hload, forEachEntry_filter. cbn [app].
  assert (e ∈ List.filter awaited entries) as Hin'.
  { apply list_elem_of_In, List.filter_In. split; [apply list_elem_of_In, Hin|].
    unfold awaited. rewrite Hdir, Hmac, Hdot, Hext. reflexivity. }
  destruct (promiseAll_rejects randomId _ (FileUpload.draws acc) e err Hin' Herr)
    as [err' Hrej].
  destruct (FileUpload.promiseAll randomId _ _) as [r k'].
  cbn in Hrej. subst r. split; reflexivity.
Qed.

Lemma X13_witness :
  FileUpload.newFiles (FileUpload.processFile sampleRandomId emptyAcc halfBrokenZip)
  = [].
Proof.
  refine (proj1 (X13_archive_with_undecodable_entry_is_dropped sampleRandomId
                   emptyAcc halfBrokenZip _
                   (FileUpload.ZipObject.mk "b.md" false (Throw ThrownUndefined))
                   ThrownUndefined eq_refl eq_refl _ eq_refl eq_refl eq_refl _
                   eq_refl)).
  - right. left.
  - vm_compute. reflexivity.
Defined.

(** X14.  Inside an archive the allow-list is final: every document an
    archive adds has a name whose extension is in the allow-list, so an
    entry with another extension never becomes a document (a single file
    with such an extension may still be taken by the fall-back branch). *)
Theorem X14_archive_documents_are_allow_listed
    (randomId : nat -> string) (acc : FileUpload.Acc) (file : FileUpload.File.t) :
  endsWith (FileUpload.File.name file) ".zip"
    || includes (FileUpload.File.type file) "zip" = true ->
  exists produced,
    FileUpload.newFiles (FileUpload.processFile randomId acc file)
    = FileUpload.newFiles acc ++ produced
    /\ Forall (fun d => FileUpload.isTextFile (UploadedFile.name d) = true)
              produced.
Proof.
  intros Hzip. unfold FileUpload.processFile. rewrite Hzip.
  destruct (FileUpload.File.loadAsync file) as [entries|err] eqn:Hload.
  - destruct (processZip_produced randomId file acc entries Hload)
      as (produced & Hnew & [-> | Hall]).
    + exists []. split; [exact Hnew|constructor].
    + exists produced. split; [exact Hnew|].
      assert (Forall (fun e => FileUpload.isTextFile
                                 (FileUpload.ZipObject.name e) = true)
                     (List.filter awaited entries)) as Hext.
      { apply Forall_forall. intros e He.
        apply list_elem_of_In, List.filter_In in He. destruct He as [_ He].
        unfold awaited in He. apply andb_true_iff in He. tauto. }
      clear -Hall Hext.
      induction Hall as [|e d es ds (Hn & _) _ IH]; constructor.
      * rewrite Hn. inversion Hext; assumption.
      * apply IH. inversion Hext; assumption.
  - exists []. unfold FileUpload.processZip. rewrite Hload. cbn.
    rewrite app_nil_r. split; [reflexivity|constructor].
Qed.

Lemma X14_witness :
  exists produced,
    FileUpload.newFiles (FileUpload.processFile sampleRandomId emptyAcc sampleZip)
    = [] ++ produced
    /\ Forall (fun d => FileUpload.isTextFile (UploadedFile.name d) = true)
              produced.
Proof.
  exact (X14_archive_documents_are_allow_listed sampleRandomId emptyAcc
           sampleZip eq_refl).
Defined.

(** ** Names, extensions and the binary check *)

Lemma includes_char s c : includes s (String c EmptyString) = hasChar c s.
Proof.
  induction s as [|a s IH]; [reflexivity|].
  change (includes (String a s) (String c EmptyString))
    with (String.prefix (String c EmptyString) (String a s)
          || includes s (String c EmptyString)).
  rewrite IH. cbn [hasChar]. f_equal.
  cbn [String.prefix]. destruct (ascii_dec c a) as [->|Hne].
  - rewrite Ascii.eqb_refl. destruct s; reflexivity.
  - symmetry. apply Ascii.eqb_neq. congruence.
Qed.

Lemma split_nonempty s sep : split s sep <> [].
Proof.
  destruct s as [|c s]; cbn; [discriminate|].
  destruct (Ascii.eqb c sep); [discriminate|].
  destruct (split s sep); discriminate.
Qed.

Lemma split_without_sep s sep : hasChar sep s = false -> split s sep = [s].
Proof.
  induction s as [|c s IH]; [reflexivity|]. cbn.
  intros H. apply orb_false_iff in H. destruct H as [Hc Hs].
  rewrite Hc, (IH Hs). reflexivity.
Qed.

Lemma split_app_sep a b sep :
  split (a +:+ String sep b) sep = split a sep ++ split b sep.
Proof.
  induction a as [|c a IH].
  - change (EmptyString +:+ String sep b) with (String sep b).
    cbn [split app]. rewrite Ascii.eqb_refl. reflexivity.
  - rewrite string_app_cons. cbn [split]. rewrite IH.
    destruct (Ascii.eqb c sep); [reflexivity|].
    pose proof (split_nonempty a sep).
    destruct (split a sep); [contradiction|reflexivity].
Qed.

Lemma pop_split_after_sep a b sep :
  hasChar sep b = false ->
  pop (split (a +:+ String sep b) sep) = Some b.
Proof.
  intros Hb. rewrite split_app_sep, (split_without_sep b sep Hb).
  unfold pop. apply last_snoc.
Qed.

(** X15.  A single file that is not taken as an archive and whose text can
    be read yields at most one document, and is rejected in one case only:
    its extension is not in the allow-list, its declared type does not
    begin with [text/], and its text contains a NUL.  When it is accepted,
    the document has the file's name, text and declared size. *)
Theorem X15_single_file_acceptance
    (randomId : nat -> string) (k : nat) (file : FileUpload.File.t)
    (text : string) :
  endsWith (FileUpload.File.name file) ".zip"
    || includes (FileUpload.File.type file) "zip" = false ->
  FileUpload.File.text file = Normal text ->
  (FileUpload.isTextFile (FileUpload.File.name file)
     || startsWith (FileUpload.File.type file) "text/"
     || negb (hasChar "000" text) = false ->
   FileUpload.normalize randomId [file] k = FileUpload.mkAcc [] k [])
  /\ (FileUpload.isTextFile (FileUpload.File.name file)
        || startsWith (FileUpload.File.type file) "text/"
        || negb (hasChar "000" text) = true ->
      exists d,
        FileUpload.newFiles (FileUpload.normalize randomId [file] k) = [d]
        /\ FileUpload.draws (FileUpload.normalize randomId [file] k) = S k
        /\ UploadedFile.id d = randomId k
        /\ UploadedFile.name d = FileUpload.File.name file
        /\ UploadedFile.content d = text
        /\ UploadedFile.size d = FileUpload.File.size file).
Proof.
  intros Hzip Htext. unfold FileUpload.normalize. cbn [fold_left].
  unfold FileUpload.processFile. rewrite Hzip, Htext.
  change nul with (String "000"%char EmptyString). rewrite includes_char.
  destruct (FileUpload.isTextFile _ || startsWith _ _); cbn.
  - split; [discriminate|]. intros _. eexists. repeat split.
  - destruct (hasChar "000" text); cbn.
    + split; [reflexivity|discriminate].
    + split; [discriminate|]. intros _. eexists. repeat split.
Qed.

Lemma X15_witness :
  FileUpload.normalize sampleRandomId
    [ FileUpload.File.mk "photo.bin" "application/octet-stream" 3
        (Normal (String "137"%char (String "000"%char (String "013"%char EmptyString))))
        (Throw ThrownUndefined) ] 0
  = FileUpload.mkAcc [] 0 [].
Proof.
  apply (X15_single_file_acceptance sampleRandomId 0
           (FileUpload.File.mk "photo.bin" "application/octet-stream" 3
              (Normal (String "137"%char (String "000"%char (String "013"%char EmptyString))))
              (Throw ThrownUndefined))
           (String "137"%char (String "000"%char (String "013"%char EmptyString))));
    vm_compute; reflexivity.
Defined.

(** X16.  The allow-list test looks only at what follows the last dot of
    the name, without regard to case: a name [base.ext], where [ext] has
    no dot, is a text file exactly when the lower-cased [ext] is non-empty
    and in the allow-list, whatever [base] is (folders included); a name
    without any dot is judged as a whole. *)
Theorem X16_isTextFile_reads_the_last_extension (base ext : string) :
  hasChar "."%char ext = false ->
  FileUpload.isTextFile (base +:+ String "."%char ext)
  = (truthy (toLowerCase ext)
     && bool_decide (toLowerCase ext ∈ FileUpload.TEXT_EXTENSIONS))
  /\ FileUpload.isTextFile ext
     = (truthy (toLowerCase ext)
        && bool_decide (toLowerCase ext ∈ FileUpload.TEXT_EXTENSIONS)).
Proof.
  intros Hext. unfold FileUpload.isTextFile.
  rewrite (pop_split_after_sep base ext "."%char Hext).
  rewrite (split_without_sep ext "."%char Hext). cbn [pop last].
  destruct (truthy (toLowerCase ext)); split; reflexivity.
Qed.

Lemma X16_witness :
  FileUpload.isTextFile ("my.project/src/Main" +:+ String "."%char "CPP") = true.
Proof.
  rewrite (proj1 (X16_isTextFile_reads_the_last_extension
                    "my.project/src/Main" "CPP" eq_refl)).
  vm_compute. reflexivity.
Defined.

(** X17.  The file list shows the part of a name after its last [/]: for
    a name [dir/base] where [base] has no [/] the name shown is [base] and
    the row gets the archive-folder icon; a name without [/] is shown
    whole.  The name shown is never undefined. *)
Theorem X17_display_name_is_the_base_name (dir base : string) :
  hasChar "/"%char base = false ->
  FileUpload.displayName (dir +:+ String "/"%char base) = Some base
  /\ FileUpload.fileIcon (dir +:+ String "/"%char base) = FileUpload.FolderArchive
  /\ FileUpload.displayName base = Some base
  /\ forall name, FileUpload.displayName name <> None.
Proof.
  intros Hbase. unfold FileUpload.displayName.
  split; [apply pop_split_after_sep, Hbase|]. split; [|split].
  - unfold FileUpload.fileIcon.
    change "/" with (String "/"%char EmptyString) at 1.
    rewrite includes_char.
    replace (hasChar "/"%char (dir +:+ String "/"%char base)) with true;
      [reflexivity|].
    clear. induction dir as [|c dir IH]; cbn.
    + reflexivity.
    + rewrite string_app_cons. cbn. rewrite <- IH. symmetry. apply orb_true_r.
  - rewrite (split_without_sep base "/"%char Hbase). reflexivity.
  - intros name. unfold pop. rewrite last_None. apply split_nonempty.
Qed.

Lemma X17_witness :
  FileUpload.displayName ("src/core" +:+ String "/"%char "main.cpp")
  = Some "main.cpp".
Proof.
  exact (proj1 (X17_display_name_is_the_base_name "src/core" "main.cpp" eq_refl)).
Defined.

(** ** Naming a knowledge base *)

Lemma trim_keeps_first c rest :
  isWhiteSpace c = false -> truthy (trim (String c rest)) = true.
Proof.
  intros Hc. unfold trim. cbn [trimStart]. rewrite Hc.
  cbn [trimEnd]. destruct (trimEnd rest); rewrite ?Hc; reflexivity.
Qed.

(** X18.  Asking to save does nothing while there is no document.  With
    documents it proposes a name that begins with [SDK Docs - ] and is
    therefore never blank: confirming it straight away passes the name
    check and, when the storage accepts the write, appends one record
    carrying the trimmed proposal as its name and the live documents as
    its documents, closes the name input and shows the library tab. *)
Theorem X18_proposed_name_can_be_confirmed
    (clock : nat -> Z) (dateString timeString : Z -> string) (s : App.State) :
  (App.liveDocuments s = [] ->
   App.handleInitiateSave clock dateString timeString s = s)
  /\ (App.liveDocuments s <> [] ->
      App.showSaveInput (App.handleInitiateSave clock dateString timeString s)
      = true
      /\ App.saveName (App.handleInitiateSave clock dateString timeString s)
         = "SDK Docs - " +:+ dateString (clock (App.ticks s)) +:+ " "
           +:+ timeString (clock (S (App.ticks s)))
      /\ truthy (trim (App.saveName
                         (App.handleInitiateSave clock dateString timeString s)))
         = true
      /\ exists kb,
           App.savedKBs
             (App.handleConfirmSave clock None
                (App.handleInitiateSave clock dateString timeString s))
           = App.savedKBs s ++ [kb]
           /\ App.KnowledgeBase.name kb
              = trim ("SDK Docs - " +:+ dateString (clock (App.ticks s)) +:+ " "
                      +:+ timeString (clock (S (App.ticks s))))
           /\ App.readArray
                (App.handleConfirmSave clock None
                   (App.handleInitiateSave clock dateString timeString s))
                (App.KnowledgeBase.files kb)
              = App.liveDocuments s
           /\ App.showSaveInput
                (App.handleConfirmSave clock None
                   (App.handleInitiateSave clock dateString timeString s))
              = false
           /\ App.activeTab
                (App.handleConfirmSave clock None
                   (App.handleInitiateSave clock dateString timeString s))
              = App.library).
Proof.
  unfold App.handleInitiateSave, App.liveDocuments.
  destruct (App.readArray s (App.files s)) as [|d D] eqn:HD.
  - split; [reflexivity|congruence].
  - split; [discriminate|]. intros _. cbn [length Nat.eqb App.dateNow].
    assert (forall x, truthy (trim ("SDK Docs - " +:+ x)) = true) as Hname
      by (intros x; apply trim_keeps_first; reflexivity).
    split; [reflexivity|]. split; [reflexivity|].
    split; [apply Hname|].
    unfold App.handleConfirmSave.
    cbn [App.saveName App.setShowSaveInput App.setSaveName App.log].
    rewrite Hname. cbn [negb].
    eexists. cbn. split; [reflexivity|]. split; [reflexivity|].
    split; [|split; reflexivity].
    unfold App.readArray in *. cbn. rewrite lookup_insert_eq. cbn.
    exact HD.
Qed.

Lemma X18_witness :
  App.showSaveInput
    (App.handleInitiateSave sampleClock (fun _ => "1/2/2026")
       (fun _ => "10:30 AM") uploadedState)
  = true.
Proof.
  refine (proj1 (proj2 (X18_proposed_name_can_be_confirmed sampleClock
            (fun _ => "1/2/2026") (fun _ => "10:30 AM") uploadedState) _)).
  vm_compute. discriminate.
Defined.

(** ** Reloading the page *)

Lemma run_inSync clock dateString timeString randomId es : forall s,
  allocated s -> inSync s ->
  inSync (App.run clock dateString timeString randomId s es).
Proof.
  induction es as [|e es IH]; intros s Hal Hsync; [exact Hsync|].
  unfold App.run in *. cbn [fold_left].
  apply IH; [apply step_allocated, Hal|apply step_inSync; assumption].
Qed.

Lemma mount_inSync stored : inSync (App.mount (App.initial stored)).
Proof.
  unfold inSync.
  destruct (mount_cells (App.initial stored)) as (_ & _ & _ & _ & ->).
  destruct stored as [saved|]; [|reflexivity].
  apply mount_stringify. reflexivity.
Qed.

Lemma mount_liveDocuments s :
  is_Some (App.heap s !! App.files s) ->
  App.liveDocuments (App.mount s) = App.liveDocuments s.
Proof.
  intros [v Hv]. unfold App.mount.
  destruct (App.localStorage s) as [saved|]; [|reflexivity].
  destruct (parseStored_fold saved [] s) as (Hg & Hf & _); [constructor|].
  destruct (fold_left App.parseStored saved ([], s)) as [kbs s'].
  cbn in Hg, Hf. unfold App.liveDocuments. cbn.
  change (App.readArray (App.setSavedKBs kbs s') (App.files s'))
    with (App.readArray s' (App.files s')).
  rewrite Hf, (readArray_grows s s' _ v Hg Hv).
  unfold App.readArray. rewrite Hv. reflexivity.
Qed.

(** X19.  Saved knowledge bases survive a reload.  Take any state the
    component reaches from its first render; a fresh component mounted on
    the storage slot as that state left it lists the same knowledge bases
    by value: same ids, names, creation times and documents, in the same
    order.  Its live upload list is empty and no session is active. *)
Theorem X19_saved_list_survives_reload
    (clock : nat -> Z) (dateString timeString : Z -> string)
    (randomId : nat -> string) (stored : option (list App.StoredKB.t))
    (es : list App.Event) :
  let s := App.run clock dateString timeString randomId
             (App.mount (App.initial stored)) es in
  let reloaded := App.mount (App.initial (App.localStorage s)) in
  App.stringify reloaded (App.savedKBs reloaded)
  = App.stringify s (App.savedKBs s)
  /\ App.liveDocuments reloaded = []
  /\ App.sessionActive reloaded = false.
Proof.
  intros s reloaded.
  assert (inSync s) as Hs.
  { apply run_inSync; [apply mount_allocated, initial_allocated|].
    apply mount_inSync. }
  pose proof (mount_inSync (App.localStorage s)) as Hr.
  fold reloaded in Hr.
  destruct (mount_cells (App.initial (App.localStorage s)))
    as (Ha & _ & _ & Hf & Hl).
  fold reloaded in Ha, Hf, Hl. cbn in Ha, Hf, Hl.
  split; [|split; [|exact Ha]].
  - unfold inSync in Hs, Hr. rewrite Hl in Hr.
    destruct (App.localStorage s) as [v|]; [congruence|].
    rewrite Hs, Hr. reflexivity.
  - subst reloaded. rewrite mount_liveDocuments; [reflexivity|].
    cbn. rewrite lookup_singleton_eq. eauto.
Qed.

(** ** Removing a document *)

(** X20.  Removing by id installs a new array that keeps, in their order,
    exactly the live documents whose id differs from the given one; every
    document with that id goes.  When no live document has the id, the
    live list is unchanged by value.  The array that held the list before,
    the saved records and the session are untouched. *)
Theorem X20_remove_file_by_id
    (id : string) (s : App.State) :
  (forall d, d ∈ App.liveDocuments (App.removeFile id s)
             <-> d ∈ App.liveDocuments s /\ UploadedFile.id d <> id)
  /\ sublist (App.liveDocuments (App.removeFile id s)) (App.liveDocuments s)
  /\ (Forall (fun d => UploadedFile.id d <> id) (App.liveDocuments s) ->
      App.liveDocuments (App.removeFile id s) = App.liveDocuments s)
  /\ (forall l, is_Some (App.heap s !! l) ->
        App.readArray (App.removeFile id s) l = App.readArray s l)
  /\ App.savedKBs (App.removeFile id s) = App.savedKBs s
  /\ App.sessionActive (App.removeFile id s) = App.sessionActive s
  /\ App.chatState (App.removeFile id s) = App.chatState s.
Proof.
  assert (App.liveDocuments (App.removeFile id s)
          = filter (fun f => UploadedFile.id f <> id) (App.liveDocuments s))
    as Hlive.
  { unfold App.removeFile, App.liveDocuments, App.readArray. cbn.
    rewrite lookup_insert_eq. reflexivity. }
  rewrite Hlive. split; [|split; [|split; [|split]]].
  - intros d. rewrite list_elem_of_filter. tauto.
  - apply sublist_filter.
  - generalize (App.liveDocuments s). intros docs Hall.
    induction Hall as [|d l Hd _ IH]; [reflexivity|].
    rewrite filter_cons_True by exact Hd. rewrite IH. reflexivity.
  - intros l [v Hv]. unfold App.removeFile, App.readArray. cbn.
    rewrite lookup_insert_ne; [reflexivity|].
    intros <-. rewrite fresh_unallocated in Hv. discriminate.
  - repeat split.
Qed.

Lemma X20_witness :
  App.liveDocuments (App.removeFile "zz" uploadedState)
  = App.liveDocuments uploadedState.
Proof.
  refine (proj1 (proj2 (proj2 (X20_remove_file_by_id "zz" uploadedState))) _).
  repeat constructor; vm_compute; discriminate.
Defined.
